(** * The self-attention decoder of OpenNMT-tf

    A shallow embedding of [opennmt/decoders/self_attention_decoder.py]:
    the decoder stack [SelfAttentionDecoder] and its layer
    [_SelfAttentionDecoderLayer], over an interface for the tensor library
    and the sublayers of [opennmt.layers] that the file calls. *)

From Stdlib Require Import String.
From Stdlib Require Import List Arith Lia Bool.
Import ListNotations.
Open Scope string_scope.
Open Scope list_scope.
Open Scope nat_scope.

Set Implicit Arguments.

(** ** Python exceptions and the error monad *)

Inductive exn : Type :=
| ValueError (msg : string)
| TypeError (msg : string)
| IndexError (msg : string)
| UnboundLocalError (name : string)
| ZeroDivisionError
| CollaboratorError.

Inductive result (A : Type) : Type :=
| Ok (a : A)
| Raise (e : exn).
Arguments Ok {A} a.
Arguments Raise {A} e.

Definition bind {A B : Type} (m : result A) (k : A -> result B) : result B :=
  match m with
  | Ok a => k a
  | Raise e => Raise e
  end.

Declare Scope py_scope.
Delimit Scope py_scope with py.
Notation "x <- m ;; k" := (bind m (fun x => k))
  (at level 61, m at next level, right associativity) : py_scope.
Notation "' p <- m ;; k" := (bind m (fun x => let p := x in k))
  (at level 61, p pattern, m at next level, right associativity) : py_scope.
Open Scope py_scope.

(** A call into the tensor library or a sublayer either returns or fails;
    its failure surfaces unchanged to the caller of the decoder. *)
Definition collab {A : Type} (r : option A) : result A :=
  match r with
  | Some a => Ok a
  | None => Raise CollaboratorError
  end.

(** Collaborators are written in the option monad. *)
Definition obind {A B : Type} (m : option A) (k : A -> option B) : option B :=
  match m with
  | Some a => k a
  | None => None
  end.

Notation "x <~ m ;; k" := (obind m (fun x => k))
  (at level 61, m at next level, right associativity) : py_scope.
Notation "' p <~ m ;; k" := (obind m (fun x => let p := x in k))
  (at level 61, p pattern, m at next level, right associativity) : py_scope.

Definition succeeds {A : Type} (r : result A) : Prop := exists a, r = Ok a.

(** ** Python values *)

(** [memory] and [memory_sequence_length] are a bare tensor or a list/tuple
    of tensors ([isinstance(x, (list, tuple))]). *)
Inductive tensor_or_seq (T : Type) : Type :=
| Bare (t : T)
| Seq (l : list T).
Arguments Bare {T} t.
Arguments Seq {T} l.

(** [x if isinstance(x, (list, tuple)) else (x,)] *)
Definition as_tuple {T : Type} (x : tensor_or_seq T) : list T :=
  match x with
  | Bare t => [t]
  | Seq l => l
  end.

(** Python's [zip]: an argument that is [None] is not iterable (TypeError when
    [zip] is called); otherwise the result stops at the shortest argument. *)
Definition not_iterable : exn := TypeError "'NoneType' object is not iterable".

Definition zip2 {A B : Type} (a : option (list A)) (b : option (list B))
  : result (list (A * B)) :=
  match a, b with
  | Some a, Some b => Ok (combine a b)
  | _, _ => Raise not_iterable
  end.

Definition zip4 {A B C D : Type} (a : option (list A)) (b : option (list B))
  (c : option (list C)) (d : option (list D))
  : result (list (A * B * C * D)) :=
  match a, b, c, d with
  | Some a, Some b, Some c, Some d => Ok (combine (combine (combine a b) c) d)
  | _, _, _, _ => Raise not_iterable
  end.

(** [l[i]] on a Python list *)
Definition getitem {A : Type} (l : list A) (i : nat) : result A :=
  match nth_error l i with
  | Some a => Ok a
  | None => Raise (IndexError "list index out of range")
  end.

(** ** The collaborators: tensors and sublayers *)

Class TensorTypes : Type := {
  Tensor : Type;           (* tf.Tensor *)
  DType : Type;            (* tf.DType *)
  Float : Type;            (* Python float: dropout rates, probabilities *)
  Activation : Type;       (* ffn_activation, e.g. tf.nn.relu *)
  Variables : Type;        (* the trainable variables of one Keras layer *)
  PositionEncoder : Type;  (* opennmt.layers.position.PositionEncoder *)
  LayerNorm : Type;        (* opennmt.layers.common.LayerNorm *)
  Dense : Type;            (* the output layer of decoder.Decoder *)
}.

Section Objects.
Context {TT : TensorTypes}.

(** [transformer.MultiHeadAttention(num_heads, num_units, dropout=...,
    return_attention=...)] *)
Record MultiHeadAttention : Type := {
  mha_num_heads : nat;
  mha_num_units : nat;
  mha_dropout : Float;
  mha_return_attention : bool;
  mha_variables : Variables;
}.

(** [transformer.FeedForwardNetwork(inner_dim, output_dim, dropout=...,
    activation=...)] *)
Record FeedForwardNetwork : Type := {
  ffn_inner_dim : nat;
  ffn_output_dim : nat;
  ffn_dropout : Float;
  ffn_activation : Activation;
  ffn_variables : Variables;
}.

(** [transformer.TransformerLayerWrapper(layer, output_dropout)] *)
Record TransformerLayerWrapper (L : Type) : Type := {
  wrapped : L;
  output_dropout : Float;
}.

(** What a wrapped attention layer returns: [(outputs, cache)], or
    [(outputs, cache, attention)] when it was built with
    [return_attention=True]. *)
Inductive attention_result : Type :=
| Tuple2 (outputs : Tensor) (kv : Tensor * Tensor)
| Tuple3 (outputs : Tensor) (kv : Tensor * Tensor) (attention : Tensor).
End Objects.

Class TensorOps {TT : TensorTypes} : Type := {
  (* tensorflow *)
  tf_shape : Tensor -> list nat;
  tf_expand_dims : Tensor -> nat -> option Tensor;
  tf_squeeze : Tensor -> nat -> option Tensor;
  tf_zeros : list nat -> DType -> Tensor;
  tf_float32 : DType;
  tf_sequence_mask : Tensor -> nat -> DType -> option Tensor;
  (* inputs * num_units**0.5 *)
  mul_sqrt : Tensor -> nat -> option Tensor;
  (* attention[:, 0] *)
  getitem_head0 : Tensor -> option Tensor;
  (* opennmt.layers *)
  call_position_encoder : PositionEncoder -> Tensor -> option nat -> option Tensor;
  common_dropout : Tensor -> Float -> option bool -> option Tensor;
  common_LayerNorm : LayerNorm;
  call_layer_norm : LayerNorm -> Tensor -> option Tensor;
  transformer_future_mask : Tensor -> nat -> option Tensor;
  call_attention :
    TransformerLayerWrapper MultiHeadAttention ->
    Tensor -> option Tensor -> option Tensor -> option (Tensor * Tensor) ->
    option bool -> option attention_result;
  call_ffn :
    TransformerLayerWrapper FeedForwardNetwork ->
    Tensor -> option bool -> option Tensor;
  call_dense : Dense -> Tensor -> option Tensor;
}.

Fixpoint mapM {A B : Type} (f : A -> result B) (l : list A) : result (list B) :=
  match l with
  | [] => Ok []
  | a :: l =>
      b <- f a ;;
      bs <- mapM f l ;;
      Ok (b :: bs)
  end.

(** [a // b] on non-negative Python ints *)
Definition floordiv (a b : nat) : result nat :=
  if b =? 0 then Raise ZeroDivisionError else Ok (a / b).

(** ** One decoding layer: [class _SelfAttentionDecoderLayer] *)

Module _SelfAttentionDecoderLayer.
Section WithTensors.
Context {TT : TensorTypes} {TO : TensorOps}.

(** The layer object: the attributes [__init__] sets. *)
Record t : Type := {
  self_attention : TransformerLayerWrapper MultiHeadAttention;
  attention : list (TransformerLayerWrapper MultiHeadAttention);
  ffn : TransformerLayerWrapper FeedForwardNetwork;
}.

(** Keras gives every sublayer object trainable variables of its own; the
    embedding takes them as an argument of the constructor. *)
Record variables : Type := {
  self_attention_variables : Variables;
  attention_variables : nat -> Variables;
  ffn_variables' : Variables;
}.

(** The layer's slice of the decoder state: a dict with the keys
    ["self_kv"] and ["memory_kv"], either of which may be missing
    ([cache.get] then returns [None]). *)
Record cache_dict : Type := {
  self_kv : option (Tensor * Tensor);
  memory_kv : option (list (Tensor * Tensor));
}.

Definition empty_dict : cache_dict := {| self_kv := None; memory_kv := None |}.

Definition __init__ (num_units num_heads ffn_inner_dim num_sources : nat)
  (dropout attention_dropout ffn_dropout : Float)
  (ffn_activation : Activation) (vars : variables) : t :=
  {| self_attention :=
       {| wrapped :=
            {| mha_num_heads := num_heads;
               mha_num_units := num_units;
               mha_dropout := attention_dropout;
               mha_return_attention := false;
               mha_variables := self_attention_variables vars |};
          output_dropout := dropout |};
     attention :=
       map (fun i =>
              {| wrapped :=
                   {| mha_num_heads := num_heads;
                      mha_num_units := num_units;
                      mha_dropout := attention_dropout;
                      mha_return_attention := (num_sources =? 1);
                      mha_variables := attention_variables vars i |};
                 output_dropout := dropout |})
           (seq 0 num_sources);
     ffn :=
       {| wrapped :=
            {| ffn_inner_dim := ffn_inner_dim;
               ffn_output_dim := num_units;
               ffn_dropout := ffn_dropout;
               ffn_activation := ffn_activation;
               ffn_variables := ffn_variables' vars |};
          output_dropout := dropout |} |}.

(** The body of [for layer, mem, mem_mask, mem_cache in zip(...)], started
    with the current [outputs], [memory_kv] and [attention]. *)
Fixpoint attend_memory
  (zipped : list (TransformerLayerWrapper MultiHeadAttention * Tensor * Tensor
                  * option (Tensor * Tensor)))
  (outputs : Tensor) (memory_kv : list (Tensor * Tensor))
  (attention : option Tensor) (training : option bool)
  : result (Tensor * list (Tensor * Tensor) * option Tensor) :=
  match zipped with
  | [] => Ok (outputs, memory_kv, attention)
  | (layer, mem, mem_mask, mem_cache) :: zipped =>
      result <- collab (call_attention layer outputs (Some mem) (Some mem_mask)
                          mem_cache training) ;;
      match result with
      | Tuple3 outputs memory_kv_i attention =>
          (* Use the first head for the attention vector. *)
          attention <- collab (getitem_head0 attention) ;;
          attend_memory zipped outputs (memory_kv ++ [memory_kv_i])
            (Some attention) training
      | Tuple2 outputs memory_kv_i =>
          attend_memory zipped outputs (memory_kv ++ [memory_kv_i])
            attention training
      end
  end.

(** Runs the decoder layer. *)
Definition call (self : t) (inputs : Tensor) (mask : option Tensor)
  (memory : option (list Tensor)) (memory_mask : option (list Tensor))
  (cache : option cache_dict) (training : option bool)
  : result (Tensor * cache_dict * option Tensor) :=
  let cache := match cache with None => empty_dict | Some cache => cache end in
  result <- collab (call_attention (self_attention self) inputs None mask
                      (self_kv cache) training) ;;
  '(outputs, self_kv) <-
    match result with
    | Tuple2 outputs self_kv => Ok (outputs, self_kv)
    | Tuple3 _ _ _ => Raise (ValueError "too many values to unpack (expected 2)")
    end ;;
  '(outputs, memory_kv, attention) <-
    match memory with
    | None => Ok (outputs, [], None)
    | Some memory =>
        let memory_cache :=
          match memory_kv cache with
          | None => repeat None (length (attention self))
          | Some memory_cache => map Some memory_cache
          end in
        zipped <- zip4 (Some (attention self)) (Some memory) memory_mask
                    (Some memory_cache) ;;
        attend_memory zipped outputs [] None training
    end ;;
  outputs <- collab (call_ffn (ffn self) outputs training) ;;
  Ok (outputs, {| self_kv := Some self_kv; memory_kv := Some memory_kv |}, attention).
End WithTensors.
End _SelfAttentionDecoderLayer.

(** ** The decoder stack: [class SelfAttentionDecoder] *)

Module SelfAttentionDecoder.
Section WithTensors.
Context {TT : TensorTypes} {TO : TensorOps}.

Local Abbreviation Layer := _SelfAttentionDecoderLayer.t.
Local Abbreviation cache_dict := _SelfAttentionDecoderLayer.cache_dict.

(** The decoder object.  [num_sources] and [output_layer] are attributes of
    the base class [decoder.Decoder]; the constructor of the base class
    stores [num_sources], and the output layer is set by the enclosing
    model.  The record is a decoder whose output layer has been set; before
    that the attribute is [None], and calling it fails. *)
Record t : Type := {
  num_units : nat;
  num_heads : nat;
  dropout : Float;
  position_encoder : option PositionEncoder;
  layer_norm : LayerNorm;
  layers : list Layer;
  num_sources : nat;
  output_layer : Dense;
}.

Definition __init__ (num_layers num_units num_heads ffn_inner_dim : nat)
  (dropout attention_dropout ffn_dropout : Float)
  (ffn_activation : Activation)
  (position_encoder_class : option PositionEncoder)
  (num_sources : nat)
  (vars : nat -> _SelfAttentionDecoderLayer.variables)
  (output_layer : Dense) : t :=
  {| num_units := num_units;
     num_heads := num_heads;
     dropout := dropout;
     position_encoder := position_encoder_class;
     layer_norm := common_LayerNorm;
     layers :=
       map (fun i =>
              _SelfAttentionDecoderLayer.__init__ num_units num_heads
                ffn_inner_dim num_sources dropout attention_dropout
                ffn_dropout ffn_activation (vars i))
           (seq 0 num_layers);
     num_sources := num_sources;
     output_layer := output_layer |}.

Definition minimum_sources (self : t) : nat := 0.

(** An arbitrary large number. *)
Definition maximum_sources (self : t) : nat := 1000 * 1000.

Definition support_alignment_history (self : t) : bool :=
  num_sources self =? 1.

(** [# Process inputs.] *)
Definition process_inputs (self : t) (inputs : Tensor) (step : option nat)
  (training : option bool) : result Tensor :=
  inputs <- collab (mul_sqrt inputs (num_units self)) ;;
  inputs <-
    match position_encoder self with
    | Some position_encoder =>
        collab (call_position_encoder position_encoder inputs
                  (match step with Some step => Some (step + 1) | None => None end))
    | None => Ok inputs
    end ;;
  collab (common_dropout inputs (dropout self) training).

(** [# Prepare query mask.] *)
Definition prepare_query_mask (inputs : Tensor)
  (sequence_length : option Tensor) : result (option Tensor) :=
  match sequence_length with
  | Some sequence_length =>
      maximum_length <- collab (nth_error (tf_shape inputs) 1) ;;
      mask <- collab (transformer_future_mask sequence_length maximum_length) ;;
      Ok (Some mask)
  | None => Ok None
  end.

(** [# Prepare memory mask.]  Returns the normalised [memory] together with
    [memory_mask]. *)
Definition prepare_memory_mask (memory : option (tensor_or_seq Tensor))
  (memory_sequence_length : option (tensor_or_seq Tensor))
  : result (option (list Tensor) * option (list Tensor)) :=
  let memory :=
    match memory with
    | Some memory => Some (as_tuple memory)
    | None => None
    end in
  match memory_sequence_length with
  | Some memory_sequence_length =>
      let memory_sequence_length := as_tuple memory_sequence_length in
      zipped <- zip2 memory (Some memory_sequence_length) ;;
      memory_mask <-
        mapM (fun '(mem, mem_length) =>
                maxlen <- collab (nth_error (tf_shape mem) 1) ;;
                mem_mask <- collab (tf_sequence_mask mem_length maxlen tf_float32) ;;
                collab (tf_expand_dims mem_mask 1))
             zipped ;;
      Ok (memory, Some memory_mask)
  | None => Ok (memory, None)
  end.

(** [# Run each layer.]  The loop [for i, layer in enumerate(self.layers)],
    entered at index [i] with the current [inputs], [new_cache] and the
    binding of the local [attention] ([None] while it is unbound). *)
Fixpoint run_layers (layers : list Layer) (i : nat) (inputs : Tensor)
  (mask : option Tensor) (memory memory_mask : option (list Tensor))
  (cache : option (list cache_dict)) (training : option bool)
  (new_cache : list cache_dict) (attention : option (option Tensor))
  : result (Tensor * list cache_dict * option (option Tensor)) :=
  match layers with
  | [] => Ok (inputs, new_cache, attention)
  | layer :: layers =>
      layer_cache_in <-
        match cache with
        | Some cache => c <- getitem cache i ;; Ok (Some c)
        | None => Ok None
        end ;;
      '(inputs, layer_cache, attention) <-
        _SelfAttentionDecoderLayer.call layer inputs mask memory memory_mask
          layer_cache_in training ;;
      run_layers layers (S i) inputs mask memory memory_mask cache training
        (new_cache ++ [layer_cache]) (Some attention)
  end.

Definition _run (self : t) (inputs : Tensor) (sequence_length : option Tensor)
  (cache : option (list cache_dict))
  (memory memory_sequence_length : option (tensor_or_seq Tensor))
  (step : option nat) (training : option bool)
  : result (Tensor * list cache_dict * option Tensor) :=
  inputs <- process_inputs self inputs step training ;;
  mask <- prepare_query_mask inputs sequence_length ;;
  '(memory, memory_mask) <- prepare_memory_mask memory memory_sequence_length ;;
  '(inputs, new_cache, attention) <-
    run_layers (layers self) 0 inputs mask memory memory_mask cache training
      [] None ;;
  outputs <- collab (call_layer_norm (layer_norm self) inputs) ;;
  match attention with
  | Some attention => Ok (outputs, new_cache, attention)
  | None => Raise (UnboundLocalError "attention")
  end.

Definition forward {State InputFn : Type} (self : t) (inputs : Tensor)
  (sequence_length : option Tensor) (initial_state : option State)
  (memory memory_sequence_length : option (tensor_or_seq Tensor))
  (input_fn : option InputFn) (sampling_probability : option Float)
  (training : option bool)
  : result (Tensor * list cache_dict * option Tensor) :=
  match sampling_probability with
  | Some _ =>
      Raise (ValueError "Scheduled sampling is not supported by this decoder")
  | None =>
      '(outputs, state, attention) <-
        _run self inputs sequence_length None memory memory_sequence_length
          None training ;;
      logits <- collab (call_dense (output_layer self) outputs) ;;
      Ok (logits, state, attention)
  end.

Definition step (self : t) (inputs : Tensor) (timestep : nat)
  (state : option (list cache_dict))
  (memory memory_sequence_length : option (tensor_or_seq Tensor))
  (training : option bool)
  : result (Tensor * list cache_dict * option Tensor) :=
  inputs <- collab (tf_expand_dims inputs 1) ;;
  '(outputs, state, attention) <-
    _run self inputs None state memory memory_sequence_length
      (Some timestep) training ;;
  outputs <- collab (tf_squeeze outputs 1) ;;
  attention <-
    match attention with
    | Some attention =>
        attention <- collab (tf_squeeze attention 1) ;;
        Ok (Some attention)
    | None => Ok None
    end ;;
  Ok (outputs, state, attention).

(** The decoder state contains the keys and values projections of the
    previous timesteps. *)
Definition _get_initial_state {State : Type} (self : t) (batch_size : nat)
  (dtype : DType) (initial_state : option State) : result (list cache_dict) :=
  mapM (fun _ : Layer =>
          head_dim <- floordiv (num_units self) (num_heads self) ;;
          let shape := [batch_size; num_heads self; 0; head_dim] in
          let self_kv := (tf_zeros shape dtype, tf_zeros shape dtype) in
          let memory_kv :=
            map (fun _ => (tf_zeros shape dtype, tf_zeros shape dtype))
                (seq 0 (num_sources self)) in
          Ok {| _SelfAttentionDecoderLayer.self_kv := Some self_kv;
                _SelfAttentionDecoderLayer.memory_kv := Some memory_kv |})
       (layers self).
End WithTensors.
End SelfAttentionDecoder.

(** ** Vocabulary of the statements *)

(** [Prefix2 P l l']: the elements of [l'] are related, in order, to the
    first elements of [l]; [l] may be longer. *)
Inductive Prefix2 {A B : Type} (P : A -> B -> Prop) : list A -> list B -> Prop :=
| Prefix2_nil (l : list A) : Prefix2 P l []
| Prefix2_cons (a : A) (b : B) (l : list A) (l' : list B) :
    P a b -> Prefix2 P l l' -> Prefix2 P (a :: l) (b :: l').

Section Vocabulary.
Context {TT : TensorTypes} {TO : TensorOps}.

(** Both tensors of a keys/values pair have the shape [s]. *)
Definition kv_has_shape (s : list nat) (kv : Tensor * Tensor) : Prop :=
  tf_shape (fst kv) = s /\ tf_shape (snd kv) = s.

(** A layer's cache holds a [self_kv] pair of shape [s] and [memory_kv] pairs
    of the shapes [ms], one per entry and in order. *)
Definition cache_has_shapes (s : list nat) (ms : list (list nat))
  (c : _SelfAttentionDecoderLayer.cache_dict) : Prop :=
  (exists kv, _SelfAttentionDecoderLayer.self_kv c = Some kv /\ kv_has_shape s kv)
  /\ (exists mem, _SelfAttentionDecoderLayer.memory_kv c = Some mem
                  /\ Forall2 kv_has_shape ms mem).

(** The caller's loop of incremental decoding: one [step] per input, with the
    timesteps [timestep], [timestep + 1], ... and the state threaded from
    each call to the next.  Returns the outputs and attentions of the steps
    and the last state. *)
Fixpoint decode (self : SelfAttentionDecoder.t) (inputs : list Tensor)
  (timestep : nat) (state : option (list _SelfAttentionDecoderLayer.cache_dict))
  (memory memory_sequence_length : option (tensor_or_seq Tensor))
  (training : option bool)
  : result (list (Tensor * option Tensor)
            * option (list _SelfAttentionDecoderLayer.cache_dict)) :=
  match inputs with
  | [] => Ok ([], state)
  | x :: inputs =>
      '(outputs, state, attention) <-
        SelfAttentionDecoder.step self x timestep state memory
          memory_sequence_length training ;;
      '(rest, state) <-
        decode self inputs (S timestep) (Some state) memory
          memory_sequence_length training ;;
      Ok ((outputs, attention) :: rest, state)
  end.

(** The contract of [MultiHeadAttention]: a layer built without
    [return_attention] returns no attention weights. *)
Definition returns_attention_on_request : Prop :=
  forall layer inputs memory mask cache training result,
    mha_return_attention (wrapped layer) = false ->
    call_attention layer inputs memory mask cache training = Some result ->
    exists outputs kv, result = Tuple2 outputs kv.

(** The numbers of memory tensors and of length vectors that a call supplies
    are inconsistent with the configured [num_sources]. *)
Definition source_count_mismatch (self : SelfAttentionDecoder.t)
  (memory memory_sequence_length : tensor_or_seq Tensor) : Prop :=
  length (as_tuple memory) <> SelfAttentionDecoder.num_sources self
  \/ length (as_tuple memory_sequence_length)
     <> SelfAttentionDecoder.num_sources self.

(** The self-attention sublayer of [layer] was called with the mask [mask]
    and returned. *)
Definition self_attention_called_with (mask : option Tensor)
  (training : option bool) (layer : _SelfAttentionDecoderLayer.t) : Prop :=
  exists query cache outputs kv,
    call_attention (_SelfAttentionDecoderLayer.self_attention layer) query None
      mask cache training = Some (Tuple2 outputs kv).

End Vocabulary.

(** ** The shapes of the tensors

    The first reading of the interface keeps of every tensor its shape and
    its dtype only; a collaborator fails where the shapes of its arguments do
    not fit. *)

Module Shapes.

Inductive dtype : Type := float16 | float32 | float64.

Record tensor : Type := {
  shape : list nat;
  dt : dtype;
}.

#[export] Instance types : TensorTypes := {|
  Tensor := tensor;
  DType := dtype;
  Float := unit;
  Activation := unit;
  Variables := unit;
  PositionEncoder := unit;
  LayerNorm := unit;
  Dense := nat;            (* the size of the vocabulary *)
|}.

Definition with_shape (t : tensor) (s : list nat) : tensor :=
  {| shape := s; dt := dt t |}.

(** [tf.expand_dims(t, axis)] inserts a dimension of size 1. *)
Definition expand_dims (t : tensor) (axis : nat) : option tensor :=
  if axis <=? length (shape t)
  then Some (with_shape t (firstn axis (shape t) ++ 1 :: skipn axis (shape t)))
  else None.

(** [tf.squeeze(t, axis=axis)] removes a dimension, which must be of size 1. *)
Definition squeeze (t : tensor) (axis : nat) : option tensor :=
  match nth_error (shape t) axis with
  | Some 1 => Some (with_shape t (firstn axis (shape t) ++ skipn (S axis) (shape t)))
  | _ => None
  end.

(** [tf.sequence_mask(lengths, maxlen=maxlen, dtype=dtype)] *)
Definition sequence_mask (lengths : tensor) (maxlen : nat) (d : dtype)
  : option tensor :=
  Some {| shape := shape lengths ++ [maxlen]; dt := d |}.

(** [t[:, 0]] *)
Definition head0 (t : tensor) : option tensor :=
  match shape t with
  | b :: S _ :: rest => Some (with_shape t (b :: rest))
  | _ => None
  end.

(** Modelled from the spec: the position encoder of [opennmt.layers.position]
    adds to a sequence batch \[batch, time, units\] an encoding of the
    positions and keeps its shape. *)
Definition position_encoder (t : tensor) (position : option nat) : option tensor :=
  match shape t with
  | [_; _; _] => Some t
  | _ => None
  end.

(** Modelled from the spec: [transformer.future_mask] builds for lengths of
    shape \[batch\] the combined causal and padding mask
    \[batch, maximum_length, maximum_length\]. *)
Definition future_mask (sequence_length : tensor) (maximum_length : nat)
  : option tensor :=
  match shape sequence_length with
  | [b] => Some {| shape := [b; maximum_length; maximum_length]; dt := float32 |}
  | _ => None
  end.

(** A mask \[batch, 1 or query_time, key_time\] fits the attention scores
    \[batch, heads, query_time, key_time\] it is broadcast against. *)
Definition mask_fits (mask : option tensor) (b tq tk : nat) : bool :=
  match mask with
  | None => true
  | Some m =>
      match shape m with
      | [mb; mq; mk] => (mb =? b) && ((mq =? 1) || (mq =? tq)) && (mk =? tk)
      | _ => false
      end
  end.

(** The keys or values \[batch, heads, time, head_dim\] projected from a
    sequence batch. *)
Definition project_kv (m : MultiHeadAttention) (x : tensor) : option tensor :=
  match shape x with
  | [b; t; _] =>
      Some (with_shape x [b; mha_num_heads m; t;
                          mha_num_units m / mha_num_heads m])
  | _ => None
  end.

(** [tf.concat(\[a, b\], axis=2)] of two keys or values tensors. *)
Definition concat_time (a b : tensor) : option tensor :=
  match shape a, shape b with
  | [b1; h1; t1; d1], [b2; h2; t2; d2] =>
      if (b1 =? b2) && (h1 =? h2) && (d1 =? d2)
      then Some (with_shape b [b1; h1; t1 + t2; d1])
      else None
  | _, _ => None
  end.

(** Modelled from the spec: [transformer.MultiHeadAttention] under its
    [TransformerLayerWrapper].  Self-attention (no [memory]) appends the keys
    and values of the current inputs to the cached history; memory attention
    projects the memory once, when the cached history is empty, and reuses
    the cache afterwards.  The outputs keep the shape of the queries, the
    attention weights are \[batch, heads, query_time, key_time\] and are
    returned only by a layer built with [return_attention]. *)
Definition attention (layer : TransformerLayerWrapper MultiHeadAttention)
  (inputs : tensor) (memory mask : option tensor)
  (cache : option (tensor * tensor)) (training : option bool)
  : option attention_result :=
  let m := wrapped layer in
  match shape inputs with
  | [b; tq; _] =>
      kv <~
        match memory with
        | None =>
            k <~ project_kv m inputs ;;
            v <~ project_kv m inputs ;;
            match cache with
            | Some (ck, cv) =>
                keys <~ concat_time ck k ;;
                values <~ concat_time cv v ;;
                Some (keys, values)
            | None => Some (k, v)
            end
        | Some memory =>
            match cache with
            | Some (ck, cv) =>
                match shape ck with
                | [_; _; 0; _] =>
                    k <~ project_kv m memory ;;
                    v <~ project_kv m memory ;;
                    Some (k, v)
                | [_; _; _; _] => Some (ck, cv)
                | _ => None
                end
            | None =>
                k <~ project_kv m memory ;;
                v <~ project_kv m memory ;;
                Some (k, v)
            end
        end ;;
      match shape (fst kv), shape (snd kv) with
      | [kb; kh; tk; kd], [vb; vh; tv; vd] =>
          if (kb =? b) && (vb =? b) && (kh =? mha_num_heads m)
             && (vh =? mha_num_heads m) && (tk =? tv) && mask_fits mask b tq tk
          then
            let outputs := with_shape inputs [b; tq; mha_num_units m] in
            if mha_return_attention m
            then Some (Tuple3 outputs kv
                         (with_shape inputs [b; mha_num_heads m; tq; tk]))
            else Some (Tuple2 outputs kv)
          else None
      | _, _ => None
      end
  | _ => None
  end.

(** Modelled from the spec: the position-wise feed-forward network under its
    wrapper keeps batch and time and returns [output_dim] units. *)
Definition ffn (layer : TransformerLayerWrapper FeedForwardNetwork)
  (inputs : tensor) (training : option bool) : option tensor :=
  match shape inputs with
  | [b; t; _] => Some (with_shape inputs [b; t; ffn_output_dim (wrapped layer)])
  | _ => None
  end.

(** The output layer maps the last dimension to the vocabulary. *)
Definition dense (vocab : nat) (inputs : tensor) : option tensor :=
  match rev (shape inputs) with
  | _ :: r => Some (with_shape inputs (rev (vocab :: r)))
  | [] => None
  end.

#[export] Instance ops : TensorOps := {|
  tf_shape := shape;
  tf_expand_dims := expand_dims;
  tf_squeeze := squeeze;
  tf_zeros := fun s d => {| shape := s; dt := d |};
  tf_float32 := float32;
  tf_sequence_mask := sequence_mask;
  mul_sqrt := fun t _ => Some t;
  getitem_head0 := head0;
  call_position_encoder := fun _ => position_encoder;
  common_dropout := fun t _ _ => Some t;
  common_LayerNorm := tt;
  call_layer_norm := fun _ t => Some t;
  transformer_future_mask := future_mask;
  call_attention := attention;
  call_ffn := ffn;
  call_dense := dense;
|}.

(** A small decoder: two layers, eight units in two heads. *)
Definition no_variables : _SelfAttentionDecoderLayer.variables :=
  {| _SelfAttentionDecoderLayer.self_attention_variables := tt;
     _SelfAttentionDecoderLayer.attention_variables := fun _ => tt;
     _SelfAttentionDecoderLayer.ffn_variables' := tt |}.

Definition decoder (num_layers num_units num_heads num_sources : nat)
  : SelfAttentionDecoder.t :=
  SelfAttentionDecoder.__init__ num_layers num_units num_heads 2048 tt tt tt tt
    (Some tt) num_sources (fun _ => no_variables) 100.

Definition small_decoder (num_sources : nat) : SelfAttentionDecoder.t :=
  decoder 2 8 2 num_sources.

Definition float_tensor (s : list nat) : tensor := {| shape := s; dt := float32 |}.

(** A wrapped attention sublayer with [heads] heads and [units] units. *)
Definition sublayer_of (heads units : nat) (return_attention : bool)
  (layer : TransformerLayerWrapper MultiHeadAttention) : Prop :=
  mha_num_heads (wrapped layer) = heads
  /\ mha_num_units (wrapped layer) = units
  /\ mha_return_attention (wrapped layer) = return_attention.

(** What a cached keys/values pair may be before memory attention over a
    source of length [S]: still empty, or the projection of that source. *)
Definition memory_entry (B heads units S : nat) (kv : tensor * tensor) : Prop :=
  (exists b h d, shape (fst kv) = [b; h; 0; d])
  \/ kv_has_shape [B; heads; S; units / heads] kv.

(** One element of the [zip] of [call] fits a source of length [S]. *)
Definition zipped_fits (B heads units : nat) (return_attention : bool)
  (item : TransformerLayerWrapper MultiHeadAttention * tensor * tensor
          * option (tensor * tensor)) (S : nat) : Prop :=
  let '(layer, mem, mem_mask, mem_cache) := item in
  sublayer_of heads units return_attention layer
  /\ (exists U, shape mem = [B; S; U])
  /\ shape mem_mask = [B; 1; S]
  /\ match mem_cache with
     | Some kv => memory_entry B heads units S kv
     | None => True
     end.

(** The normalised [memory] and [memory_mask] of a decoder with
    [num_sources] sources fit the attended sources, of the lengths [Ss]: no
    memory and no source, or a memory \[B, S, _\] and a mask \[B, 1, S\] for
    each of them, which are as many as [zip] leaves. *)
Definition sources_fit (num_sources B : nat) (Ss : list nat)
  (memory memory_mask : option (list tensor)) : Prop :=
  match memory with
  | None => Ss = []
  | Some mems =>
      exists masks,
        memory_mask = Some masks
        /\ Prefix2 (fun mem S => exists U, shape mem = [B; S; U]) mems Ss
        /\ Prefix2 (fun mask S => shape mask = [B; 1; S]) masks Ss
        /\ length Ss = min num_sources (min (length mems) (length masks))
  end.

(** A layer's incoming cache fits [Tc] cached timesteps and the sources
    [Ss]. *)
Definition cache_fits (B heads units Tc : nat) (Ss : list nat)
  (cache : option _SelfAttentionDecoderLayer.cache_dict) : Prop :=
  match cache with
  | None => Tc = 0
  | Some c =>
      (exists kv, _SelfAttentionDecoderLayer.self_kv c = Some kv
                  /\ kv_has_shape [B; heads; Tc; units / heads] kv)
      /\ match _SelfAttentionDecoderLayer.memory_kv c with
         | Some mem => Prefix2 (fun kv S => memory_entry B heads units S kv) mem Ss
         | None => True
         end
  end.

(** The attention a layer of a decoder with [num_sources] sources returns
    for [Tq] queries: the weights \[B, Tq, S\] over the one source when there
    is exactly one and it was attended, and nothing otherwise. *)
Definition attention_fits (num_sources B Tq : nat) (Ss : list nat)
  (att : option tensor) : Prop :=
  if (num_sources =? 1) && negb (length Ss =? 0)
  then exists a, att = Some a /\ shape a = [B; Tq; last Ss 0]
  else att = None.

(** A decoding layer with [heads] heads, [units] units and [num_sources]
    memory attention sublayers, as [__init__] builds it. *)
Definition layer_of (heads units num_sources : nat)
  (layer : _SelfAttentionDecoderLayer.t) : Prop :=
  sublayer_of heads units false (_SelfAttentionDecoderLayer.self_attention layer)
  /\ Forall (sublayer_of heads units (num_sources =? 1))
       (_SelfAttentionDecoderLayer.attention layer)
  /\ length (_SelfAttentionDecoderLayer.attention layer) = num_sources
  /\ ffn_output_dim (wrapped (_SelfAttentionDecoderLayer.ffn layer)) = units.

(** The incoming state of the stack fits [Tc] cached timesteps and the
    sources [Ss]: no state, or one fitting cache for each of the
    [num_layers] layers. *)
Definition state_fits (B heads units num_layers Tc : nat) (Ss : list nat)
  (state : option (list _SelfAttentionDecoderLayer.cache_dict)) : Prop :=
  match state with
  | None => Tc = 0
  | Some caches =>
      num_layers <= length caches
      /\ Forall (fun c => cache_fits B heads units Tc Ss (Some c)) caches
  end.

(** The arguments [memory] and [memory_sequence_length] of a call fit a batch
    of size [B]: both absent, or memories \[B, S, _\] and length vectors
    \[B\].  [Ss] are then the lengths of the sources that a decoder with
    [num_sources] sources attends: the first
    [min(num_sources, len(memory), len(memory_sequence_length))] ones. *)
Definition memory_args_fit (num_sources B : nat) (Ss : list nat)
  (memory memory_sequence_length : option (tensor_or_seq tensor)) : Prop :=
  match memory, memory_sequence_length with
  | None, None => Ss = []
  | Some memory, Some lengths =>
      exists Sm,
        Forall2 (fun mem S => exists U, shape mem = [B; S; U]) (as_tuple memory) Sm
        /\ Forall (fun l => shape l = [B]) (as_tuple lengths)
        /\ Ss = firstn (min num_sources (length (as_tuple lengths))) Sm
  | _, _ => False
  end.

(** The shapes of the memory keys and values of the sources [Ss]. *)
Definition memory_shapes (B heads units : nat) (Ss : list nat)
  : list (list nat) :=
  map (fun S => [B; heads; S; units / heads]) Ss.

End Shapes.

(** ** The values of the tensors

    The second reading of the interface keeps the values.  The numerics of
    the sublayers are not fixed: a vector of [units] numbers at one position
    of one batch row is a [vec], the keys (or values) of all heads at one
    position a [kvec], one attention weight a [weight], and the functions on
    them are parameters.  A tensor is a batch of rows of them. *)

Module Values.

Class Carrier : Type := {
  vec : Type;
  kvec : Type;
  weight : Type;
  vec_zero : vec;
  kvec_zero : kvec;
  weight_zero : weight;
  (* the dimensions hidden in [vec] and [kvec] *)
  vec_units : nat;
  kvec_heads : nat;
  kvec_dim : nat;
}.

Section Tensors.
Context {C : Carrier}.

Inductive tensor : Type :=
| Rows2 (x : list vec)                            (* [batch, units] *)
| Rows3 (x : list (list vec))                     (* [batch, time, units] *)
| Lengths (l : list nat)                          (* [batch] *)
| Mask2 (m : list (list bool))                    (* [batch, key_time] *)
| Mask3 (m : list (list (list bool)))             (* [batch, query_time or 1, key_time] *)
| KV (x : list (list kvec))                       (* [batch, heads, time, head_dim] *)
| Weights4 (w : list (list (list (list weight)))) (* [batch, heads, query_time, key_time] *)
| Weights3 (w : list (list (list weight)))        (* [batch, query_time, key_time] *)
| Weights2 (w : list (list weight)).              (* [batch, key_time] *)

#[export] Instance types : TensorTypes := {|
  Tensor := tensor;
  DType := unit;
  Float := nat;
  Activation := unit;
  Variables := nat;
  PositionEncoder := unit;
  LayerNorm := unit;
  Dense := unit;
|}.

(** The numerics of the collaborators, position by position. *)
Class Numerics : Type := {
  (* v * n**0.5 *)
  scale : nat -> vec -> vec;
  (* the encoding of a position, counted from 1, merged into a vector *)
  encode_position : PositionEncoder -> nat -> vec -> vec;
  (* one sample of dropout in training *)
  dropout_sample : Float -> vec -> vec;
  normalize : LayerNorm -> vec -> vec;
  (* the key and the value that an attention layer projects from a position *)
  key : TransformerLayerWrapper MultiHeadAttention -> vec -> kvec;
  value : TransformerLayerWrapper MultiHeadAttention -> vec -> kvec;
  (* the output of a wrapped attention layer for one query over the keys and
     values it may attend to, and the weights of one head over them *)
  attend :
    TransformerLayerWrapper MultiHeadAttention -> option bool ->
    vec -> list (kvec * kvec) -> vec;
  attention_weights :
    TransformerLayerWrapper MultiHeadAttention -> option bool -> nat ->
    vec -> list (kvec * kvec) -> list weight;
  feed_forward :
    TransformerLayerWrapper FeedForwardNetwork -> option bool -> vec -> vec;
  project : Dense -> vec -> vec;
}.

Context {N : Numerics}.

Definition time_extent {A : Type} (rows : list (list A)) : nat :=
  length (hd [] rows).

Definition shape (t : tensor) : list nat :=
  match t with
  | Rows2 x => [length x; vec_units]
  | Rows3 x => [length x; time_extent x; vec_units]
  | Lengths l => [length l]
  | Mask2 m => [length m; time_extent m]
  | Mask3 m => [length m; time_extent m; time_extent (hd [] m)]
  | KV x => [length x; kvec_heads; time_extent x; kvec_dim]
  | Weights4 w =>
      [length w; time_extent w; time_extent (hd [] w);
       time_extent (hd [] (hd [] w))]
  | Weights3 w => [length w; time_extent w; time_extent (hd [] w)]
  | Weights2 w => [length w; time_extent w]
  end.

Definition expand_dims (t : tensor) (axis : nat) : option tensor :=
  match t, axis with
  | Rows2 x, 1 => Some (Rows3 (map (fun v => [v]) x))
  | Mask2 m, 1 => Some (Mask3 (map (fun r => [r]) m))
  | _, _ => None
  end.

(** The only element of each row, when every row has exactly one. *)
Fixpoint singletons {A : Type} (rows : list (list A)) : option (list A) :=
  match rows with
  | [] => Some []
  | [a] :: rows => l <~ singletons rows ;; Some (a :: l)
  | _ :: _ => None
  end.

Definition squeeze (t : tensor) (axis : nat) : option tensor :=
  match t, axis with
  | Rows3 x, 1 => l <~ singletons x ;; Some (Rows2 l)
  | Weights3 w, 1 => l <~ singletons w ;; Some (Weights2 l)
  | _, _ => None
  end.

Definition zeros (s : list nat) (d : unit) : tensor :=
  match s with
  | [b] => Lengths (repeat 0 b)
  | [b; _] => Rows2 (repeat vec_zero b)
  | [b; t; _] => Rows3 (repeat (repeat vec_zero t) b)
  | [b; _; t; _] => KV (repeat (repeat kvec_zero t) b)
  | _ => Lengths []
  end.

(** [tf.sequence_mask]: position [j] of a row is valid below its length. *)
Definition sequence_mask (lengths : tensor) (maxlen : nat) (d : unit)
  : option tensor :=
  match lengths with
  | Lengths l => Some (Mask2 (map (fun n => map (fun j => j <? n) (seq 0 maxlen)) l))
  | _ => None
  end.

(** [weights\[:, 0\]]: the first head of every batch row. *)
Fixpoint first_heads {A : Type} (rows : list (list A)) : option (list A) :=
  match rows with
  | [] => Some []
  | (a :: _) :: rows => l <~ first_heads rows ;; Some (a :: l)
  | [] :: _ => None
  end.

Definition head0 (t : tensor) : option tensor :=
  match t with
  | Weights4 w => l <~ first_heads w ;; Some (Weights3 l)
  | _ => None
  end.

Definition pointwise (f : vec -> vec) (t : tensor) : option tensor :=
  match t with
  | Rows2 x => Some (Rows2 (map f x))
  | Rows3 x => Some (Rows3 (map (map f) x))
  | _ => None
  end.

(** [f i a] on the element [a] at index [i]. *)
Definition mapi {A B : Type} (f : nat -> A -> B) (l : list A) : list B :=
  map (fun '(i, a) => f i a) (combine (seq 0 (length l)) l).

(** Modelled from the spec: the position encoder encodes the absolute
    positions [1, 2, ...] of a sequence, or the one given [position] at
    every timestep of the input. *)
Definition position_encoder (pe : PositionEncoder) (t : tensor)
  (position : option nat) : option tensor :=
  match t with
  | Rows3 x =>
      Some (Rows3 (map (fun row =>
                          match position with
                          | Some p => map (encode_position pe p) row
                          | None => mapi (fun i => encode_position pe (i + 1)) row
                          end) x))
  | _ => None
  end.

(** [common.dropout]: the identity unless training. *)
Definition dropout (t : tensor) (rate : Float) (training : option bool)
  : option tensor :=
  match training with
  | Some true => pointwise (dropout_sample rate) t
  | _ => Some t
  end.

(** Modelled from the spec: [transformer.future_mask]: a query position [i]
    of a row may attend to the key positions that are not later than [i]
    (causal) and below the length of the row (padding). *)
Definition future_mask (sequence_length : tensor) (maximum_length : nat)
  : option tensor :=
  match sequence_length with
  | Lengths l =>
      Some (Mask3 (map (fun n =>
                          map (fun i =>
                                 map (fun j => (j <=? i) && (j <? n))
                                     (seq 0 maximum_length))
                              (seq 0 maximum_length)) l))
  | _ => None
  end.

(** The keys and values that a query may attend to under a row of the mask,
    and the weights over them put back at their positions, with weight zero
    at the masked ones. *)
Fixpoint visible {A : Type} (mask_row : list bool) (l : list A) : list A :=
  match mask_row, l with
  | true :: mask_row, a :: l => a :: visible mask_row l
  | false :: mask_row, _ :: l => visible mask_row l
  | _, _ => []
  end.

Fixpoint scatter (mask_row : list bool) (ws : list weight) : list weight :=
  match mask_row with
  | [] => []
  | true :: mask_row =>
      match ws with
      | w :: ws => w :: scatter mask_row ws
      | [] => weight_zero :: scatter mask_row []
      end
  | false :: mask_row => weight_zero :: scatter mask_row ws
  end.

(** The mask row of query [i]: row [i] of the mask of its batch row, or its
    only row when the mask is broadcast over the queries; all keys without a
    mask. *)
Definition mask_row (mask : option (list (list bool))) (i keys : nat)
  : list bool :=
  match mask with
  | Some rows => nth i rows (last rows [])
  | None => repeat true keys
  end.

(** One batch row of attention: the outputs of the queries and, per head,
    their weights. *)
Definition attend_row (layer : TransformerLayerWrapper MultiHeadAttention)
  (training : option bool) (queries : list vec) (kvs : list (kvec * kvec))
  (mask : option (list (list bool)))
  : list vec * list (list (list weight)) :=
  (mapi (fun i q =>
           attend layer training q (visible (mask_row mask i (length kvs)) kvs))
        queries,
   map (fun h =>
          mapi (fun i q =>
                  scatter (mask_row mask i (length kvs))
                    (attention_weights layer training h q
                       (visible (mask_row mask i (length kvs)) kvs)))
               queries)
       (seq 0 (mha_num_heads (wrapped layer)))).

(** [tf.concat(\[a, b\], axis=2)] on keys or values, row by row. *)
Definition concat_time (a b : list (list kvec)) : option (list (list kvec)) :=
  if length a =? length b
  then Some (map (fun '(r, s) => r ++ s) (combine a b))
  else None.

(** Modelled from the spec: [transformer.MultiHeadAttention] under its
    [TransformerLayerWrapper].  Self-attention appends the keys and values
    of the current inputs to the cached ones and attends over all of them;
    memory attention projects the memory when the cached history is empty
    and reuses the cache afterwards.  A query attends to the keys its mask
    row allows. *)
Definition attention (layer : TransformerLayerWrapper MultiHeadAttention)
  (inputs : tensor) (memory mask : option tensor)
  (cache : option (tensor * tensor)) (training : option bool)
  : option attention_result :=
  match inputs with
  | Rows3 x =>
      '(keys, values) <~
        match memory with
        | None =>
            let k := map (map (key layer)) x in
            let v := map (map (value layer)) x in
            match cache with
            | Some (KV ck, KV cv) =>
                keys <~ concat_time ck k ;;
                values <~ concat_time cv v ;;
                Some (keys, values)
            | Some _ => None
            | None => Some (k, v)
            end
        | Some (Rows3 mem) =>
            let k := map (map (key layer)) mem in
            let v := map (map (value layer)) mem in
            match cache with
            | Some (KV ck, KV cv) =>
                if time_extent ck =? 0 then Some (k, v) else Some (ck, cv)
            | Some _ => None
            | None => Some (k, v)
            end
        | Some _ => None
        end ;;
      masks <~
        match mask with
        | None => Some (repeat None (length x))
        | Some (Mask3 m) => Some (map Some m)
        | Some _ => None
        end ;;
      if (length keys =? length x) && (length values =? length x)
         && (length masks =? length x)
      then
        let rows :=
          map (fun '(queries, k, v, m) =>
                 attend_row layer training queries (combine k v) m)
              (combine (combine (combine x keys) values) masks) in
        let outputs := Rows3 (map fst rows) in
        if mha_return_attention (wrapped layer)
        then Some (Tuple3 outputs (KV keys, KV values) (Weights4 (map snd rows)))
        else Some (Tuple2 outputs (KV keys, KV values))
      else None
  | _ => None
  end.

#[export] Instance ops : TensorOps := {|
  tf_shape := shape;
  tf_expand_dims := expand_dims;
  tf_squeeze := squeeze;
  tf_zeros := zeros;
  tf_float32 := tt;
  tf_sequence_mask := sequence_mask;
  mul_sqrt := fun t n => pointwise (scale n) t;
  getitem_head0 := head0;
  call_position_encoder := position_encoder;
  common_dropout := dropout;
  common_LayerNorm := tt;
  call_layer_norm := fun ln t => pointwise (normalize ln) t;
  transformer_future_mask := future_mask;
  call_attention := attention;
  call_ffn := fun layer t training => pointwise (feed_forward layer training) t;
  call_dense := fun d t => pointwise (project d) t;
|}.

(** Position [t] of every row of a sequence batch or of attention weights:
    \[batch, time, _\] to \[batch, _\]. *)
Fixpoint nths {A : Type} (t : nat) (rows : list (list A)) : option (list A) :=
  match rows with
  | [] => Some []
  | row :: rows =>
      a <~ nth_error row t ;;
      l <~ nths t rows ;;
      Some (a :: l)
  end.

Definition at_time (t : nat) (x : tensor) : option tensor :=
  match x with
  | Rows3 x => l <~ nths t x ;; Some (Rows2 l)
  | Weights3 w => l <~ nths t w ;; Some (Weights2 l)
  | _ => None
  end.

(** The causal mask of a row of length [T]: query [i] sees the keys up to
    [i]. *)
Definition causal (T : nat) : list (list bool) :=
  map (fun i => map (fun j => (j <=? i) && (j <? T)) (seq 0 T)) (seq 0 T).

(** The row [srow] of a step holds position [t] of the row [row] of the
    full sequence, and nothing else. *)
Definition position_of {A : Type} (t : nat) (row srow : list A) : Prop :=
  exists a, nth_error row t = Some a /\ srow = [a].

(** Row by row, the rows of a step hold position [t] of the rows of the full
    sequence. *)
Definition column {A : Type} (t : nat) (full step : list (list A)) : Prop :=
  Forall2 (position_of t) full step.

(** The same for attention weights \[batch, heads, query_time, key_time\]:
    row by row and head by head. *)
Definition heads_column {A : Type} (t : nat)
  (full step : list (list (list A))) : Prop :=
  Forall2 (column t) full step.

(** What the cache of a memory attention layer may hold when the keys and
    values of its memory are [(K, V)]: nothing, an empty history, or them. *)
Definition cached_memory (K V : list (list kvec))
  (cache : option (tensor * tensor)) : Prop :=
  match cache with
  | None => True
  | Some (KV ck, KV cv) => time_extent ck = 0 \/ (ck = K /\ cv = V)
  | Some _ => False
  end.

(** A memory mask as [_run] builds it: one row per batch row, broadcast over
    the queries. *)
Definition broadcast_mask (m : tensor) : Prop :=
  exists m2, m = Mask3 (map (fun r => [r]) m2).

(** The attention of a step is the column [t] of the attention of the full
    pass, or both are absent. *)
Definition attention_column (t : nat) (full step : option tensor) : Prop :=
  match full, step with
  | Some (Weights3 W), Some (Weights3 w) => column t W w
  | None, None => True
  | _, _ => False
  end.

(** A cached memory entry of a step: the keys and values [kvF] that the full
    pass computes for that source, or an empty history. *)
Definition cached_or_empty (kvS kvF : tensor * tensor) : Prop :=
  kvS = kvF \/ exists ck cv, kvS = (KV ck, KV cv) /\ time_extent ck = 0.

(** The cache [cS] of a layer before step [t] against the cache [cF] that
    the full pass returns for that layer: the first [t] keys and values of
    self-attention, and per source the keys and values of the memory or an
    empty history. *)
Definition cache_at (t : nat) (cF cS : _SelfAttentionDecoderLayer.cache_dict)
  : Prop :=
  exists K V mF mc,
    cF = {| _SelfAttentionDecoderLayer.self_kv := Some (KV K, KV V);
            _SelfAttentionDecoderLayer.memory_kv := Some mF |}
    /\ _SelfAttentionDecoderLayer.self_kv cS
       = Some (KV (map (firstn t) K), KV (map (firstn t) V))
    /\ _SelfAttentionDecoderLayer.memory_kv cS = Some mc
    /\ Prefix2 cached_or_empty mc mF.

(** A cache that the full pass over a batch of [B] rows returns for a layer
    with [n] memory attention sublayers. *)
Definition cache_of_batch (B n : nat)
  (cF : _SelfAttentionDecoderLayer.cache_dict) : Prop :=
  exists K V mF,
    cF = {| _SelfAttentionDecoderLayer.self_kv := Some (KV K, KV V);
            _SelfAttentionDecoderLayer.memory_kv := Some mF |}
    /\ length K = B
    /\ length V = B
    /\ length mF <= n.

(** The same for the local [attention] of [_run], which may be unbound. *)
Definition binding_column (t : nat) (full step : option (option tensor)) : Prop :=
  match full, step with
  | Some a, Some a' => attention_column t a a'
  | None, None => True
  | _, _ => False
  end.

(** The inputs of the steps: the columns [0 .. T-1] of a sequence batch. *)
Definition columns (T : nat) (x : list (list vec)) : list tensor :=
  map (fun t => Rows2 (map (fun row => nth t row vec_zero) x)) (seq 0 T).

(** What a step returns is position [t] of the full pass: its outputs are
    the [outputs] of [_run] at [t], so that the output layer takes them to
    the [logits] at [t], and its attention is the attention at [t] (or both
    are absent). *)
Definition agrees_at (output_layer : Dense) (t : nat)
  (outputs logits : tensor) (attention : option tensor)
  (step_result : tensor * option tensor) : Prop :=
  at_time t outputs = Some (fst step_result)
  /\ (exists l, call_dense output_layer (fst step_result) = Some l
                /\ at_time t logits = Some l)
  /\ match attention with
     | Some a => exists a', at_time t a = Some a' /\ snd step_result = Some a'
     | None => snd step_result = None
     end.

End Tensors.
End Values.

(** A small instance of the carrier and of the numerics, over natural
    numbers, on which the definitions evaluate. *)
Module NatValues.
Import Values.

#[export] Instance carrier : Carrier := {|
  vec := nat;
  kvec := nat;
  weight := nat;
  vec_zero := 0;
  kvec_zero := 0;
  weight_zero := 0;
  vec_units := 1;
  kvec_heads := 1;
  kvec_dim := 1;
|}.

#[export] Instance numerics : Numerics := {|
  scale := fun n v => v + n;
  encode_position := fun _ p v => v + p;
  dropout_sample := fun _ v => v;
  normalize := fun _ v => S v;
  key := fun layer v => v + mha_variables (wrapped layer);
  value := fun layer v => S v;
  attend := fun layer _ q kvs =>
    q + fold_right (fun '(k, v) acc => k + v + acc) 0 kvs;
  attention_weights := fun layer _ h q kvs =>
    map (fun '(k, v) => k + q + h) kvs;
  feed_forward := fun layer _ v => v + ffn_variables (wrapped layer);
  project := fun _ v => v + 3;
|}.

Definition layer_variables (i : nat) : _SelfAttentionDecoderLayer.variables :=
  {| _SelfAttentionDecoderLayer.self_attention_variables := i;
     _SelfAttentionDecoderLayer.attention_variables := fun j => i + j + 1;
     _SelfAttentionDecoderLayer.ffn_variables' := i + 2 |}.

(** Two sequences of three positions, and one memory of two positions per
    sequence, the second one padded. *)
Definition inputs : list (list nat) := [[1; 2; 3]; [4; 5; 6]].

Definition memory : option (tensor_or_seq tensor) :=
  Some (Bare (Rows3 [[5; 7]; [1; 2]])).

Definition memory_sequence_length : option (tensor_or_seq tensor) :=
  Some (Bare (Lengths [2; 1])).

End NatValues.

(** ** Vocabulary of the error and edge behaviour *)

(** A computation raises nothing outside [allowed]. *)
Definition raises_only {A : Type} (allowed : exn -> Prop) (r : result A) : Prop :=
  match r with
  | Ok _ => True
  | Raise e => allowed e
  end.

(** The exceptions of the decoder's own statements: the guard of [forward],
    the unpacking of the two results of the self-attention sublayer, [zip]
    on [None], [cache\[i\]] out of range, and the local [attention] that an
    empty loop leaves unbound. *)
Definition sampling_error : exn :=
  ValueError "Scheduled sampling is not supported by this decoder".

Definition unpack_error : exn :=
  ValueError "too many values to unpack (expected 2)".

Definition index_error : exn := IndexError "list index out of range".

Definition unbound_attention : exn := UnboundLocalError "attention".

(** What [_run] may raise without a cache, and what [step] may raise. *)
Definition run_errors (e : exn) : Prop :=
  e = unpack_error \/ e = not_iterable \/ e = unbound_attention
  \/ e = CollaboratorError.

Definition step_errors (e : exn) : Prop :=
  e = index_error \/ e = unpack_error \/ e = not_iterable
  \/ e = unbound_attention \/ e = CollaboratorError.

Section EdgeVocabulary.
Context {TT : TensorTypes} {TO : TensorOps}.

(** A layer's cache as [call] builds it: both keys are present. *)
Definition has_both_keys (c : _SelfAttentionDecoderLayer.cache_dict) : Prop :=
  (exists kv, _SelfAttentionDecoderLayer.self_kv c = Some kv)
  /\ (exists mem, _SelfAttentionDecoderLayer.memory_kv c = Some mem).

(** [len(memory_cache)] in [call]: the cached list, or one [None] per
    memory attention sublayer when there is no cache or no such key. *)
Definition memory_cache_length (self : _SelfAttentionDecoderLayer.t)
  (cache : option _SelfAttentionDecoderLayer.cache_dict) : nat :=
  match cache with
  | Some c =>
      match _SelfAttentionDecoderLayer.memory_kv c with
      | Some mem => length mem
      | None => length (_SelfAttentionDecoderLayer.attention self)
      end
  | None => length (_SelfAttentionDecoderLayer.attention self)
  end.

End EdgeVocabulary.

(** * Properties *)

Unset Implicit Arguments.

(** ** The error monad *)

Lemma bind_Ok {A B : Type} (m : result A) (k : A -> result B) (b : B) :
  bind m k = Ok b -> exists a, m = Ok a /\ k a = Ok b.
Proof.
  destruct m as [a|e]; simpl; intros H; [eauto | discriminate].
Qed.

Lemma bind_Raise {A B : Type} (m : result A) (k : A -> result B) (e : exn) :
  bind m k = Raise e -> m = Raise e \/ exists a, m = Ok a /\ k a = Raise e.
Proof.
  destruct m as [a|e']; simpl; intros H; [right; eauto | left; congruence].
Qed.

Lemma bind_Ok_intro {A B : Type} (m : result A) (k : A -> result B) (a : A)
  (b : B) :
  m = Ok a -> k a = Ok b -> bind m k = Ok b.
Proof.
  intros -> H. exact H.
Qed.

Lemma collab_Ok {A : Type} (r : option A) (a : A) :
  collab r = Ok a <-> r = Some a.
Proof.
  destruct r; simpl; split; intros H; congruence.
Qed.

(** The error of the decoder's own guard in [forward]. *)
Definition unsupported : exn :=
  ValueError "Scheduled sampling is not supported by this decoder".

(** A computation that never raises [unsupported]. *)
Definition supported {A : Type} (r : result A) : Prop := r <> Raise unsupported.

Lemma supported_Ok {A : Type} (a : A) : supported (Ok a).
Proof. unfold supported; discriminate. Qed.

Lemma supported_collab {A : Type} (r : option A) : supported (collab r).
Proof. destruct r; unfold supported; simpl; discriminate. Qed.

Lemma supported_bind {A B : Type} (m : result A) (k : A -> result B) :
  supported m -> (forall a, supported (k a)) -> supported (bind m k).
Proof.
  intros Hm Hk H. apply bind_Raise in H as [H | (a & _ & H)].
  - exact (Hm H).
  - exact (Hk a H).
Qed.

Lemma supported_mapM {A B : Type} (f : A -> result B) (l : list A) :
  (forall a, supported (f a)) -> supported (mapM f l).
Proof.
  intros Hf. induction l as [|a l IH]; simpl.
  - apply supported_Ok.
  - apply supported_bind; [apply Hf | intros b].
    apply supported_bind; [exact IH | intros bs; apply supported_Ok].
Qed.

Lemma supported_zip2 {A B : Type} (a : option (list A)) (b : option (list B)) :
  supported (zip2 a b).
Proof. destruct a, b; unfold supported; simpl; discriminate. Qed.

Lemma supported_zip4 {A B C D : Type} (a : option (list A))
  (b : option (list B)) (c : option (list C)) (d : option (list D)) :
  supported (zip4 a b c d).
Proof. destruct a, b, c, d; unfold supported; simpl; discriminate. Qed.

Lemma supported_getitem {A : Type} (l : list A) (i : nat) :
  supported (getitem l i).
Proof.
  unfold getitem, supported. destruct (nth_error l i); discriminate.
Qed.

Create HintDb supported.

#[local] Hint Resolve supported_Ok supported_collab supported_zip2
  supported_zip4 supported_getitem : supported.

Ltac supported_step :=
  first
    [ apply supported_bind; [| intros ?]
    | apply supported_mapM; intros ?
    | solve [auto with supported]
    | match goal with
      | |- supported (match ?x with _ => _ end) => destruct x
      | |- supported (let _ := ?x in _) => destruct x
      | |- supported (let '(_, _) := ?x in _) => destruct x
      end ].

Section Control.
Context {TT : TensorTypes} {TO : TensorOps}.

Import SelfAttentionDecoder.

Lemma supported_attend_memory zipped outputs memory_kv attention training :
  supported (_SelfAttentionDecoderLayer.attend_memory zipped outputs memory_kv
               attention training).
Proof.
  revert outputs memory_kv attention.
  induction zipped as [|[[[layer mem] mem_mask] mem_cache] zipped IH];
    intros outputs memory_kv attention; simpl.
  - apply supported_Ok.
  - apply supported_bind; [apply supported_collab | intros [o kv | o kv a]].
    + apply IH.
    + apply supported_bind; [apply supported_collab | intros a']. apply IH.
Qed.

Lemma supported_call self inputs mask memory memory_mask cache training :
  supported (_SelfAttentionDecoderLayer.call self inputs mask memory memory_mask
               cache training).
Proof.
  unfold _SelfAttentionDecoderLayer.call.
  apply supported_bind; [apply supported_collab | intros r].
  apply supported_bind.
  { destruct r; [apply supported_Ok | unfold supported; discriminate]. }
  intros [outputs kv].
  apply supported_bind.
  { destruct memory as [memory|]; [| apply supported_Ok].
    apply supported_bind; [apply supported_zip4 | intros zipped].
    apply supported_attend_memory. }
  intros [[o mkv] att].
  apply supported_bind; [apply supported_collab | intros o'; apply supported_Ok].
Qed.

Lemma supported_run_layers layers i inputs mask memory memory_mask cache
  training new_cache attention :
  supported (run_layers layers i inputs mask memory memory_mask cache training
               new_cache attention).
Proof.
  revert i inputs new_cache attention.
  induction layers as [|layer layers IH]; intros i inputs new_cache attention;
    simpl.
  - apply supported_Ok.
  - apply supported_bind.
    { destruct cache as [cache|]; [| apply supported_Ok].
      apply supported_bind; [apply supported_getitem | intros c; apply supported_Ok]. }
    intros c. apply supported_bind; [apply supported_call | intros [[o lc] a]].
    apply IH.
Qed.

Lemma supported_run self inputs sequence_length cache memory
  memory_sequence_length step training :
  supported (_run self inputs sequence_length cache memory
               memory_sequence_length step training).
Proof.
  unfold _run.
  apply supported_bind.
  { unfold process_inputs. repeat supported_step. }
  intros x. apply supported_bind.
  { unfold prepare_query_mask. repeat supported_step. }
  intros mask. apply supported_bind.
  { unfold prepare_memory_mask. repeat supported_step. }
  intros [mem mem_mask]. apply supported_bind.
  { apply supported_run_layers. }
  intros [[o nc] a].
  apply supported_bind; [apply supported_collab | intros o'].
  destruct a; unfold supported; discriminate.
Qed.

End Control.

(** ** The guard of [forward] *)

(** C3: [forward] called with a scheduled-sampling probability raises the
    unsupported-feature error, which carries no output; called without one
    it never raises that error. *)
Theorem forward_sampling_probability :
  forall (TT : TensorTypes) (TO : TensorOps) (State InputFn : Type)
    (self : SelfAttentionDecoder.t) (inputs : Tensor)
    (sequence_length : option Tensor) (initial_state : option State)
    (memory memory_sequence_length : option (tensor_or_seq Tensor))
    (input_fn : option InputFn) (training : option bool),
    (forall p : Float,
        SelfAttentionDecoder.forward self inputs sequence_length initial_state
          memory memory_sequence_length input_fn (Some p) training
        = Raise unsupported)
    /\ SelfAttentionDecoder.forward self inputs sequence_length initial_state
         memory memory_sequence_length input_fn None training
       <> Raise unsupported.
Proof.
  intros. split; [reflexivity |].
  unfold SelfAttentionDecoder.forward.
  apply supported_bind; [apply supported_run | intros [[o s] a]].
  apply supported_bind; [apply supported_collab | intros l].
  apply supported_Ok.
Qed.

(** C10: [forward] does not look at [initial_state] and [input_fn]: two calls
    that differ only there return the same logits, state and attention (or
    raise the same error), and an [input_fn] without a sampling probability
    does not raise the unsupported-feature error. *)
Theorem forward_ignores_initial_state_and_input_fn :
  forall (TT : TensorTypes) (TO : TensorOps) (State State' InputFn InputFn' : Type)
    (self : SelfAttentionDecoder.t) (inputs : Tensor)
    (sequence_length : option Tensor)
    (initial_state : option State) (initial_state' : option State')
    (memory memory_sequence_length : option (tensor_or_seq Tensor))
    (input_fn : option InputFn) (input_fn' : option InputFn')
    (sampling_probability : option Float) (training : option bool),
    SelfAttentionDecoder.forward self inputs sequence_length initial_state
      memory memory_sequence_length input_fn sampling_probability training
    = SelfAttentionDecoder.forward self inputs sequence_length initial_state'
        memory memory_sequence_length input_fn' sampling_probability training
    /\ SelfAttentionDecoder.forward self inputs sequence_length initial_state
         memory memory_sequence_length input_fn None training
       <> Raise unsupported.
Proof.
  intros. split; [reflexivity |].
  unfold SelfAttentionDecoder.forward.
  apply supported_bind; [apply supported_run | intros [[o s] a]].
  apply supported_bind; [apply supported_collab | intros l].
  apply supported_Ok.
Qed.

(** ** Memory without length vectors *)

Section MemoryWithoutLengths.
Context {TT : TensorTypes} {TO : TensorOps}.

(** A layer that is given a memory and no memory mask calls [zip] on [None]:
    it never returns. *)
Lemma call_memory_without_mask self inputs mask memory cache training :
  ~ succeeds (_SelfAttentionDecoderLayer.call self inputs mask (Some memory)
                None cache training).
Proof.
  intros [r H]. unfold _SelfAttentionDecoderLayer.call in H.
  apply bind_Ok in H as (res & _ & H).
  apply bind_Ok in H as ([o kv] & _ & H).
  apply bind_Ok in H as ([[o' mkv] att] & H & _).
  simpl in H. discriminate.
Qed.

(** So does the stack, whatever else it is given. *)
Lemma run_memory_without_lengths self inputs sequence_length cache memory
  step training :
  ~ succeeds (SelfAttentionDecoder._run self inputs sequence_length cache
                (Some memory) None step training).
Proof.
  intros [r H]. unfold SelfAttentionDecoder._run in H.
  apply bind_Ok in H as (x & _ & H).
  apply bind_Ok in H as (mask & _ & H).
  simpl in H.
  apply bind_Ok in H as ([[o nc] att] & H & H').
  destruct (SelfAttentionDecoder.layers self) as [|layer layers].
  - simpl in H. injection H as <- <- <-.
    apply bind_Ok in H' as (o' & _ & H'). discriminate.
  - simpl in H.
    apply bind_Ok in H as (c & _ & H).
    apply bind_Ok in H as ([[o1 lc] a1] & H & _).
    eapply call_memory_without_mask. eexists. exact H.
Qed.

End MemoryWithoutLengths.

Section MemoryWithoutLengthsExample.
Import Shapes.

(** C7: a decoder with one source, stepped from its initial state with the
    memory of that source and no [memory_sequence_length], raises the
    TypeError of [zip]; so does the full-sequence pass. *)
Theorem memory_without_lengths_raises :
  (st <- SelfAttentionDecoder._get_initial_state (State := unit)
           (small_decoder 1) 3 float32 None ;;
   SelfAttentionDecoder.step (small_decoder 1) (float_tensor [3; 8]) 0 (Some st)
     (Some (Bare (float_tensor [3; 5; 8]))) None None)
  = Raise not_iterable
  /\ SelfAttentionDecoder.forward (State := unit) (InputFn := unit)
       (small_decoder 1) (float_tensor [3; 4; 8]) (Some (float_tensor [3])) None
       (Some (Bare (float_tensor [3; 5; 8]))) None None None None
     = Raise not_iterable.
Proof.
  split; vm_compute; reflexivity.
Qed.

End MemoryWithoutLengthsExample.

(** ** The initial state *)

Lemma mapM_const {A B : Type} (f : A -> result B) (b : B) (l : list A) :
  (forall a, f a = Ok b) -> mapM f l = Ok (repeat b (length l)).
Proof.
  intros Hf. induction l as [|a l IH]; simpl; [reflexivity |].
  rewrite Hf, IH. reflexivity.
Qed.

Lemma Forall2_repeat_map {A B C : Type} (P : A -> B -> Prop) (a : A) (f : C -> B)
  (l : list C) :
  (forall c, P a (f c)) -> Forall2 P (repeat a (length l)) (map f l).
Proof.
  intros H. induction l; simpl; constructor; auto.
Qed.

Section InitialState.
Context {TT : TensorTypes} {TO : TensorOps}.

Lemma layers_init_length num_layers num_units num_heads ffn_inner_dim dropout
  attention_dropout ffn_dropout ffn_activation position_encoder_class
  num_sources vars output_layer :
  length (SelfAttentionDecoder.layers
            (SelfAttentionDecoder.__init__ num_layers num_units num_heads
               ffn_inner_dim dropout attention_dropout ffn_dropout
               ffn_activation position_encoder_class num_sources vars
               output_layer)) = num_layers.
Proof.
  simpl. rewrite length_map, length_seq. reflexivity.
Qed.

Lemma initial_state_shapes (self : SelfAttentionDecoder.t) (State : Type)
  (initial_state : option State) (B : nat) (D : DType) :
  (forall s d, tf_shape (tf_zeros s d) = s) ->
  0 < SelfAttentionDecoder.num_heads self ->
  let shape := [B; SelfAttentionDecoder.num_heads self; 0;
                SelfAttentionDecoder.num_units self
                / SelfAttentionDecoder.num_heads self] in
  exists cache,
    SelfAttentionDecoder._get_initial_state self B D initial_state = Ok cache
    /\ length cache = length (SelfAttentionDecoder.layers self)
    /\ Forall (cache_has_shapes shape
                 (repeat shape (SelfAttentionDecoder.num_sources self))) cache.
Proof.
  intros Hzeros Hheads shape.
  unfold SelfAttentionDecoder._get_initial_state.
  assert (Hdiv : floordiv (SelfAttentionDecoder.num_units self)
                   (SelfAttentionDecoder.num_heads self)
                 = Ok (SelfAttentionDecoder.num_units self
                       / SelfAttentionDecoder.num_heads self)).
  { unfold floordiv.
    destruct (Nat.eqb_spec (SelfAttentionDecoder.num_heads self) 0);
      [lia | reflexivity]. }
  erewrite mapM_const; [| intros layer; rewrite Hdiv; simpl; reflexivity].
  eexists. split; [reflexivity |]. split.
  - apply repeat_length.
  - apply Forall_forall. intros c Hc. apply repeat_spec in Hc. subst c.
    split; simpl.
    + eexists. split; [reflexivity |]. split; apply Hzeros.
    + eexists. split; [reflexivity |].
      replace (SelfAttentionDecoder.num_sources self)
        with (length (seq 0 (SelfAttentionDecoder.num_sources self))) at 1
        by apply length_seq.
      apply Forall2_repeat_map. intros _. split; apply Hzeros.
Qed.

(** C4: for a tensor library whose [tf.zeros(shape)] has the shape [shape],
    and a decoder built with a positive number of heads,
    [_get_initial_state(B, D)] returns a cache with [num_layers] entries; in
    each, the [self_kv] keys and values have the shape
    \[B, num_heads, 0, num_units // num_heads\], and [memory_kv] holds
    [num_sources] pairs of that shape. *)
Theorem get_initial_state_shape
  (num_layers num_units num_heads ffn_inner_dim : nat)
  (dropout attention_dropout ffn_dropout : Float) (ffn_activation : Activation)
  (position_encoder_class : option PositionEncoder) (num_sources : nat)
  (vars : nat -> _SelfAttentionDecoderLayer.variables) (output_layer : Dense)
  (State : Type) (initial_state : option State)
  (B : nat) (D : DType) :
  (forall s d, tf_shape (tf_zeros s d) = s) ->
  0 < num_heads ->
  let self :=
    SelfAttentionDecoder.__init__ num_layers num_units num_heads ffn_inner_dim
      dropout attention_dropout ffn_dropout ffn_activation
      position_encoder_class num_sources vars output_layer in
  let shape := [B; num_heads; 0; num_units / num_heads] in
  exists cache,
    SelfAttentionDecoder._get_initial_state self B D initial_state = Ok cache
    /\ length cache = num_layers
    /\ Forall (cache_has_shapes shape (repeat shape num_sources)) cache.
Proof.
  intros Hzeros Hheads self shape.
  destruct (initial_state_shapes self State initial_state B D Hzeros Hheads)
    as (cache & Hinit & Hlen & Hshapes).
  exists cache. split; [exact Hinit |]. split; [| exact Hshapes].
  rewrite Hlen. apply layers_init_length.
Qed.

End InitialState.

Section InitialStateExample.
Import Shapes.

Lemma get_initial_state_shape_witness :
  exists cache,
    SelfAttentionDecoder._get_initial_state (State := unit) (small_decoder 1)
      3 float32 None = Ok cache
    /\ length cache = 2
    /\ Forall (cache_has_shapes [3; 2; 0; 4] (repeat [3; 2; 0; 4] 1)) cache.
Proof.
  apply (get_initial_state_shape (TT := types) (TO := ops) 2 8 2 2048 tt tt tt tt (Some tt) 1
           (fun _ => no_variables) 100 unit None 3 float32).
  - reflexivity.
  - lia.
Defined.

End InitialStateExample.

(** ** Shapes through one layer *)

Section ShapesOfALayer.
Import Shapes.

Variables (B heads units : nat).

Local Abbreviation head_dim := (units / heads).
Local Abbreviation sublayer_of := (Shapes.sublayer_of heads units).
Local Abbreviation memory_entry := (Shapes.memory_entry B heads units).
Local Abbreviation zipped_fits := (Shapes.zipped_fits B heads units).
Local Abbreviation memory_shapes := (Shapes.memory_shapes B heads units).
Local Abbreviation cache_fits := (Shapes.cache_fits B heads units).
Local Abbreviation layer_of := (Shapes.layer_of heads units).
Local Abbreviation sources_fit := Shapes.sources_fit.
Local Abbreviation attention_fits := Shapes.attention_fits.

Lemma attention_self_shape layer (inputs : Tensor) (mask : option Tensor)
  (cache : option (Tensor * Tensor)) training Tq U Tc :
  sublayer_of false layer ->
  shape inputs = [B; Tq; U] ->
  match cache with
  | Some kv => kv_has_shape [B; heads; Tc; head_dim] kv
  | None => Tc = 0
  end ->
  mask_fits mask B Tq (Tc + Tq) = true ->
  exists outputs kv,
    call_attention layer inputs None mask cache training
    = Some (Tuple2 outputs kv)
    /\ shape outputs = [B; Tq; units]
    /\ kv_has_shape [B; heads; Tc + Tq; head_dim] kv.
Proof.
  intros (Hh & Hu & Hr) Hin Hc Hm.
  change (@call_attention _ ops) with attention.
  unfold attention, project_kv. rewrite Hin, Hh, Hu, Hr. simpl.
  destruct cache as [[ck cv]|].
  - destruct Hc as [Hk Hv]. simpl in Hk, Hv.
    unfold concat_time. simpl. rewrite Hk, Hv. simpl.
    rewrite !Nat.eqb_refl. simpl. rewrite !Nat.eqb_refl, Hm. simpl.
    do 2 eexists. split; [reflexivity |]. repeat split.
  - subst Tc. simpl. rewrite !Nat.eqb_refl. simpl in Hm. rewrite Hm. simpl.
    do 2 eexists. split; [reflexivity |]. repeat split.
Qed.

Lemma attention_memory_shape r layer (inputs memory mask : Tensor)
  (cache : option (Tensor * Tensor)) training Tq U S U' :
  sublayer_of r layer ->
  shape inputs = [B; Tq; U] ->
  shape memory = [B; S; U'] ->
  shape mask = [B; 1; S] ->
  match cache with
  | Some kv => memory_entry S kv
  | None => True
  end ->
  exists outputs kv weights,
    call_attention layer inputs (Some memory) (Some mask) cache training
    = Some (if r then Tuple3 outputs kv weights else Tuple2 outputs kv)
    /\ shape outputs = [B; Tq; units]
    /\ kv_has_shape [B; heads; S; head_dim] kv
    /\ shape weights = [B; heads; Tq; S].
Proof.
  intros (Hh & Hu & Hr) Hin Hmem Hmask Hc.
  change (@call_attention _ ops) with attention.
  assert (Hempty : forall ck cv b h d, shape ck = [b; h; 0; d] ->
            attention layer inputs (Some memory) (Some mask) (Some (ck, cv)) training
            = attention layer inputs (Some memory) (Some mask) None training).
  { intros ck cv b h d E. unfold attention. rewrite Hin. simpl. rewrite E.
    reflexivity. }
  assert (Hfresh :
    exists outputs kv weights,
      attention layer inputs (Some memory) (Some mask) None training
      = Some (if r then Tuple3 outputs kv weights else Tuple2 outputs kv)
      /\ shape outputs = [B; Tq; units]
      /\ kv_has_shape [B; heads; S; head_dim] kv
      /\ shape weights = [B; heads; Tq; S]).
  { unfold attention, project_kv, mask_fits.
    rewrite Hin, Hmem, Hmask, Hh, Hu, Hr. simpl.
    rewrite !Nat.eqb_refl. simpl.
    exists (with_shape inputs [B; Tq; units]),
      (with_shape memory [B; heads; S; head_dim],
       with_shape memory [B; heads; S; head_dim]),
      (with_shape inputs [B; heads; Tq; S]).
    destruct r; repeat split. }
  destruct cache as [[ck cv]|]; [| exact Hfresh].
  destruct Hc as [(b & h & d & E) | [Hk Hv]].
  { simpl in E. rewrite (Hempty _ _ _ _ _ E). exact Hfresh. }
  simpl in Hk, Hv.
  destruct S as [|S'].
  { rewrite (Hempty _ _ _ _ _ Hk). exact Hfresh. }
  unfold attention, mask_fits. rewrite Hin, Hmask, Hh, Hu, Hr. simpl.
  rewrite Hk. simpl. rewrite Hk, Hv. simpl. rewrite !Nat.eqb_refl. simpl.
  exists (with_shape inputs [B; Tq; units]), (ck, cv),
    (with_shape inputs [B; heads; Tq; S S']).
  destruct r; repeat split; assumption.
Qed.

Hypothesis heads_positive : 0 < heads.

Lemma head0_shape (weights : Tensor) Tq S :
  shape weights = [B; heads; Tq; S] ->
  exists a, getitem_head0 weights = Some a /\ shape a = [B; Tq; S].
Proof.
  intros E. change (@getitem_head0 _ ops) with head0. unfold head0. rewrite E.
  destruct heads; [lia |]. eexists. split; reflexivity.
Qed.

Lemma attend_memory_shape r zipped Ss : forall outputs mkv att training Tq U,
  Forall2 (zipped_fits r) zipped Ss ->
  shape outputs = [B; Tq; U] ->
  exists outputs' new att',
    _SelfAttentionDecoderLayer.attend_memory zipped outputs mkv att training
    = Ok (outputs', mkv ++ new, att')
    /\ (exists U', shape outputs' = [B; Tq; U'])
    /\ Forall2 kv_has_shape (memory_shapes Ss) new
    /\ (if r && negb (length Ss =? 0)
        then exists a, att' = Some a /\ shape a = [B; Tq; last Ss 0]
        else att' = att).
Proof.
  intros outputs mkv att training Tq U Hz. revert outputs mkv att U.
  induction Hz as [|[[[layer mem] mem_mask] mem_cache] S zipped Ss Hitem Hz IH];
    intros outputs mkv att U Hout.
  - exists outputs, [], att. simpl. rewrite app_nil_r, andb_false_r.
    repeat split; eauto.
  - destruct Hitem as (Hlayer & (U' & Hmem) & Hmask & Hcache).
    destruct (attention_memory_shape r layer outputs mem mem_mask mem_cache
                training Tq U S U' Hlayer Hout Hmem Hmask Hcache)
      as (o1 & kv1 & w1 & Hcall & Ho1 & Hkv1 & Hw1).
    cbn [_SelfAttentionDecoderLayer.attend_memory]. rewrite Hcall.
    cbn [collab bind].
    destruct r.
    + destruct (head0_shape w1 Tq S Hw1) as (a1 & Ha1 & Hsa1).
      rewrite Ha1. cbn [collab bind].
      destruct (IH o1 (mkv ++ [kv1]) (Some a1) units Ho1)
        as (o' & new & att' & Hrun & Ho' & Hnew & Hatt).
      rewrite <- app_assoc in Hrun.
      exists o', (kv1 :: new), att'.
      split; [exact Hrun |]. split; [exact Ho' |]. split.
      * constructor; assumption.
      * simpl in Hatt. destruct Ss as [|S2 Ss]; simpl in Hatt |- *.
        -- exists a1. split; assumption.
        -- exact Hatt.
    + destruct (IH o1 (mkv ++ [kv1]) att units Ho1)
        as (o' & new & att' & Hrun & Ho' & Hnew & Hatt).
      rewrite <- app_assoc in Hrun.
      exists o', (kv1 :: new), att'.
      split; [exact Hrun |]. split; [exact Ho' |]. split.
      * constructor; assumption.
      * exact Hatt.
Qed.

Lemma zipped_fits_combine r Ss : forall atts mems masks mc,
  Forall (sublayer_of r) atts ->
  Prefix2 (fun mem S => exists U, shape mem = [B; S; U]) mems Ss ->
  Prefix2 (fun mask S => shape mask = [B; 1; S]) masks Ss ->
  Prefix2 (fun c S => match c with
                      | Some kv => memory_entry S kv
                      | None => True
                      end) mc Ss ->
  length Ss = min (length atts) (min (length mems) (length masks)) ->
  Forall2 (zipped_fits r) (combine (combine (combine atts mems) masks) mc) Ss.
Proof.
  induction Ss as [|S Ss IH]; intros atts mems masks mc Hatts Hmems Hmasks Hmc Hlen.
  - destruct atts as [|att atts]; [constructor |].
    destruct mems as [|mem mems]; [constructor |].
    destruct masks as [|mask masks]; [constructor |].
    simpl in Hlen. lia.
  - inversion Hmems as [|mem S' mems' Ss' Hmem Hmems']; subst.
    inversion Hmasks as [|mask S' masks' Ss' Hmask Hmasks']; subst.
    inversion Hmc as [|c S' mc' Ss' Hc Hmc']; subst.
    destruct atts as [|att atts]; [simpl in Hlen; lia |].
    inversion Hatts as [|? ? Hatt Hatts']; subst.
    simpl. constructor.
    + repeat split; try apply Hatt; assumption.
    + apply IH; auto.
Qed.

Lemma Prefix2_repeat_None {A : Type} (P : option A -> nat -> Prop) Ss n :
  (forall S, P None S) -> length Ss <= n -> Prefix2 P (repeat None n) Ss.
Proof.
  intros HP. revert n. induction Ss as [|S Ss IH]; intros n Hn.
  - constructor.
  - destruct n; simpl in *; [lia |]. constructor; [apply HP | apply IH; lia].
Qed.

Lemma call_shape n layer (inputs : Tensor) (mask : option Tensor)
  (memory memory_mask : option (list Tensor)) cache training Tq U Tc Ss :
  layer_of n layer ->
  shape inputs = [B; Tq; U] ->
  cache_fits Tc Ss cache ->
  mask_fits mask B Tq (Tc + Tq) = true ->
  sources_fit n B Ss memory memory_mask ->
  exists outputs cache' att,
    _SelfAttentionDecoderLayer.call layer inputs mask memory memory_mask cache
      training = Ok (outputs, cache', att)
    /\ shape outputs = [B; Tq; units]
    /\ cache_has_shapes [B; heads; Tc + Tq; head_dim] (memory_shapes Ss) cache'
    /\ attention_fits n B Tq Ss att.
Proof.
  intros (Hself & Hatts & Hlen & Hffn) Hin Hcache Hmask Hsrc.
  unfold _SelfAttentionDecoderLayer.call.
  set (c := match cache with
            | Some c => c
            | None => _SelfAttentionDecoderLayer.empty_dict
            end).
  assert (Hkv : match _SelfAttentionDecoderLayer.self_kv c with
                | Some kv => kv_has_shape [B; heads; Tc; head_dim] kv
                | None => Tc = 0
                end).
  { subst c. destruct cache as [c|]; simpl in *; [| assumption].
    destruct Hcache as [(kv & -> & Hkv) _]. exact Hkv. }
  destruct (attention_self_shape _ _ mask _ training Tq U Tc Hself Hin Hkv Hmask)
    as (o1 & kv1 & Hcall & Ho1 & Hkv1).
  rewrite Hcall. simpl.
  assert (Hmem :
    exists o2 new att,
      match memory with
      | Some memory0 =>
          zipped <-
            zip4 (Some (_SelfAttentionDecoderLayer.attention layer))
              (Some memory0) memory_mask
              (Some match _SelfAttentionDecoderLayer.memory_kv c with
                    | Some memory_cache => map Some memory_cache
                    | None =>
                        repeat None
                          (length (_SelfAttentionDecoderLayer.attention layer))
                    end) ;;
          _SelfAttentionDecoderLayer.attend_memory zipped o1 [] None training
      | None => Ok (o1, [], None)
      end = Ok (o2, new, att)
      /\ (exists U', shape o2 = [B; Tq; U'])
      /\ Forall2 kv_has_shape (memory_shapes Ss) new
      /\ attention_fits n B Tq Ss att).
  { destruct memory as [mems|].
    - destruct Hsrc as (masks & -> & Hmems & Hmasks & Hcount). simpl.
      eapply (attend_memory_shape (n =? 1) _ Ss o1 [] None training Tq units);
        [| exact Ho1].
      apply zipped_fits_combine; auto; [| congruence].
      subst c. destruct cache as [c|]; simpl in *.
      + destruct Hcache as [_ Hmc].
        destruct (_SelfAttentionDecoderLayer.memory_kv c) as [mc|].
        * clear - Hmc. induction Hmc; simpl; constructor; auto.
        * apply Prefix2_repeat_None; [auto | lia].
      + apply Prefix2_repeat_None; [auto | lia].
    - simpl in Hsrc. subst Ss. exists o1, [], None. unfold attention_fits.
      simpl. rewrite andb_false_r. repeat split; eauto. }
  destruct Hmem as (o2 & new & att & Hmem & (U' & Ho2) & Hnew & Hatt).
  do 3 eexists. split.
  { eapply bind_Ok_intro; [exact Hmem |]. cbn beta iota.
    change (@call_ffn _ ops) with ffn. unfold ffn. rewrite Ho2, Hffn.
    reflexivity. }
  split; [reflexivity |]. split; [| exact Hatt].
  split; simpl; eauto.
Qed.

Lemma layer_init_of num_units num_heads ffn_inner_dim num_sources dropout
  attention_dropout ffn_dropout ffn_activation vars :
  Shapes.layer_of num_heads num_units num_sources
    (_SelfAttentionDecoderLayer.__init__ num_units num_heads ffn_inner_dim
       num_sources dropout attention_dropout ffn_dropout ffn_activation vars).
Proof.
  repeat split.
  - simpl. apply Forall_forall. intros l Hl. apply in_map_iff in Hl.
    destruct Hl as (i & <- & _). repeat split.
  - simpl. rewrite length_map, length_seq. reflexivity.
Qed.

End ShapesOfALayer.

(** ** Shapes through the stack *)

Section ShapesOfTheStack.
Import Shapes.

Variables (B heads units n : nat).
Hypothesis heads_positive : 0 < heads.

Local Abbreviation head_dim := (units / heads).
Local Abbreviation memory_shapes := (Shapes.memory_shapes B heads units).
Local Abbreviation cache_fits := (Shapes.cache_fits B heads units).
Local Abbreviation state_fits := (Shapes.state_fits B heads units).
Local Abbreviation layer_of := (Shapes.layer_of heads units n).
Local Abbreviation attention_fits := Shapes.attention_fits.

Lemma cache_has_shapes_fits T Ss c :
  cache_has_shapes [B; heads; T; head_dim] (memory_shapes Ss) c ->
  cache_fits T Ss (Some c).
Proof.
  intros [Hself (mem & Hmem & Hshapes)]. split; [exact Hself |].
  rewrite Hmem. clear Hmem. revert mem Hshapes.
  induction Ss as [|S Ss IH]; intros mem Hshapes; [constructor |].
  inversion Hshapes as [|s kv ss mem' Hkv Hrest]; subst.
  constructor; [right; exact Hkv | apply IH; exact Hrest].
Qed.

Lemma initial_cache_fits Ss c :
  cache_has_shapes [B; heads; 0; head_dim] (repeat [B; heads; 0; head_dim] n) c ->
  length Ss <= n ->
  cache_fits 0 Ss (Some c).
Proof.
  intros [Hself (mem & Hmem & Hshapes)] Hlen. split; [exact Hself |].
  rewrite Hmem. clear Hmem. revert Ss Hlen mem Hshapes.
  induction n as [|k IH]; intros Ss Hlen mem Hshapes.
  - destruct Ss; [constructor | simpl in Hlen; lia].
  - destruct Ss as [|S Ss]; [constructor |].
    simpl in Hshapes. inversion Hshapes as [|s kv ss mem' Hkv Hrest]; subst.
    constructor.
    + left. destruct Hkv as [Hk _]. eauto.
    + apply IH; [simpl in Hlen; lia | exact Hrest].
Qed.

Lemma run_layers_shape (mask : option Tensor)
  (memory memory_mask : option (list Tensor)) cache training Tq Tc Ss layers :
  forall i (inputs : Tensor) new_cache att U,
    Forall layer_of layers ->
    shape inputs = [B; Tq; U] ->
    state_fits (i + length layers) Tc Ss cache ->
    mask_fits mask B Tq (Tc + Tq) = true ->
    sources_fit n B Ss memory memory_mask ->
    exists outputs new att',
      SelfAttentionDecoder.run_layers layers i inputs mask memory memory_mask
        cache training new_cache att = Ok (outputs, new_cache ++ new, att')
      /\ (exists U', shape outputs = [B; Tq; U'])
      /\ (layers <> [] -> shape outputs = [B; Tq; units])
      /\ length new = length layers
      /\ Forall (cache_has_shapes [B; heads; Tc + Tq; head_dim] (memory_shapes Ss))
           new
      /\ match layers with
         | [] => att' = att
         | _ :: _ => exists a, att' = Some a /\ attention_fits n B Tq Ss a
         end.
Proof.
  induction layers as [|layer layers IH];
    intros i inputs new_cache att U Hlayers Hin Hstate Hmask Hsrc.
  - exists inputs, [], att. simpl. rewrite app_nil_r.
    repeat split; eauto. congruence.
  - inversion Hlayers as [|? ? Hlayer Hlayers']; subst.
    cbn [SelfAttentionDecoder.run_layers].
    assert (Hc : exists c,
               match cache with
               | Some cache0 => c0 <- getitem cache0 i ;; Ok (Some c0)
               | None => Ok None
               end = Ok c /\ cache_fits Tc Ss c).
    { destruct cache as [caches|]; simpl in Hstate |- *.
      - destruct Hstate as [Hlen Hall]. unfold getitem.
        destruct (nth_error caches i) as [c|] eqn:E.
        + exists (Some c). split; [reflexivity |].
          rewrite Forall_forall in Hall. apply Hall.
          eapply nth_error_In; eauto.
        + apply nth_error_None in E. lia.
      - exists None. split; [reflexivity | exact Hstate]. }
    destruct Hc as (c & Hc & Hfits).
    destruct (call_shape B heads units heads_positive n layer inputs mask memory
                memory_mask c training Tq U Tc Ss Hlayer Hin Hfits Hmask Hsrc)
      as (o1 & c1 & a1 & Hcall & Ho1 & Hc1 & Ha1).
    destruct (IH (S i) o1 (new_cache ++ [c1]) (Some a1) units Hlayers' Ho1)
      as (o' & new & att' & Hrun & Ho' & Hu & Hlen & Hnew & Hatt); auto.
    { destruct cache as [caches|]; simpl in Hstate |- *; [| exact Hstate].
      destruct Hstate as [Hlen Hall]. split; [lia | exact Hall]. }
    rewrite <- app_assoc in Hrun.
    exists o', (c1 :: new), att'. split.
    { eapply bind_Ok_intro; [exact Hc |].
      eapply bind_Ok_intro; [exact Hcall |]. exact Hrun. }
    split; [exact Ho' |]. split.
    { intros _. destruct layers as [|l ls]; [| apply Hu; discriminate].
      simpl in Hrun. injection Hrun as <- _ _. exact Ho1. }
    split; [simpl; lia |]. split; [constructor; assumption |].
    destruct layers as [|l ls].
    + simpl in Hrun. injection Hrun as _ _ <-. exists a1. split; [reflexivity | exact Ha1].
    + exact Hatt.
Qed.

Lemma Forall2_Prefix2_firstn {A C : Type} (P : A -> C -> Prop) k l l' :
  Forall2 P l l' -> Prefix2 P l (firstn k l').
Proof.
  intros H. revert k. induction H as [|a b l l' Hab H IH]; intros k.
  - rewrite firstn_nil. constructor.
  - destruct k; simpl; constructor; auto.
Qed.

Lemma memory_masks_shape (mems lens : list Tensor) Sm :
  Forall2 (fun mem S => exists U, shape mem = [B; S; U]) mems Sm ->
  Forall (fun l => shape l = [B]) lens ->
  exists masks : list Tensor,
    mapM (fun '(mem, mem_length) =>
            maxlen <- collab (nth_error (tf_shape mem) 1) ;;
            mem_mask <- collab (tf_sequence_mask mem_length maxlen tf_float32) ;;
            collab (tf_expand_dims mem_mask 1))
         (combine mems lens) = Ok masks
    /\ Forall2 (fun mask S => shape mask = [B; 1; S]) masks
         (firstn (length lens) Sm).
Proof.
  intros Hmems. revert lens.
  induction Hmems as [|mem S mems Sm (U & Hmem) Hmems IH]; intros lens Hlens.
  - exists []. rewrite firstn_nil. split; [reflexivity | constructor].
  - destruct lens as [|l lens]; [exists []; split; [reflexivity | constructor] |].
    inversion Hlens as [|? ? Hl Hlens']; subst.
    destruct (IH lens Hlens') as (masks & Hmasks & Hshapes).
    eexists (_ :: masks). split.
    + cbn [combine mapM]. cbn [tf_shape ops]. rewrite Hmem. cbn.
      rewrite Hl. cbn. 
      eapply bind_Ok_intro; [exact Hmasks | reflexivity].
    + cbn. constructor; [reflexivity | exact Hshapes].
Qed.

Lemma prepare_memory_mask_shape memory lens Ss :
  memory_args_fit n B Ss memory lens ->
  exists mems masks,
    SelfAttentionDecoder.prepare_memory_mask memory lens = Ok (mems, masks)
    /\ sources_fit n B Ss mems masks.
Proof.
  unfold memory_args_fit, SelfAttentionDecoder.prepare_memory_mask.
  destruct memory as [memory|], lens as [lens|]; try contradiction.
  - intros (Sm & Hmems & Hlens & ->).
    destruct (memory_masks_shape _ _ _ Hmems Hlens) as (masks & Hmasks & Hshapes).
    exists (Some (as_tuple memory)), (Some masks). split.
    + cbn [zip2 bind]. eapply bind_Ok_intro; [exact Hmasks | reflexivity].
    + exists masks. split; [reflexivity |].
      pose proof (Forall2_length Hmems) as E1.
      pose proof (Forall2_length Hshapes) as E2.
      rewrite length_firstn in E2.
      split; [apply Forall2_Prefix2_firstn; exact Hmems |]. split.
      * rewrite <- firstn_firstn.
        apply Forall2_Prefix2_firstn. exact Hshapes.
      * rewrite length_firstn. change (@Tensor types) with tensor in *. lia.
  - intros ->. exists None, None. split; reflexivity.
Qed.

Lemma run_shape self (inputs : Tensor) sequence_length cache memory lens step
  training Tq U Tc Ss :
  Forall layer_of (SelfAttentionDecoder.layers self) ->
  SelfAttentionDecoder.layers self <> [] ->
  shape inputs = [B; Tq; U] ->
  match sequence_length with
  | Some l => shape l = [B] /\ Tc = 0
  | None => True
  end ->
  state_fits (length (SelfAttentionDecoder.layers self)) Tc Ss cache ->
  memory_args_fit n B Ss memory lens ->
  exists outputs new att,
    SelfAttentionDecoder._run self inputs sequence_length cache memory lens
      step training = Ok (outputs, new, att)
    /\ shape outputs = [B; Tq; units]
    /\ length new = length (SelfAttentionDecoder.layers self)
    /\ Forall (cache_has_shapes [B; heads; Tc + Tq; head_dim] (memory_shapes Ss))
         new
    /\ attention_fits n B Tq Ss att.
Proof.
  intros Hlayers Hne Hin Hsl Hstate Hmem.
  unfold SelfAttentionDecoder._run.
  assert (Hproc : SelfAttentionDecoder.process_inputs self inputs step training
                  = Ok inputs).
  { unfold SelfAttentionDecoder.process_inputs. cbn.
    destruct (SelfAttentionDecoder.position_encoder self); [| reflexivity].
    cbn. unfold position_encoder. rewrite Hin. reflexivity. }
  assert (Hmask : exists mask,
             SelfAttentionDecoder.prepare_query_mask inputs sequence_length
             = Ok mask /\ mask_fits mask B Tq (Tc + Tq) = true).
  { unfold SelfAttentionDecoder.prepare_query_mask.
    destruct sequence_length as [l|]; [| exists None; split; reflexivity].
    destruct Hsl as [Hl ->]. cbn. rewrite Hin. cbn.
    unfold future_mask. rewrite Hl. cbn. eexists. split; [reflexivity |].
    cbn. rewrite !Nat.eqb_refl, orb_true_r. reflexivity. }
  destruct Hmask as (mask & Hmask & Hfits).
  destruct (prepare_memory_mask_shape _ _ _ Hmem) as (mems & masks & Hprep & Hsrc).
  destruct (run_layers_shape mask mems masks cache training Tq Tc Ss
              (SelfAttentionDecoder.layers self) 0 inputs [] None U Hlayers Hin
              Hstate Hfits Hsrc)
    as (o & new & att & Hrun & _ & Ho & Hlen & Hnew & Hatt).
  destruct (SelfAttentionDecoder.layers self) as [|l ls] eqn:El; [congruence |].
  destruct Hatt as (a & -> & Ha).
  exists o, new, a. split.
  { eapply bind_Ok_intro; [exact Hproc |].
    eapply bind_Ok_intro; [exact Hmask |].
    eapply bind_Ok_intro; [exact Hprep |]. cbn beta iota.
    eapply bind_Ok_intro; [exact Hrun |]. reflexivity. }
  split; [apply Ho; discriminate |]. auto.
Qed.

Lemma step_shape self (inputs : Tensor) timestep state memory lens training
  U Tc Ss :
  Forall layer_of (SelfAttentionDecoder.layers self) ->
  SelfAttentionDecoder.layers self <> [] ->
  shape inputs = [B; U] ->
  state_fits (length (SelfAttentionDecoder.layers self)) Tc Ss state ->
  memory_args_fit n B Ss memory lens ->
  exists outputs new att,
    SelfAttentionDecoder.step self inputs timestep state memory lens training
    = Ok (outputs, new, att)
    /\ shape outputs = [B; units]
    /\ length new = length (SelfAttentionDecoder.layers self)
    /\ Forall (cache_has_shapes [B; heads; Tc + 1; head_dim] (memory_shapes Ss))
         new
    /\ (if (n =? 1) && negb (length Ss =? 0)
        then exists a, att = Some a /\ shape a = [B; last Ss 0]
        else att = None).
Proof.
  intros Hlayers Hne Hin Hstate Hmem.
  unfold SelfAttentionDecoder.step.
  assert (Hexp : exists x : Tensor,
             tf_expand_dims inputs 1 = Some x /\ shape x = [B; 1; U]).
  { cbn. unfold expand_dims. rewrite Hin. cbn. eexists. split; reflexivity. }
  destruct Hexp as (x & Hexp & Hx).
  destruct (run_shape self x None state memory lens (Some timestep) training
              1 U Tc Ss Hlayers Hne Hx I Hstate Hmem)
    as (o & new & att & Hrun & Ho & Hlen & Hnew & Hatt).
  assert (Hsq : exists o' : Tensor,
             tf_squeeze o 1 = Some o' /\ shape o' = [B; units]).
  { cbn. unfold squeeze. rewrite Ho. cbn. eexists. split; reflexivity. }
  destruct Hsq as (o' & Hsq & Ho').
  unfold attention_fits in Hatt.
  destruct ((n =? 1) && negb (length Ss =? 0)).
  - destruct Hatt as (a & -> & Ha).
    assert (Hsqa : exists a' : Tensor,
               tf_squeeze a 1 = Some a' /\ shape a' = [B; last Ss 0]).
    { cbn. unfold squeeze. rewrite Ha. cbn. eexists. split; reflexivity. }
    destruct Hsqa as (a' & Hsqa & Ha').
    exists o', new, (Some a'). split.
    { rewrite Hexp. cbn [collab bind].
      eapply bind_Ok_intro; [exact Hrun |]. cbn beta iota.
      rewrite Hsq, Hsqa. reflexivity. }
    repeat split; eauto.
  - subst att. exists o', new, None. split.
    { rewrite Hexp. cbn [collab bind].
      eapply bind_Ok_intro; [exact Hrun |]. cbn beta iota.
      rewrite Hsq. reflexivity. }
    repeat split; eauto.
Qed.

Lemma decode_shape self memory lens training Ss :
  Forall layer_of (SelfAttentionDecoder.layers self) ->
  SelfAttentionDecoder.layers self <> [] ->
  memory_args_fit n B Ss memory lens ->
  forall (inputs : list Tensor) timestep state Tc,
    Forall (fun x => exists U, shape x = [B; U]) inputs ->
    state_fits (length (SelfAttentionDecoder.layers self)) Tc Ss (Some state) ->
    exists outputs state',
      decode self inputs timestep (Some state) memory lens training
      = Ok (outputs, Some state')
      /\ length outputs = length inputs
      /\ (inputs = [] -> state' = state)
      /\ (inputs <> [] ->
          length state' = length (SelfAttentionDecoder.layers self)
          /\ Forall (cache_has_shapes [B; heads; Tc + length inputs; head_dim]
                       (memory_shapes Ss)) state').
Proof.
  intros Hlayers Hne Hmem.
  induction inputs as [|x inputs IH]; intros timestep state Tc Hin Hstate.
  - exists [], state. split; [reflexivity |]. split; [reflexivity |].
    split; [reflexivity |]. congruence.
  - inversion Hin as [|? ? (U & Hx) Hin']; subst.
    destruct (step_shape self x timestep (Some state) memory lens training U Tc
                Ss Hlayers Hne Hx Hstate Hmem)
      as (o & new & att & Hstep & Ho & Hlen & Hnew & Hatt).
    assert (Hstate' : state_fits (length (SelfAttentionDecoder.layers self))
                        (Tc + 1) Ss (Some new)).
    { split; [lia |]. eapply Forall_impl; [| exact Hnew].
      intros c Hc. apply cache_has_shapes_fits. exact Hc. }
    destruct (IH (S timestep) new (Tc + 1) Hin' Hstate')
      as (outs & state' & Hdec & Hlen' & Hnil & Hcons).
    exists ((o, att) :: outs), state'. split.
    { cbn [decode]. eapply bind_Ok_intro; [exact Hstep |]. cbn beta iota.
      eapply bind_Ok_intro; [exact Hdec |]. reflexivity. }
    split; [simpl; f_equal; exact Hlen' |]. split; [discriminate |]. intros _.
    destruct inputs as [|x' inputs].
    + rewrite (Hnil eq_refl). simpl. split; [exact Hlen | exact Hnew].
    + destruct Hcons as [Hl Hf]; [discriminate |]. split; [exact Hl |].
      replace (Tc + length (x :: x' :: inputs))
        with (Tc + 1 + length (x' :: inputs)) by (simpl; lia).
      exact Hf.
Qed.

End ShapesOfTheStack.

(** ** The cache of incremental decoding *)

Section CacheGrowth.
Import Shapes.

Lemma layers_init_of num_layers num_units num_heads ffn_inner_dim dropout
  attention_dropout ffn_dropout ffn_activation position_encoder_class
  num_sources vars output_layer :
  Forall (layer_of num_heads num_units num_sources)
    (SelfAttentionDecoder.layers
       (SelfAttentionDecoder.__init__ num_layers num_units num_heads
          ffn_inner_dim dropout attention_dropout ffn_dropout ffn_activation
          position_encoder_class num_sources vars output_layer)).
Proof.
  simpl. apply Forall_forall. intros l Hl. apply in_map_iff in Hl.
  destruct Hl as (i & <- & _). apply layer_init_of.
Qed.

Lemma memory_args_fit_length n B Ss memory lens :
  memory_args_fit n B Ss memory lens -> length Ss <= n.
Proof.
  unfold memory_args_fit.
  destruct memory, lens; try contradiction.
  - intros (Sm & _ & _ & ->). rewrite length_firstn. lia.
  - intros ->. simpl. lia.
Qed.

(** C2: a decoder with at least one layer is stepped [k] times from its
    initial state, on inputs \[B, _\] and with a memory and length vectors
    that fit the batch.  All the steps return; afterwards every layer's
    [self_kv] keys and values are \[B, heads, k, head_dim\], and, once a step
    was made, its [memory_kv] keys and values are \[B, heads, S, head_dim\]
    for the length [S] of each attended source, whatever [k]. *)
Theorem cache_growth
  (num_layers num_units num_heads ffn_inner_dim : nat)
  (dropout attention_dropout ffn_dropout : Float) (ffn_activation : Activation)
  (position_encoder_class : option PositionEncoder) (num_sources : nat)
  (vars : nat -> _SelfAttentionDecoderLayer.variables) (output_layer : Dense)
  (B : nat) (D : DType) (inputs : list Tensor)
  (memory memory_sequence_length : option (tensor_or_seq Tensor))
  (training : option bool) (Ss : list nat) :
  0 < num_layers ->
  0 < num_heads ->
  Forall (fun x => exists U, shape x = [B; U]) inputs ->
  memory_args_fit num_sources B Ss memory memory_sequence_length ->
  let self :=
    SelfAttentionDecoder.__init__ num_layers num_units num_heads ffn_inner_dim
      dropout attention_dropout ffn_dropout ffn_activation
      position_encoder_class num_sources vars output_layer in
  let k := length inputs in
  exists state0 outputs state,
    SelfAttentionDecoder._get_initial_state (State := unit) self B D None
    = Ok state0
    /\ decode self inputs 0 (Some state0) memory memory_sequence_length training
       = Ok (outputs, Some state)
    /\ length state = num_layers
    /\ Forall (fun c =>
                 exists kv,
                   _SelfAttentionDecoderLayer.self_kv c = Some kv
                   /\ kv_has_shape [B; num_heads; k; num_units / num_heads] kv)
         state
    /\ (1 <= k ->
        Forall (fun c =>
                  exists mem,
                    _SelfAttentionDecoderLayer.memory_kv c = Some mem
                    /\ Forall2 kv_has_shape
                         (memory_shapes B num_heads num_units Ss) mem)
          state).
Proof.
  intros Hlayers Hheads Hin Hmem self k.
  destruct (initial_state_shapes (TO := ops) self unit None B D
              (fun _ _ => eq_refl) Hheads)
    as (state0 & Hinit & Hlen0 & Hshapes0).
  assert (Hl : length (SelfAttentionDecoder.layers self) = num_layers)
    by apply layers_init_length.
  assert (Hne : SelfAttentionDecoder.layers self <> []).
  { intros E. rewrite E in Hl. simpl in Hl. lia. }
  assert (Hfit : state_fits B num_heads num_units
                   (length (SelfAttentionDecoder.layers self)) 0 Ss (Some state0)).
  { split; [lia |]. eapply Forall_impl; [| exact Hshapes0].
    intros c Hc.
    apply (initial_cache_fits B num_heads num_units num_sources Hheads).
    - exact Hc.
    - eapply memory_args_fit_length. exact Hmem. }
  destruct (decode_shape B num_heads num_units num_sources Hheads self memory
              memory_sequence_length training Ss
              (layers_init_of _ _ _ _ _ _ _ _ _ _ _ _) Hne Hmem inputs 0 state0 0
              Hin Hfit)
    as (outputs & state & Hdec & _ & Hnil & Hcons).
  exists state0, outputs, state. split; [exact Hinit |]. split; [exact Hdec |].
  destruct inputs as [|x inputs].
  - rewrite (Hnil eq_refl). split; [lia |]. split.
    + eapply Forall_impl; [| exact Hshapes0]. intros c [Hc _]. exact Hc.
    + subst k. simpl. lia.
  - destruct Hcons as [Hlen Hshapes]; [discriminate |].
    split; [lia |]. split.
    + eapply Forall_impl; [| exact Hshapes]. intros c [Hc _]. exact Hc.
    + intros _. eapply Forall_impl; [| exact Hshapes]. intros c [_ Hc]. exact Hc.
Qed.

Lemma cache_growth_witness :
  exists state0 outputs state,
    SelfAttentionDecoder._get_initial_state (State := unit) (small_decoder 1)
      3 float32 None = Ok state0
    /\ decode (small_decoder 1) [float_tensor [3; 8]; float_tensor [3; 8]] 0
         (Some state0) (Some (Bare (float_tensor [3; 5; 8])))
         (Some (Bare (float_tensor [3]))) None
       = Ok (outputs, Some state)
    /\ length state = 2
    /\ Forall (fun c =>
                 exists kv,
                   _SelfAttentionDecoderLayer.self_kv c = Some kv
                   /\ kv_has_shape [3; 2; 2; 4] kv)
         state
    /\ (1 <= 2 ->
        Forall (fun c =>
                  exists mem,
                    _SelfAttentionDecoderLayer.memory_kv c = Some mem
                    /\ Forall2 kv_has_shape (memory_shapes 3 2 8 [5]) mem)
          state).
Proof.
  apply (cache_growth 2 8 2 2048 tt tt tt tt (Some tt) 1
           (fun _ => no_variables) 100 3 float32
           [float_tensor [3; 8]; float_tensor [3; 8]]
           (Some (Bare (float_tensor [3; 5; 8])))
           (Some (Bare (float_tensor [3]))) None [5]).
  - lia.
  - lia.
  - repeat constructor; exists 8; reflexivity.
  - exists [5]. repeat split.
    + repeat constructor. exists 8. reflexivity.
    + repeat constructor.
Defined.

End CacheGrowth.

(** ** The attention that is reported *)

Section AttentionProvenance.
Context {TT : TensorTypes} {TO : TensorOps}.

(** The attention that [attend_memory] ends with is the one it started with,
    or the first head of the weights that one of the zipped attention
    sublayers returned. *)
Lemma attend_memory_attention zipped : forall outputs memory_kv att training r,
  _SelfAttentionDecoderLayer.attend_memory zipped outputs memory_kv att training
  = Ok r ->
  snd r = att
  \/ exists layer mem mem_mask mem_cache query o kv weights a,
      In (layer, mem, mem_mask, mem_cache) zipped
      /\ call_attention layer query (Some mem) (Some mem_mask) mem_cache training
         = Some (Tuple3 o kv weights)
      /\ getitem_head0 weights = Some a
      /\ snd r = Some a.
Proof.
  induction zipped as [|[[[layer mem] mem_mask] mem_cache] zipped IH];
    intros outputs memory_kv att training r H.
  - simpl in H. injection H as <-. left. reflexivity.
  - cbn [_SelfAttentionDecoderLayer.attend_memory] in H.
    apply bind_Ok in H as (res & Hres & H). apply collab_Ok in Hres.
    destruct res as [o kv | o kv w].
    + destruct (IH _ _ _ _ _ H) as [E | (l & m & mm & mc & q & o' & kv' & w & a & Hin & Hc & Hh & E)].
      * left. exact E.
      * right. exists l, m, mm, mc, q, o', kv', w, a.
        split; [right; exact Hin | auto].
    + apply bind_Ok in H as (a & Ha & H). apply collab_Ok in Ha.
      destruct (IH _ _ _ _ _ H) as [E | (l & m & mm & mc & q & o' & kv' & w' & a' & Hin & Hc & Hh & E)].
      * right. exists layer, mem, mem_mask, mem_cache, outputs, o, kv, w, a.
        split; [left; reflexivity | auto].
      * right. exists l, m, mm, mc, q, o', kv', w', a'.
        split; [right; exact Hin | auto].
Qed.

(** The attention a layer returns is the first head of the weights of one
    of its memory attention sublayers. *)
Lemma call_attention_provenance self inputs mask memory memory_mask cache
  training outputs cache' a :
  _SelfAttentionDecoderLayer.call self inputs mask memory memory_mask cache
    training = Ok (outputs, cache', Some a) ->
  exists layer query mem mem_mask mem_cache o kv weights,
    In layer (_SelfAttentionDecoderLayer.attention self)
    /\ call_attention layer query (Some mem) (Some mem_mask) mem_cache training
       = Some (Tuple3 o kv weights)
    /\ getitem_head0 weights = Some a.
Proof.
  unfold _SelfAttentionDecoderLayer.call. intros H.
  apply bind_Ok in H as (res & _ & H).
  apply bind_Ok in H as ([o1 kv1] & _ & H).
  apply bind_Ok in H as ([[o2 mkv] att] & Hmem & H).
  apply bind_Ok in H as (o3 & _ & H). injection H as _ _ ->.
  destruct memory as [mems|]; [| discriminate].
  apply bind_Ok in Hmem as (zipped & Hzip & Hmem).
  destruct memory_mask as [masks|]; [| discriminate].
  simpl in Hzip. injection Hzip as <-.
  destruct (attend_memory_attention _ _ _ _ _ _ Hmem)
    as [E | (l & m & mm & mc & q & o' & kv' & w & a' & Hin & Hc & Hh & E)].
  - discriminate.
  - simpl in E. injection E as <-.
    exists l, q, m, mm, mc, o', kv', w. split; [| auto].
    apply in_combine_l in Hin. apply in_combine_l in Hin.
    apply in_combine_l in Hin. exact Hin.
Qed.

(** After the loop over a non-empty stack, [attention] is bound to what the
    call of the last layer returned. *)
Lemma run_layers_attention_last layers : forall last i inputs mask memory
  memory_mask cache training new_cache att outputs new_cache' att',
  SelfAttentionDecoder.run_layers (layers ++ [last]) i inputs mask memory
    memory_mask cache training new_cache att = Ok (outputs, new_cache', att') ->
  exists x c c' a,
    _SelfAttentionDecoderLayer.call last x mask memory memory_mask c training
    = Ok (outputs, c', a)
    /\ att' = Some a.
Proof.
  induction layers as [|layer layers IH];
    intros last i inputs mask memory memory_mask cache training new_cache att
      outputs new_cache' att' H;
    cbn [app SelfAttentionDecoder.run_layers] in H;
    apply bind_Ok in H as (c & _ & H);
    apply bind_Ok in H as ([[o lc] a] & Hcall & H).
  - simpl in H. injection H as <- _ <-.
    exists inputs, c, lc, a. split; [exact Hcall | reflexivity].
  - eapply IH. exact H.
Qed.

Lemma run_attention_provenance self inputs sequence_length cache memory
  memory_sequence_length step training outputs new_cache a :
  SelfAttentionDecoder._run self inputs sequence_length cache memory
    memory_sequence_length step training = Ok (outputs, new_cache, Some a) ->
  exists layers last,
    SelfAttentionDecoder.layers self = layers ++ [last]
    /\ exists layer query mem mem_mask mem_cache o kv weights,
        In layer (_SelfAttentionDecoderLayer.attention last)
        /\ call_attention layer query (Some mem) (Some mem_mask) mem_cache
             training = Some (Tuple3 o kv weights)
        /\ getitem_head0 weights = Some a.
Proof.
  unfold SelfAttentionDecoder._run. intros H.
  apply bind_Ok in H as (x & _ & H).
  apply bind_Ok in H as (mask & _ & H).
  apply bind_Ok in H as ([mems masks] & _ & H).
  apply bind_Ok in H as ([[o nc] att] & Hrun & H).
  apply bind_Ok in H as (o' & _ & H).
  destruct att as [att|]; [| discriminate]. injection H as _ _ ->.
  destruct (exists_last (l := SelfAttentionDecoder.layers self)) as (layers & last & E).
  { intros E. rewrite E in Hrun. simpl in Hrun. discriminate. }
  rewrite E in Hrun. exists layers, last. split; [exact E |].
  apply run_layers_attention_last in Hrun as (x' & c & c' & a' & Hcall & Ha).
  injection Ha as <-.
  eapply call_attention_provenance. exact Hcall.
Qed.

End AttentionProvenance.

Section AttentionAbsent.
Context {TT : TensorTypes} {TO : TensorOps}.
Hypothesis contract : returns_attention_on_request.

(** A stack whose memory attention sublayers were all built without
    [return_attention] reports no attention. *)
Lemma run_no_attention self inputs sequence_length cache memory
  memory_sequence_length step training outputs new_cache att :
  Forall (fun layer =>
            Forall (fun sublayer => mha_return_attention (wrapped sublayer) = false)
              (_SelfAttentionDecoderLayer.attention layer))
    (SelfAttentionDecoder.layers self) ->
  SelfAttentionDecoder._run self inputs sequence_length cache memory
    memory_sequence_length step training = Ok (outputs, new_cache, att) ->
  att = None.
Proof.
  intros Hall H. destruct att as [a|]; [| reflexivity].
  apply run_attention_provenance in H
    as (layers & last & E & sub & q & mem & mm & mc & o & kv & w & Hin & Hcall & _).
  rewrite Forall_forall in Hall.
  assert (Hlast : In last (SelfAttentionDecoder.layers self)).
  { rewrite E. apply in_or_app. right. left. reflexivity. }
  specialize (Hall last Hlast). rewrite Forall_forall in Hall.
  destruct (contract sub q (Some mem) (Some mm) mc training _ (Hall sub Hin) Hcall)
    as (o' & kv' & Habs).
  discriminate.
Qed.

End AttentionAbsent.

Section AttentionReporting.
Import Shapes.

Lemma shapes_attention_contract : returns_attention_on_request (TO := ops).
Proof.
  intros layer inputs memory mask cache training result Hr H.
  cbn in H. unfold attention in H. rewrite Hr in H.
  repeat match type of H with
         | context [match ?x with _ => _ end] => destruct x; try discriminate
         | obind ?x _ = _ => destruct x; cbn [obind] in H; try discriminate
         | context [obind ?x _] => destruct x; cbn [obind] in H; try discriminate
         end.
  all: injection H as <-; eauto.
Qed.

(** C5: (1) a decoder with one source, at least one layer and one head,
    called with the memory of that source, returns attention weights of the
    shape \[batch, query_time, memory_time\]; (2) a decoder with any other
    number of sources (zero too) returns no attention, whatever the call;
    (3) for every tensor library, attention weights that [_run] returns are
    the first head ([weights\[:, 0\]]) of the weights that a memory attention
    sublayer of the last layer returned. *)
Theorem attention_reporting :
  (forall (num_layers num_units num_heads ffn_inner_dim : nat)
     (dropout attention_dropout ffn_dropout : Float) (ffn_activation : Activation)
     (position_encoder_class : option PositionEncoder)
     (vars : nat -> _SelfAttentionDecoderLayer.variables) (output_layer : Dense)
     (B Tq U Tc S : nat) (inputs : Tensor) (sequence_length : option Tensor)
     (cache : option (list _SelfAttentionDecoderLayer.cache_dict))
     (memory memory_sequence_length : option (tensor_or_seq Tensor))
     (step : option nat) (training : option bool),
      0 < num_layers ->
      0 < num_heads ->
      shape inputs = [B; Tq; U] ->
      match sequence_length with
      | Some l => shape l = [B] /\ Tc = 0
      | None => True
      end ->
      state_fits B num_heads num_units num_layers Tc [S] cache ->
      memory_args_fit 1 B [S] memory memory_sequence_length ->
      exists outputs new_cache a,
        SelfAttentionDecoder._run
          (SelfAttentionDecoder.__init__ num_layers num_units num_heads
             ffn_inner_dim dropout attention_dropout ffn_dropout ffn_activation
             position_encoder_class 1 vars output_layer)
          inputs sequence_length cache memory memory_sequence_length step
          training = Ok (outputs, new_cache, Some a)
        /\ shape a = [B; Tq; S])
  /\ (forall (num_layers num_units num_heads ffn_inner_dim : nat)
        (dropout attention_dropout ffn_dropout : Float)
        (ffn_activation : Activation)
        (position_encoder_class : option PositionEncoder) (num_sources : nat)
        (vars : nat -> _SelfAttentionDecoderLayer.variables)
        (output_layer : Dense)
        (inputs : Tensor) (sequence_length : option Tensor)
        (cache : option (list _SelfAttentionDecoderLayer.cache_dict))
        (memory memory_sequence_length : option (tensor_or_seq Tensor))
        (step : option nat) (training : option bool) outputs new_cache att,
         num_sources <> 1 ->
         SelfAttentionDecoder._run
           (SelfAttentionDecoder.__init__ num_layers num_units num_heads
              ffn_inner_dim dropout attention_dropout ffn_dropout ffn_activation
              position_encoder_class num_sources vars output_layer)
           inputs sequence_length cache memory memory_sequence_length step
           training = Ok (outputs, new_cache, att) ->
         att = None)
  /\ (forall (TT : TensorTypes) (TO : TensorOps) (self : SelfAttentionDecoder.t)
        (inputs : Tensor) (sequence_length : option Tensor)
        (cache : option (list _SelfAttentionDecoderLayer.cache_dict))
        (memory memory_sequence_length : option (tensor_or_seq Tensor))
        (step : option nat) (training : option bool) outputs new_cache a,
         SelfAttentionDecoder._run self inputs sequence_length cache memory
           memory_sequence_length step training = Ok (outputs, new_cache, Some a) ->
         exists layers last,
           SelfAttentionDecoder.layers self = layers ++ [last]
           /\ exists layer query mem mem_mask mem_cache o kv weights,
               In layer (_SelfAttentionDecoderLayer.attention last)
               /\ call_attention layer query (Some mem) (Some mem_mask)
                    mem_cache training = Some (Tuple3 o kv weights)
               /\ getitem_head0 weights = Some a).
Proof.
  split; [| split].
  - intros num_layers num_units num_heads ffn_inner_dim dropout
      attention_dropout ffn_dropout ffn_activation position_encoder_class vars
      output_layer B Tq U Tc S inputs sequence_length cache memory
      memory_sequence_length step training Hlayers Hheads Hin Hsl Hstate Hmem.
    set (self := SelfAttentionDecoder.__init__ num_layers num_units num_heads
                   ffn_inner_dim dropout attention_dropout ffn_dropout
                   ffn_activation position_encoder_class 1 vars output_layer).
    assert (Hl : length (SelfAttentionDecoder.layers self) = num_layers)
      by apply layers_init_length.
    assert (Hne : SelfAttentionDecoder.layers self <> []).
    { intros E. rewrite E in Hl. simpl in Hl. lia. }
    rewrite <- Hl in Hstate.
    destruct (run_shape B num_heads num_units 1 Hheads self inputs
                sequence_length cache memory memory_sequence_length step
                training Tq U Tc [S] (layers_init_of _ _ _ _ _ _ _ _ _ _ _ _)
                Hne Hin Hsl Hstate Hmem)
      as (o & new & att & Hrun & _ & _ & _ & (a & -> & Ha)).
    exists o, new, a. split; [exact Hrun | exact Ha].
  - intros num_layers num_units num_heads ffn_inner_dim dropout
      attention_dropout ffn_dropout ffn_activation position_encoder_class
      num_sources vars output_layer inputs sequence_length cache memory
      memory_sequence_length step training outputs new_cache att Hn Hrun.
    eapply (run_no_attention shapes_attention_contract); [| exact Hrun].
    simpl. apply Forall_forall. intros l Hl. apply in_map_iff in Hl.
    destruct Hl as (i & <- & _). simpl.
    apply Forall_forall. intros sub Hsub. apply in_map_iff in Hsub.
    destruct Hsub as (j & <- & _). simpl.
    apply Nat.eqb_neq. exact Hn.
  - intros. eapply run_attention_provenance. eassumption.
Qed.

Lemma attention_reporting_witness :
  exists outputs new_cache a,
    SelfAttentionDecoder._run (small_decoder 1) (float_tensor [3; 4; 8])
      (Some (float_tensor [3])) None (Some (Bare (float_tensor [3; 5; 8])))
      (Some (Bare (float_tensor [3]))) None None
    = Ok (outputs, new_cache, Some a)
    /\ shape a = [3; 4; 5].
Proof.
  apply (proj1 attention_reporting 2 8 2 2048 tt tt tt tt (Some tt)
           (fun _ => no_variables) 100 3 4 8 0 5 (float_tensor [3; 4; 8])
           (Some (float_tensor [3])) None
           (Some (Bare (float_tensor [3; 5; 8])))
           (Some (Bare (float_tensor [3]))) None None).
  - lia.
  - lia.
  - reflexivity.
  - split; reflexivity.
  - reflexivity.
  - exists [5]. repeat split.
    + repeat constructor. exists 8. reflexivity.
    + repeat constructor.
Defined.

End AttentionReporting.

(** ** Calls with another number of sources *)

Section SourceCount.
Import Shapes.

(** C6, as the code has it: the number of sources is not checked.  A
    decoder with at least one layer and one head is called with memories
    \[B, S, _\] and length vectors \[B\], however many of each (a bare
    tensor counts as one).  [forward] returns, and so do the steps threaded
    from the initial state; in the state that either returns, every layer
    caches the keys and values of exactly the first
    [min(num_sources, len(memory), len(memory_sequence_length))] sources,
    which are the ones it attended to. *)
Theorem calls_truncate_sources
  (num_layers num_units num_heads ffn_inner_dim : nat)
  (dropout attention_dropout ffn_dropout : Float) (ffn_activation : Activation)
  (position_encoder_class : option PositionEncoder) (num_sources : nat)
  (vars : nat -> _SelfAttentionDecoderLayer.variables) (output_layer : Dense)
  (B T U : nat) (D : DType) (inputs : Tensor) (sequence_length : option Tensor)
  (step_inputs : list Tensor)
  (memory memory_sequence_length : tensor_or_seq Tensor) (Sm : list nat)
  (training : option bool) :
  0 < num_layers ->
  0 < num_heads ->
  shape inputs = [B; T; U] ->
  match sequence_length with
  | Some l => shape l = [B]
  | None => True
  end ->
  Forall (fun x => exists U, shape x = [B; U]) step_inputs ->
  step_inputs <> [] ->
  Forall2 (fun mem S => exists U, shape mem = [B; S; U]) (as_tuple memory) Sm ->
  Forall (fun l => shape l = [B]) (as_tuple memory_sequence_length) ->
  let self :=
    SelfAttentionDecoder.__init__ num_layers num_units num_heads ffn_inner_dim
      dropout attention_dropout ffn_dropout ffn_activation
      position_encoder_class num_sources vars output_layer in
  let attended :=
    min num_sources
      (min (length (as_tuple memory))
         (length (as_tuple memory_sequence_length))) in
  let caches_attended (state : list _SelfAttentionDecoderLayer.cache_dict) :=
    length state = num_layers
    /\ Forall (fun c =>
                 exists mem,
                   _SelfAttentionDecoderLayer.memory_kv c = Some mem
                   /\ length mem = attended
                   /\ Forall2 kv_has_shape
                        (memory_shapes B num_heads num_units (firstn attended Sm))
                        mem)
         state in
  (exists logits state attention,
      SelfAttentionDecoder.forward (State := unit) (InputFn := unit) self inputs
        sequence_length None (Some memory) (Some memory_sequence_length) None
        None training
      = Ok (logits, state, attention)
      /\ caches_attended state)
  /\ (exists state0 results state,
         SelfAttentionDecoder._get_initial_state (State := unit) self B D None
         = Ok state0
         /\ decode self step_inputs 0 (Some state0) (Some memory)
              (Some memory_sequence_length) training
            = Ok (results, Some state)
         /\ caches_attended state).
Proof.
  intros Hlayers Hheads Hin Hsl Hsteps Hsome Hmems Hlens self attended
    caches_attended.
  assert (Hl : length (SelfAttentionDecoder.layers self) = num_layers)
    by apply layers_init_length.
  assert (Hne : SelfAttentionDecoder.layers self <> []).
  { intros E. rewrite E in Hl. simpl in Hl. lia. }
  assert (Hfit : memory_args_fit num_sources B (firstn attended Sm)
                   (Some memory) (Some memory_sequence_length)).
  { exists Sm. split; [exact Hmems |]. split; [exact Hlens |].
    subst attended.
    transitivity
      (firstn (min (min num_sources (length (as_tuple memory_sequence_length)))
                 (length Sm)) Sm).
    - f_equal. apply Forall2_length in Hmems.
      change (@Tensor types) with tensor in *. lia.
    - rewrite <- firstn_firstn, firstn_all. reflexivity. }
  assert (Hcount : length (firstn attended Sm) = attended).
  { rewrite length_firstn. apply Forall2_length in Hmems. subst attended.
    change (@Tensor types) with tensor in *. lia. }
  assert (Hcaches : forall state,
             length state = length (SelfAttentionDecoder.layers self) ->
             Forall (cache_has_shapes [B; num_heads; T; num_units / num_heads]
                       (memory_shapes B num_heads num_units
                          (firstn attended Sm))) state
             \/ (exists k,
                    Forall (cache_has_shapes
                              [B; num_heads; k; num_units / num_heads]
                              (memory_shapes B num_heads num_units
                                 (firstn attended Sm))) state) ->
             caches_attended state).
  { intros state Hlen Hstate. split; [lia |].
    assert (Hmem : forall s c,
               cache_has_shapes s
                 (memory_shapes B num_heads num_units (firstn attended Sm)) c ->
               exists mem,
                 _SelfAttentionDecoderLayer.memory_kv c = Some mem
                 /\ length mem = attended
                 /\ Forall2 kv_has_shape
                      (memory_shapes B num_heads num_units (firstn attended Sm))
                      mem).
    { intros s0 c [_ (mem & Hmem & Hshapes)]. exists mem.
      split; [exact Hmem |]. split; [| exact Hshapes].
      apply Forall2_length in Hshapes. rewrite <- Hshapes.
      unfold memory_shapes. rewrite length_map. exact Hcount. }
    destruct Hstate as [Hstate | (k & Hstate)];
      (eapply Forall_impl; [| exact Hstate]); intros c Hc;
      eapply Hmem; exact Hc. }
  split.
  - destruct (run_shape B num_heads num_units num_sources Hheads self inputs
                sequence_length None (Some memory) (Some memory_sequence_length)
                None training T U 0 (firstn attended Sm)
                (layers_init_of _ _ _ _ _ _ _ _ _ _ _ _) Hne Hin
                ltac:(destruct sequence_length;
                      [split; [exact Hsl | reflexivity] | exact I])
                eq_refl Hfit)
      as (o & new & att & Hrun & Ho & Hlen & Hnew & _).
    assert (Hdense : exists logits : Tensor,
               call_dense (SelfAttentionDecoder.output_layer self) o
               = Some logits).
    { cbn. unfold dense. rewrite Ho. cbn. eexists. reflexivity. }
    destruct Hdense as (logits & Hdense).
    exists logits, new, att. split.
    { unfold SelfAttentionDecoder.forward.
      eapply bind_Ok_intro; [exact Hrun |]. cbn beta iota.
      rewrite Hdense. reflexivity. }
    apply Hcaches; [exact Hlen |]. left. exact Hnew.
  - destruct (initial_state_shapes (TO := ops) self unit None B D
                (fun _ _ => eq_refl) Hheads)
      as (state0 & Hinit & Hlen0 & Hshapes0).
    assert (Hfit0 : state_fits B num_heads num_units
                      (length (SelfAttentionDecoder.layers self)) 0
                      (firstn attended Sm) (Some state0)).
    { split; [lia |]. eapply Forall_impl; [| exact Hshapes0].
      intros c Hc.
      apply (initial_cache_fits B num_heads num_units num_sources Hheads).
      - exact Hc.
      - eapply memory_args_fit_length. exact Hfit. }
    destruct (decode_shape B num_heads num_units num_sources Hheads self
                (Some memory) (Some memory_sequence_length) training
                (firstn attended Sm) (layers_init_of _ _ _ _ _ _ _ _ _ _ _ _)
                Hne Hfit step_inputs 0 state0 0 Hsteps Hfit0)
      as (results & state & Hdec & _ & _ & Hcons).
    destruct (Hcons Hsome) as [Hlen Hshapes].
    exists state0, results, state. split; [exact Hinit |].
    split; [exact Hdec |].
    apply Hcaches; [exact Hlen |]. right. eexists. exact Hshapes.
Qed.

Lemma calls_truncate_sources_witness :
  let caches_attended (state : list _SelfAttentionDecoderLayer.cache_dict) :=
    length state = 2
    /\ Forall (fun c =>
                 exists mem,
                   _SelfAttentionDecoderLayer.memory_kv c = Some mem
                   /\ length mem = 1
                   /\ Forall2 kv_has_shape (memory_shapes 3 2 8 [5]) mem)
         state in
  (exists logits state attention,
      SelfAttentionDecoder.forward (State := unit) (InputFn := unit)
        (small_decoder 2) (float_tensor [3; 4; 8]) (Some (float_tensor [3]))
        None (Some (Seq [float_tensor [3; 5; 8]]))
        (Some (Bare (float_tensor [3]))) None None None
      = Ok (logits, state, attention)
      /\ caches_attended state)
  /\ (exists state0 results state,
         SelfAttentionDecoder._get_initial_state (State := unit)
           (small_decoder 2) 3 float32 None = Ok state0
         /\ decode (small_decoder 2) [float_tensor [3; 8]; float_tensor [3; 8]]
              0 (Some state0) (Some (Seq [float_tensor [3; 5; 8]]))
              (Some (Bare (float_tensor [3]))) None
            = Ok (results, Some state)
         /\ caches_attended state).
Proof.
  apply (calls_truncate_sources 2 8 2 2048 tt tt tt tt (Some tt) 2
           (fun _ => no_variables) 100 3 4 8 float32 (float_tensor [3; 4; 8])
           (Some (float_tensor [3])) [float_tensor [3; 8]; float_tensor [3; 8]]
           (Seq [float_tensor [3; 5; 8]]) (Bare (float_tensor [3])) [5] None).
  - lia.
  - lia.
  - reflexivity.
  - reflexivity.
  - repeat constructor; exists 8; reflexivity.
  - discriminate.
  - repeat constructor. exists 8. reflexivity.
  - repeat constructor.
Defined.

(** C6 as the spec states it fails: a decoder with two sources, called with
    the memory and the length vector of one source only, returns. *)
Lemma source_count_mismatch_is_accepted :
  source_count_mismatch (small_decoder 2) (Seq [float_tensor [3; 5; 8]])
    (Seq [float_tensor [3]])
  /\ succeeds
       (SelfAttentionDecoder.forward (State := unit) (InputFn := unit)
          (small_decoder 2) (float_tensor [3; 4; 8]) (Some (float_tensor [3]))
          None (Some (Seq [float_tensor [3; 5; 8]]))
          (Some (Seq [float_tensor [3]])) None None None).
Proof.
  split.
  - left. simpl. discriminate.
  - eexists. vm_compute. reflexivity.
Qed.

End SourceCount.

(** ** The self-attention mask *)

Section QueryMask.
Context {TT : TensorTypes} {TO : TensorOps}.

Lemma call_self_attention_mask layer inputs mask memory memory_mask cache
  training r :
  _SelfAttentionDecoderLayer.call layer inputs mask memory memory_mask cache
    training = Ok r ->
  self_attention_called_with mask training layer.
Proof.
  unfold _SelfAttentionDecoderLayer.call. intros H.
  apply bind_Ok in H as (res & Hres & H). apply collab_Ok in Hres.
  apply bind_Ok in H as ([o kv] & Hunpack & _).
  destruct res as [o' kv' | o' kv' w]; [| discriminate].
  eexists _, _, _, _. exact Hres.
Qed.

Lemma run_layers_mask layers : forall i inputs mask memory memory_mask cache
  training new_cache att r,
  SelfAttentionDecoder.run_layers layers i inputs mask memory memory_mask cache
    training new_cache att = Ok r ->
  Forall (self_attention_called_with mask training) layers.
Proof.
  induction layers as [|layer layers IH];
    intros i inputs mask memory memory_mask cache training new_cache att r H.
  - constructor.
  - cbn [SelfAttentionDecoder.run_layers] in H.
    apply bind_Ok in H as (c & _ & H).
    apply bind_Ok in H as ([[o lc] a] & Hcall & H).
    constructor.
    + eapply call_self_attention_mask. exact Hcall.
    + eapply IH. exact H.
Qed.

Lemma prepare_query_mask_Some inputs l mask :
  SelfAttentionDecoder.prepare_query_mask inputs (Some l) = Ok mask <->
  exists T m,
    nth_error (tf_shape inputs) 1 = Some T
    /\ transformer_future_mask l T = Some m
    /\ mask = Some m.
Proof.
  unfold SelfAttentionDecoder.prepare_query_mask. split.
  - intros H. apply bind_Ok in H as (T & HT & H). apply collab_Ok in HT.
    apply bind_Ok in H as (m & Hm & H). apply collab_Ok in Hm.
    injection H as <-. eauto.
  - intros (T & m & HT & Hm & ->). rewrite HT. cbn [collab bind].
    rewrite Hm. reflexivity.
Qed.

End QueryMask.

Section QueryMaskShape.
Import Shapes.

(** C9: [_run] builds a self-attention mask exactly when [sequence_length]
    is supplied.  Without it no mask is built, and every layer's
    self-attention is called with no mask.  With it the mask is
    [future_mask(sequence_length, maximum_length)] for the time extent of the
    processed inputs, every layer's self-attention is called with that mask,
    and for inputs \[B, T, _\] and lengths \[B\] the mask is \[B, T, T\]. *)
Theorem query_mask_iff_sequence_length :
  (forall (TT : TensorTypes) (TO : TensorOps) (inputs : Tensor),
      SelfAttentionDecoder.prepare_query_mask inputs None = Ok None)
  /\ (forall (TT : TensorTypes) (TO : TensorOps) (inputs l : Tensor),
         SelfAttentionDecoder.prepare_query_mask inputs (Some l) <> Ok None)
  /\ (forall (TT : TensorTypes) (TO : TensorOps) (self : SelfAttentionDecoder.t)
         (inputs : Tensor) cache memory memory_sequence_length step training r,
         SelfAttentionDecoder._run self inputs None cache memory
           memory_sequence_length step training = Ok r ->
         Forall (self_attention_called_with None training)
           (SelfAttentionDecoder.layers self))
  /\ (forall (TT : TensorTypes) (TO : TensorOps) (self : SelfAttentionDecoder.t)
         (inputs l : Tensor) cache memory memory_sequence_length step training r,
         SelfAttentionDecoder._run self inputs (Some l) cache memory
           memory_sequence_length step training = Ok r ->
         exists x T m,
           SelfAttentionDecoder.process_inputs self inputs step training = Ok x
           /\ nth_error (tf_shape x) 1 = Some T
           /\ transformer_future_mask l T = Some m
           /\ Forall (self_attention_called_with (Some m) training)
                (SelfAttentionDecoder.layers self))
  /\ (forall (B T U : nat) (inputs l : tensor),
         shape inputs = [B; T; U] ->
         shape l = [B] ->
         exists m,
           SelfAttentionDecoder.prepare_query_mask inputs (Some l) = Ok (Some m)
           /\ shape m = [B; T; T]).
Proof.
  split; [reflexivity |]. split; [| split; [| split]].
  - intros TT TO inputs l H.
    apply prepare_query_mask_Some in H as (T & m & _ & _ & H). discriminate.
  - intros TT TO self inputs cache memory lens step training r H.
    unfold SelfAttentionDecoder._run in H.
    apply bind_Ok in H as (x & _ & H).
    apply bind_Ok in H as (mask & Hmask & H).
    simpl in Hmask. injection Hmask as <-.
    apply bind_Ok in H as ([mems masks] & _ & H).
    apply bind_Ok in H as ([[o nc] a] & Hrun & _).
    eapply run_layers_mask. exact Hrun.
  - intros TT TO self inputs l cache memory lens step training r H.
    unfold SelfAttentionDecoder._run in H.
    apply bind_Ok in H as (x & Hx & H).
    apply bind_Ok in H as (mask & Hmask & H).
    apply prepare_query_mask_Some in Hmask as (T & m & HT & Hm & ->).
    apply bind_Ok in H as ([mems masks] & _ & H).
    apply bind_Ok in H as ([[o nc] a] & Hrun & _).
    exists x, T, m. repeat split; auto.
    eapply run_layers_mask. exact Hrun.
  - intros B T U inputs l Hin Hl.
    unfold SelfAttentionDecoder.prepare_query_mask. cbn.
    rewrite Hin. cbn. unfold future_mask. rewrite Hl. cbn.
    eexists. split; reflexivity.
Qed.

Lemma query_mask_iff_sequence_length_witness :
  exists m,
    SelfAttentionDecoder.prepare_query_mask (float_tensor [3; 4; 8])
      (Some (float_tensor [3])) = Ok (Some m)
    /\ shape m = [3; 4; 4].
Proof.
  apply (proj2 (proj2 (proj2 (proj2 query_mask_iff_sequence_length))) 3 4 8
           (float_tensor [3; 4; 8]) (float_tensor [3])); reflexivity.
Defined.

End QueryMaskShape.

(** ** One step *)

Section Step.
Context {TT : TensorTypes} {TO : TensorOps}.

Lemma step_iff self inputs timestep state memory memory_sequence_length training
  outputs state' attention :
  SelfAttentionDecoder.step self inputs timestep state memory
    memory_sequence_length training = Ok (outputs, state', attention)
  <-> exists x o a,
      tf_expand_dims inputs 1 = Some x
      /\ SelfAttentionDecoder._run self x None state memory
           memory_sequence_length (Some timestep) training = Ok (o, state', a)
      /\ tf_squeeze o 1 = Some outputs
      /\ match a with
         | Some a => exists a', tf_squeeze a 1 = Some a' /\ attention = Some a'
         | None => attention = None
         end.
Proof.
  unfold SelfAttentionDecoder.step. split.
  - intros H. apply bind_Ok in H as (x & Hx & H). apply collab_Ok in Hx.
    apply bind_Ok in H as ([[o s] a] & Hrun & H).
    apply bind_Ok in H as (o' & Ho' & H). apply collab_Ok in Ho'.
    apply bind_Ok in H as (a' & Ha' & H). injection H as <- <- <-.
    exists x, o, a. repeat split; auto.
    destruct a as [a|].
    + apply bind_Ok in Ha' as (a2 & Ha2 & Ha'). apply collab_Ok in Ha2.
      injection Ha' as <-. eauto.
    + injection Ha' as <-. reflexivity.
  - intros (x & o & a & Hx & Hrun & Ho & Ha).
    rewrite Hx. cbn [collab bind].
    eapply bind_Ok_intro; [exact Hrun |]. cbn beta iota.
    rewrite Ho. cbn [collab bind].
    destruct a as [a|].
    + destruct Ha as (a' & -> & ->). reflexivity.
    + subst attention. reflexivity.
Qed.

Lemma run_position self inputs sequence_length cache memory
  memory_sequence_length timestep training r position_encoder :
  SelfAttentionDecoder.position_encoder self = Some position_encoder ->
  SelfAttentionDecoder._run self inputs sequence_length cache memory
    memory_sequence_length (Some timestep) training = Ok r ->
  exists scaled encoded,
    mul_sqrt inputs (SelfAttentionDecoder.num_units self) = Some scaled
    /\ call_position_encoder position_encoder scaled (Some (timestep + 1))
       = Some encoded.
Proof.
  intros Hpe H. unfold SelfAttentionDecoder._run in H.
  apply bind_Ok in H as (x & Hx & _).
  unfold SelfAttentionDecoder.process_inputs in Hx. rewrite Hpe in Hx.
  apply bind_Ok in Hx as (scaled & Hs & Hx). apply collab_Ok in Hs.
  apply bind_Ok in Hx as (encoded & He & _). apply collab_Ok in He.
  eauto.
Qed.

(** [_run] as [step] calls it, statement by statement: the inputs are
    scaled, the position encoder (when there is one) is applied to the scaled
    inputs at position [timestep + 1], dropout is applied to what the encoder
    returns, and the result is what the layers receive, with no query mask;
    the outputs are the layer normalisation of what the layers return. *)
Lemma run_of_step_iff self x timestep state memory memory_sequence_length
  training outputs state' attention :
  SelfAttentionDecoder._run self x None state memory memory_sequence_length
    (Some timestep) training = Ok (outputs, state', attention)
  <-> exists scaled encoded dropped mems masks o,
      mul_sqrt x (SelfAttentionDecoder.num_units self) = Some scaled
      /\ match SelfAttentionDecoder.position_encoder self with
         | Some position_encoder =>
             call_position_encoder position_encoder scaled (Some (timestep + 1))
             = Some encoded
         | None => encoded = scaled
         end
      /\ common_dropout encoded (SelfAttentionDecoder.dropout self) training
         = Some dropped
      /\ SelfAttentionDecoder.prepare_memory_mask memory memory_sequence_length
         = Ok (mems, masks)
      /\ SelfAttentionDecoder.run_layers (SelfAttentionDecoder.layers self) 0
           dropped None mems masks state training [] None
         = Ok (o, state', Some attention)
      /\ call_layer_norm (SelfAttentionDecoder.layer_norm self) o = Some outputs.
Proof.
  unfold SelfAttentionDecoder._run, SelfAttentionDecoder.process_inputs. split.
  - intros H. apply bind_Ok in H as (dropped & Hproc & H).
    apply bind_Ok in Hproc as (scaled & Hs & Hproc). apply collab_Ok in Hs.
    apply bind_Ok in Hproc as (encoded & He & Hd). apply collab_Ok in Hd.
    cbn [SelfAttentionDecoder.prepare_query_mask bind] in H.
    apply bind_Ok in H as ([mems masks] & Hmm & H).
    apply bind_Ok in H as ([[o nc] att] & Hlayers & H).
    apply bind_Ok in H as (o' & Hnorm & H). apply collab_Ok in Hnorm.
    destruct att as [att|]; [| discriminate]. injection H as -> -> ->.
    exists scaled, encoded, dropped, mems, masks, o.
    split; [exact Hs |]. split.
    { destruct (SelfAttentionDecoder.position_encoder self) as [pe|].
      - apply collab_Ok in He. exact He.
      - injection He as <-. reflexivity. }
    split; [exact Hd |]. split; [exact Hmm |]. split; assumption.
  - intros (scaled & encoded & dropped & mems & masks & o & Hs & He & Hd & Hmm
            & Hlayers & Hnorm).
    rewrite Hs. cbn [collab bind].
    assert (Henc :
              match SelfAttentionDecoder.position_encoder self with
              | Some position_encoder =>
                  collab (call_position_encoder position_encoder scaled
                            (Some (timestep + 1)))
              | None => Ok scaled
              end = Ok encoded).
    { destruct (SelfAttentionDecoder.position_encoder self) as [pe|].
      - rewrite He. reflexivity.
      - rewrite He. reflexivity. }
    rewrite Henc. cbn [bind]. rewrite Hd.
    cbn [collab bind SelfAttentionDecoder.prepare_query_mask].
    rewrite Hmm. cbn [bind]. rewrite Hlayers. cbn [bind]. rewrite Hnorm.
    reflexivity.
Qed.

End Step.

Section StepShape.
Import Shapes.

(** C8: for every tensor library, [step] returns exactly when the input
    expands at axis 1, [_run] returns on the expanded input with
    [step=timestep], and its outputs (and its attention, when present)
    squeeze at axis 1; the values returned are the squeezed ones and the
    state of [_run].  That run returns exactly when the expanded input is
    scaled, the position encoder (if the decoder has one) is applied to the
    scaled input at position [timestep + 1], dropout is applied to the
    encoded input, the layers run on the result without a query mask, and
    what they return is normalised; its outputs are the normalised ones.  On
    shapes: an input \[B, U\] is expanded to \[B, 1, U\], and the outputs
    come back as \[B, num_units\], the attention as \[B, memory_time\]. *)
Theorem step_expands_runs_squeezes :
  (forall (TT : TensorTypes) (TO : TensorOps) (self : SelfAttentionDecoder.t)
     (inputs : Tensor) (timestep : nat) state memory memory_sequence_length
     training outputs state' attention,
      SelfAttentionDecoder.step self inputs timestep state memory
        memory_sequence_length training = Ok (outputs, state', attention)
      <-> exists x o a,
          tf_expand_dims inputs 1 = Some x
          /\ SelfAttentionDecoder._run self x None state memory
               memory_sequence_length (Some timestep) training
             = Ok (o, state', a)
          /\ tf_squeeze o 1 = Some outputs
          /\ match a with
             | Some a => exists a', tf_squeeze a 1 = Some a' /\ attention = Some a'
             | None => attention = None
             end)
  /\ (forall (TT : TensorTypes) (TO : TensorOps) (self : SelfAttentionDecoder.t)
        (x : Tensor) (timestep : nat) state memory memory_sequence_length
        training o state' a,
         SelfAttentionDecoder._run self x None state memory
           memory_sequence_length (Some timestep) training = Ok (o, state', a)
         <-> exists scaled encoded dropped mems masks normalized,
             mul_sqrt x (SelfAttentionDecoder.num_units self) = Some scaled
             /\ match SelfAttentionDecoder.position_encoder self with
                | Some position_encoder =>
                    call_position_encoder position_encoder scaled
                      (Some (timestep + 1)) = Some encoded
                | None => encoded = scaled
                end
             /\ common_dropout encoded (SelfAttentionDecoder.dropout self)
                  training = Some dropped
             /\ SelfAttentionDecoder.prepare_memory_mask memory
                  memory_sequence_length = Ok (mems, masks)
             /\ SelfAttentionDecoder.run_layers
                  (SelfAttentionDecoder.layers self) 0 dropped None mems masks
                  state training [] None
                = Ok (normalized, state', Some a)
             /\ call_layer_norm (SelfAttentionDecoder.layer_norm self)
                  normalized = Some o)
  /\ (forall (num_layers num_units num_heads ffn_inner_dim : nat)
        (dropout attention_dropout ffn_dropout : Float)
        (ffn_activation : Activation)
        (position_encoder_class : option PositionEncoder) (num_sources : nat)
        (vars : nat -> _SelfAttentionDecoderLayer.variables)
        (output_layer : Dense)
        (B U Tc : nat) (Ss : list nat) (inputs : Tensor) (timestep : nat) state
        memory memory_sequence_length training,
         0 < num_layers ->
         0 < num_heads ->
         shape inputs = [B; U] ->
         state_fits B num_heads num_units num_layers Tc Ss state ->
         memory_args_fit num_sources B Ss memory memory_sequence_length ->
         exists x outputs state' attention,
           tf_expand_dims inputs 1 = Some x
           /\ shape x = [B; 1; U]
           /\ SelfAttentionDecoder.step
                (SelfAttentionDecoder.__init__ num_layers num_units num_heads
                   ffn_inner_dim dropout attention_dropout ffn_dropout
                   ffn_activation position_encoder_class num_sources vars
                   output_layer)
                inputs timestep state memory memory_sequence_length training
              = Ok (outputs, state', attention)
           /\ shape outputs = [B; num_units]
           /\ (forall a, attention = Some a -> shape a = [B; last Ss 0])).
Proof.
  split; [| split].
  - intros. apply step_iff.
  - intros. apply run_of_step_iff.
  - intros num_layers num_units num_heads ffn_inner_dim dropout
      attention_dropout ffn_dropout ffn_activation position_encoder_class
      num_sources vars output_layer B U Tc Ss inputs timestep state memory
      memory_sequence_length training Hlayers Hheads Hin Hstate Hmem.
    set (self := SelfAttentionDecoder.__init__ num_layers num_units num_heads
                   ffn_inner_dim dropout attention_dropout ffn_dropout
                   ffn_activation position_encoder_class num_sources vars
                   output_layer).
    assert (Hl : length (SelfAttentionDecoder.layers self) = num_layers)
      by apply layers_init_length.
    assert (Hne : SelfAttentionDecoder.layers self <> []).
    { intros E. rewrite E in Hl. simpl in Hl. lia. }
    rewrite <- Hl in Hstate.
    destruct (step_shape B num_heads num_units num_sources Hheads self inputs
                timestep state memory memory_sequence_length training U Tc Ss
                (layers_init_of _ _ _ _ _ _ _ _ _ _ _ _) Hne Hin Hstate Hmem)
      as (o & new & att & Hstep & Ho & _ & _ & Hatt).
    eexists _, o, new, att. split.
    { cbn. unfold expand_dims. rewrite Hin. cbn. reflexivity. }
    split; [reflexivity |]. split; [exact Hstep |]. split; [exact Ho |].
    intros a ->.
    destruct ((num_sources =? 1) && negb (length Ss =? 0)).
    + destruct Hatt as (a' & E & Ha'). injection E as ->. exact Ha'.
    + discriminate.
Qed.

Lemma step_expands_runs_squeezes_witness :
  exists x outputs state' attention,
    tf_expand_dims (float_tensor [3; 8]) 1 = Some x
    /\ shape x = [3; 1; 8]
    /\ SelfAttentionDecoder.step (small_decoder 1) (float_tensor [3; 8]) 0 None
         (Some (Bare (float_tensor [3; 5; 8]))) (Some (Bare (float_tensor [3])))
         None
       = Ok (outputs, state', attention)
    /\ shape outputs = [3; 8]
    /\ (forall a, attention = Some a -> shape a = [3; last [5] 0]).
Proof.
  apply (proj2 (proj2 step_expands_runs_squeezes) 2 8 2 2048 tt tt tt tt
           (Some tt) 1 (fun _ => no_variables) 100 3 8 0 [5]
           (float_tensor [3; 8]) 0 None (Some (Bare (float_tensor [3; 5; 8])))
           (Some (Bare (float_tensor [3]))) None).
  - lia.
  - lia.
  - reflexivity.
  - reflexivity.
  - exists [5]. repeat split.
    + repeat constructor. exists 8. reflexivity.
    + repeat constructor.
Defined.

End StepShape.

(** ** Incremental and full-sequence decoding *)

Section Lists.
Context {A B : Type}.

Lemma firstn_S_nth_error (l : list A) (t : nat) (a : A) :
  nth_error l t = Some a -> firstn (S t) l = firstn t l ++ [a].
Proof.
  revert t. induction l as [|b l IH]; intros [|t] H; simpl in *; try discriminate.
  - injection H as ->. reflexivity.
  - rewrite (IH t H). reflexivity.
Qed.

Lemma nth_error_combine_seq (l : list A) (s t : nat) (a : A) :
  nth_error l t = Some a ->
  nth_error (combine (seq s (length l)) l) t = Some (s + t, a).
Proof.
  revert s t. induction l as [|b l IH]; intros s [|t] H; simpl in *;
    try discriminate.
  - injection H as ->. rewrite Nat.add_0_r. reflexivity.
  - rewrite (IH (S s) t H). f_equal. f_equal. lia.
Qed.

Lemma nth_error_mapi (f : nat -> A -> B) (l : list A) (t : nat) (a : A) :
  nth_error l t = Some a -> nth_error (Values.mapi f l) t = Some (f t a).
Proof.
  intros H. unfold Values.mapi.
  rewrite nth_error_map, (nth_error_combine_seq l 0 t a H). reflexivity.
Qed.

Lemma length_mapi (f : nat -> A -> B) (l : list A) :
  length (Values.mapi f l) = length l.
Proof.
  unfold Values.mapi. rewrite length_map, length_combine, length_seq. lia.
Qed.

Lemma visible_all (l : list A) : Values.visible (repeat true (length l)) l = l.
Proof.
  induction l as [|a l IH]; simpl; [reflexivity | rewrite IH; reflexivity].
Qed.

(** Under the causal mask of query [i], the visible keys are the first
    [i + 1]. *)
Lemma visible_causal (T i : nat) (l : list A) : forall s,
  s + length l <= T ->
  Values.visible (map (fun j => (j <=? i) && (j <? T)) (seq s (length l))) l
  = firstn (i + 1 - s) l.
Proof.
  induction l as [|a l IH]; intros s Hs; simpl in *.
  - rewrite firstn_nil. reflexivity.
  - assert (E : (s <? T) = true) by (apply Nat.ltb_lt; lia). rewrite E.
    destruct (Nat.leb_spec s i) as [Hle | Hgt]; simpl.
    + rewrite (IH (S s)) by lia.
      replace (i + 1 - s) with (S (i + 1 - S s)) by lia. reflexivity.
    + replace (i + 1 - s) with 0 by lia. simpl.
      rewrite (IH (S s)) by lia.
      replace (i + 1 - S s) with 0 by lia. reflexivity.
Qed.

Lemma Forall2_eq_map (f : A -> B) (l : list A) (l' : list B) :
  Forall2 (fun a b => b = f a) l l' -> l' = map f l.
Proof.
  induction 1 as [|a b l l' -> _ IH]; simpl; [reflexivity | rewrite IH; reflexivity].
Qed.

End Lists.

Section Equivalence.
Import Values.
Context {C : Carrier} {N : Numerics}.

Lemma column_length {A : Type} (t : nat) (X x : list (list A)) :
  column t X x -> length x = length X.
Proof. intros H. symmetry. exact (Forall2_length H). Qed.

Lemma column_map {A B : Type} (f : A -> B) (t : nat) (X x : list (list A)) :
  column t X x -> column t (map (map f) X) (map (map f) x).
Proof.
  induction 1 as [|row srow X x (a & Ha & ->) _ IH]; simpl; constructor; auto.
  exists (f a). split; [| reflexivity]. rewrite nth_error_map, Ha. reflexivity.
Qed.

Lemma column_position (f : nat -> vec -> vec) (t : nat) (X x : list (list vec)) :
  column t X x ->
  column t (map (mapi (fun i => f (i + 1))) X) (map (map (f (t + 1))) x).
Proof.
  induction 1 as [|row srow X x (a & Ha & ->) _ IH]; simpl; constructor; auto.
  exists (f (t + 1) a). split; [| reflexivity].
  apply (nth_error_mapi (fun i => f (i + 1))). exact Ha.
Qed.

Lemma mask_row_causal (T i n : nat) :
  i < T ->
  mask_row (Some (causal T)) i n = map (fun j => (j <=? i) && (j <? T)) (seq 0 T).
Proof.
  intros Hi. unfold mask_row, causal.
  rewrite (nth_indep _ _ (map (fun j => (j <=? 0) && (j <? T)) (seq 0 T)))
    by (rewrite length_map, length_seq; exact Hi).
  rewrite (map_nth (fun i0 => map (fun j => (j <=? i0) && (j <? T)) (seq 0 T))).
  rewrite seq_nth by exact Hi. reflexivity.
Qed.

Lemma mask_row_broadcast (row : list bool) (i n : nat) :
  mask_row (Some [row]) i n = row.
Proof.
  unfold mask_row. destruct i as [|[|i]]; reflexivity.
Qed.

Lemma combine_map_self {A B : Type} (f : A -> B) (l : list A) :
  combine l (map f l) = map (fun a => (a, f a)) l.
Proof.
  induction l as [|a l IH]; simpl; [reflexivity | rewrite IH; reflexivity].
Qed.

Lemma combine_map_l {A B D : Type} (f : A -> B) (l : list A) (l' : list D) :
  combine (map f l) l' = map (fun '(a, d) => (f a, d)) (combine l l').
Proof.
  revert l'. induction l as [|a l IH]; intros [|d l']; simpl; try reflexivity.
  rewrite IH. reflexivity.
Qed.

Lemma combine_repeat {A B : Type} (b : B) (l : list A) :
  combine l (repeat b (length l)) = map (fun a => (a, b)) l.
Proof.
  induction l as [|a l IH]; simpl; [reflexivity | rewrite IH; reflexivity].
Qed.

Lemma map_combine4_self {A B D E R : Type} (F : A * B * D * E -> R)
  (f : A -> B) (g : A -> D) (e : E) (l : list A) :
  map F (combine (combine (combine l (map f l)) (map g l)) (repeat e (length l)))
  = map (fun a => F (a, f a, g a, e)) l.
Proof.
  induction l as [|a l IH]; simpl; [reflexivity | rewrite IH; reflexivity].
Qed.

(** The rows of self-attention over a full sequence under the causal mask,
    and those of a step over the cached prefix. *)
Lemma self_attention_rows layer training T t (X x : list (list vec)) :
  Forall (fun row => length row = T) X ->
  column t X x ->
  column t
    (map (fun row =>
            fst (attend_row layer training row
                   (combine (map (key layer) row) (map (value layer) row))
                   (Some (causal T)))) X)
    (map (fun p =>
            fst (let '(srow, k, v, m) := p in
                 attend_row layer training srow (combine k v) m))
       (combine
          (combine
             (combine x (map (firstn (S t)) (map (map (key layer)) X)))
             (map (firstn (S t)) (map (map (value layer)) X)))
          (repeat None (length x)))).
Proof.
  intros Hrect Hcol. induction Hcol as [|row srow X x (a & Ha & ->) _ IH].
  - constructor.
  - inversion Hrect as [|? ? Hlen Hrect']; subst.
    cbn [map combine repeat length]. constructor; [| apply IH; exact Hrect'].
    assert (Ht : t < length row) by (apply nth_error_Some; congruence).
    cbn beta iota. unfold attend_row. cbn [fst].
    eexists. split; [apply nth_error_mapi; exact Ha |].
    unfold mapi at 1. cbn [length seq combine map]. f_equal. f_equal.
    rewrite (mask_row_causal (length row) t _ Ht).
    pose proof (visible_causal (length row) t
                  (combine (map (key layer) row) (map (value layer) row)) 0) as E.
    rewrite length_combine, !length_map, Nat.min_id in E.
    rewrite E by lia.
    unfold mask_row. rewrite visible_all, combine_firstn.
    replace (t + 1 - 0) with (S t) by lia. reflexivity.
Qed.

Lemma concat_prefix {A : Type} (f : vec -> A) (t : nat) (X x : list (list vec)) :
  column t X x ->
  map (fun '(r, s) => r ++ s)
    (combine (map (firstn t) (map (map f) X)) (map (map f) x))
  = map (firstn (S t)) (map (map f) X).
Proof.
  induction 1 as [|row srow X x (a & Ha & ->) _ IH]; [reflexivity |].
  cbn [map combine]. rewrite IH. f_equal.
  symmetry. apply firstn_S_nth_error. rewrite nth_error_map, Ha. reflexivity.
Qed.

(** Self-attention: the full pass under the causal mask against the step
    over the cached prefix. *)
Lemma self_attention_step layer training T (X : list (list vec)) outF kvF :
  Forall (fun row => length row = T) X ->
  call_attention layer (Rows3 X) None
    (Some (Mask3 (repeat (causal T) (length X)))) None training
  = Some (Tuple2 outF kvF) ->
  let K := map (map (key layer)) X in
  let V := map (map (value layer)) X in
  exists Y,
    outF = Rows3 Y
    /\ kvF = (KV K, KV V)
    /\ Forall (fun row => length row = T) Y
    /\ length Y = length X
    /\ forall t x,
        column t X x ->
        exists y,
          call_attention layer (Rows3 x) None None
            (Some (KV (map (firstn t) K), KV (map (firstn t) V))) training
          = Some (Tuple2 (Rows3 y)
                    (KV (map (firstn (S t)) K), KV (map (firstn (S t)) V)))
          /\ column t Y y.
Proof.
  intros Hrect Hfull K V. subst K V.
  change (@call_attention _ ops) with attention in *.
  unfold attention in Hfull. cbn [obind] in Hfull.
  rewrite !length_map, repeat_length, !Nat.eqb_refl in Hfull. cbn [andb] in Hfull.
  destruct (mha_return_attention (wrapped layer)) eqn:Hret; [discriminate |].
  injection Hfull as <- <-.
  rewrite map_repeat, map_combine4_self, map_map.
  eexists. split; [reflexivity |]. split; [reflexivity |]. split.
  { apply Forall_forall. intros row Hrow. apply in_map_iff in Hrow.
    destruct Hrow as (r & <- & Hr). unfold attend_row. cbn [fst].
    rewrite length_mapi. rewrite Forall_forall in Hrect. auto. }
  split; [apply length_map |].
  intros t x Hcol.
  pose proof (column_length t X x Hcol) as Hlen.
  assert (Hcat : forall (A : Type) (f : vec -> A),
             map (fun '(r, s) => r ++ s)
               (combine (map (firstn t) (map (map f) X)) (map (map f) x))
             = map (firstn (S t)) (map (map f) X))
    by (intros; apply concat_prefix; exact Hcol).
  unfold attention, concat_time.
  rewrite !length_map, Hlen, !Nat.eqb_refl. cbn [obind].
  rewrite !length_map, !length_combine, !length_map, repeat_length, Hlen,
    Nat.min_id, !Nat.eqb_refl.
  cbn [andb]. rewrite Hret, !Hcat. eexists. split; [reflexivity |].
  rewrite map_map.
  pose proof (self_attention_rows layer training T t X x Hrect Hcol) as H.
  rewrite Hlen in H. exact H.
Qed.

Lemma Forall2_map_same {A B D : Type} (R : B -> D -> Prop) (f : A -> B)
  (g : A -> D) (l : list A) :
  (forall a, R (f a) (g a)) -> Forall2 R (map f l) (map g l).
Proof.
  intros H. induction l; simpl; constructor; auto.
Qed.

(** Rows of attention whose queries are related, over the same keys, values
    and masks. *)
Lemma rows_related {A B D E R1 R2 : Type} (F : A * B * D * E -> R1)
  (G : A * B * D * E -> R2) (P : A -> A -> Prop) (PE : E -> Prop)
  (R : R1 -> R2 -> Prop) (Q q : list A) :
  (forall a a' k v m, P a a' -> PE m -> R (F (a, k, v, m)) (G (a', k, v, m))) ->
  Forall2 P Q q ->
  forall (K : list B) (V : list D) (masks : list E),
    Forall PE masks ->
    Forall2 R (map F (combine (combine (combine Q K) V) masks))
      (map G (combine (combine (combine q K) V) masks)).
Proof.
  intros H HQ. induction HQ as [|a a' Q q Ha _ IH]; intros K V masks Hm.
  - constructor.
  - destruct K as [|k K]; [constructor |].
    destruct V as [|v V]; [constructor |].
    destruct masks as [|m masks]; [constructor |].
    inversion Hm; subst. simpl. constructor; auto.
Qed.

(** One row of memory attention under a mask that is broadcast over the
    queries: position [t] of the full row against the step. *)
Lemma memory_attention_row layer training t (row : list vec) (a : vec) kvs r :
  nth_error row t = Some a ->
  position_of t (fst (attend_row layer training row kvs (Some [r])))
    (fst (attend_row layer training [a] kvs (Some [r])))
  /\ column t (snd (attend_row layer training row kvs (Some [r])))
       (snd (attend_row layer training [a] kvs (Some [r]))).
Proof.
  intros Ha. unfold attend_row. cbn [fst snd]. split.
  - eexists. split; [apply nth_error_mapi; exact Ha |].
    unfold mapi at 1. cbn [length seq combine map].
    rewrite !mask_row_broadcast. reflexivity.
  - apply Forall2_map_same. intros h.
    eexists. split; [apply nth_error_mapi; exact Ha |].
    unfold mapi at 1. cbn [length seq combine map].
    rewrite !mask_row_broadcast. reflexivity.
Qed.

(** Memory attention: the full pass against the step, which finds in its
    cache nothing, an empty history or the keys and values of the memory. *)
Lemma memory_attention_step layer training T (Q M : list (list vec))
  (m2 : list (list bool)) resF :
  Forall (fun row => length row = T) Q ->
  call_attention layer (Rows3 Q) (Some (Rows3 M))
    (Some (Mask3 (map (fun r => [r]) m2))) None training = Some resF ->
  let K := map (map (key layer)) M in
  let V := map (map (value layer)) M in
  exists Y W,
    resF = (if mha_return_attention (wrapped layer)
            then Tuple3 (Rows3 Y) (KV K, KV V) (Weights4 W)
            else Tuple2 (Rows3 Y) (KV K, KV V))
    /\ Forall (fun row => length row = T) Y
    /\ length Y = length Q
    /\ forall t q cache,
        column t Q q ->
        cached_memory K V cache ->
        exists y w,
          call_attention layer (Rows3 q) (Some (Rows3 M))
            (Some (Mask3 (map (fun r => [r]) m2))) cache training
          = Some (if mha_return_attention (wrapped layer)
                  then Tuple3 (Rows3 y) (KV K, KV V) (Weights4 w)
                  else Tuple2 (Rows3 y) (KV K, KV V))
          /\ column t Y y
          /\ heads_column t W w.
Proof.
  intros Hrect Hfull K V. subst K V.
  change (@call_attention _ ops) with attention in *.
  unfold attention in Hfull. cbn [obind] in Hfull.
  destruct ((length (map (map (key layer)) M) =? length Q)
            && (length (map (map (value layer)) M) =? length Q)
            && (length (map Some (map (fun r => [r]) m2)) =? length Q))
    eqn:Hlens; [| discriminate].
  set (rowsF := map (fun '(queries, k, v, m) =>
                       attend_row layer training queries (combine k v) m)
                  (combine (combine (combine Q (map (map (key layer)) M))
                              (map (map (value layer)) M))
                     (map Some (map (fun r => [r]) m2)))) in *.
  exists (map fst rowsF), (map snd rowsF). split.
  { destruct (mha_return_attention (wrapped layer)); congruence. }
  split.
  { apply Forall_forall. intros row Hrow. apply in_map_iff in Hrow.
    destruct Hrow as (r & <- & Hr). subst rowsF. apply in_map_iff in Hr.
    destruct Hr as ([[[queries k] v] m] & <- & Hin).
    unfold attend_row. cbn [fst]. rewrite length_mapi.
    apply in_combine_l in Hin. apply in_combine_l in Hin.
    apply in_combine_l in Hin. rewrite Forall_forall in Hrect. auto. }
  split.
  { subst rowsF. rewrite !length_map, !length_combine, !length_map.
    apply andb_prop in Hlens as [Hlens H3].
    apply andb_prop in Hlens as [H1 H2].
    apply Nat.eqb_eq in H1. apply Nat.eqb_eq in H2. apply Nat.eqb_eq in H3.
    rewrite !length_map in H1. rewrite !length_map in H2.
    rewrite !length_map in H3. lia. }
  intros t q cache Hcol Hcache.
  pose proof (column_length t Q q Hcol) as Hlen.
  assert (Hkv :
    match cache with
    | Some (KV ck, KV cv) =>
        if time_extent ck =? 0
        then Some (map (map (key layer)) M, map (map (value layer)) M)
        else Some (ck, cv)
    | Some _ => None
    | None => Some (map (map (key layer)) M, map (map (value layer)) M)
    end = Some (map (map (key layer)) M, map (map (value layer)) M)).
  { destruct cache as [[ck cv]|]; [| reflexivity].
    destruct ck as [| | | | |ck| | |]; try contradiction.
    destruct cv as [| | | | |cv| | |]; try contradiction.
    simpl in Hcache. destruct Hcache as [-> | [-> ->]]; [reflexivity |].
    destruct (time_extent (map (map (key layer)) M) =? 0); reflexivity. }
  unfold attention. rewrite Hkv. cbn [obind]. rewrite Hlen, Hlens.
  set (rowsS := map (fun '(queries, k, v, m) =>
                       attend_row layer training queries (combine k v) m)
                  (combine (combine (combine q (map (map (key layer)) M))
                              (map (map (value layer)) M))
                     (map Some (map (fun r => [r]) m2)))).
  exists (map fst rowsS), (map snd rowsS).
  split; [destruct (mha_return_attention (wrapped layer)); reflexivity |].
  assert (Hrows : Forall2 (fun rF rS => position_of t (fst rF) (fst rS)
                                         /\ column t (snd rF) (snd rS))
                    rowsF rowsS).
  { subst rowsF rowsS.
    apply (rows_related _ _ (position_of t) (fun m => exists r, m = Some [r])).
    - intros row srow k v m (a & Ha & ->) (r & ->).
      apply memory_attention_row. exact Ha.
    - exact Hcol.
    - apply Forall_forall. intros m Hm. apply in_map_iff in Hm.
      destruct Hm as (m' & <- & Hm'). apply in_map_iff in Hm'.
      destruct Hm' as (r & <- & _). eauto. }
  clearbody rowsF rowsS. clear - Hrows.
  induction Hrows as [|rF rS rowsF rowsS [H1 H2] _ [IH1 IH2]]; split; simpl;
    constructor; auto.
Qed.

(** [attend_memory] only appends to the [memory_kv] it is started with. *)
Lemma attend_memory_acc zipped : forall outputs memory_kv att training,
  _SelfAttentionDecoderLayer.attend_memory zipped outputs memory_kv att training
  = match _SelfAttentionDecoderLayer.attend_memory zipped outputs [] att training with
    | Ok (o, new, a) => Ok (o, memory_kv ++ new, a)
    | Raise e => Raise e
    end.
Proof.
  induction zipped as [|[[[layer mem] mem_mask] mem_cache] zipped IH];
    intros outputs memory_kv att training.
  - simpl. rewrite app_nil_r. reflexivity.
  - cbn [_SelfAttentionDecoderLayer.attend_memory].
    destruct (collab (call_attention layer outputs (Some mem) (Some mem_mask)
                        mem_cache training)) as [[o kv | o kv w]|e];
      cbn [bind]; [| | reflexivity].
    + rewrite (IH o (memory_kv ++ [kv])), (IH o ([] ++ [kv])).
      destruct (_SelfAttentionDecoderLayer.attend_memory zipped o [] att training)
        as [[[o' new] a']|e]; [| reflexivity].
      rewrite <- app_assoc. reflexivity.
    + destruct (collab (getitem_head0 w)) as [a|e]; cbn [bind]; [| reflexivity].
      rewrite (IH o (memory_kv ++ [kv])), (IH o ([] ++ [kv])).
      destruct (_SelfAttentionDecoderLayer.attend_memory zipped o [] (Some a)
                  training) as [[[o' new] a']|e]; [| reflexivity].
      rewrite <- app_assoc. reflexivity.
Qed.

Lemma attend_memory_acc_Ok zipped outputs memory_kv att training o new a :
  _SelfAttentionDecoderLayer.attend_memory zipped outputs [] att training
  = Ok (o, new, a) ->
  _SelfAttentionDecoderLayer.attend_memory zipped outputs memory_kv att training
  = Ok (o, memory_kv ++ new, a).
Proof.
  intros H. rewrite attend_memory_acc, H. reflexivity.
Qed.

Lemma attend_memory_length zipped outputs memory_kv att training o new a :
  _SelfAttentionDecoderLayer.attend_memory zipped outputs memory_kv att training
  = Ok (o, new, a) ->
  length new = length memory_kv + length zipped.
Proof.
  revert outputs memory_kv att.
  induction zipped as [|[[[layer mem] mem_mask] mem_cache] zipped IH];
    intros outputs memory_kv att H.
  - simpl in H. injection H as _ <- _. simpl. lia.
  - cbn [_SelfAttentionDecoderLayer.attend_memory] in H.
    apply bind_Ok in H as (res & _ & H).
    destruct res as [o1 kv | o1 kv w].
    + apply IH in H. rewrite H, length_app. simpl. lia.
    + apply bind_Ok in H as (a1 & _ & H).
      apply IH in H. rewrite H, length_app. simpl. lia.
Qed.

Lemma first_heads_column {A : Type} (t : nat) (W w : list (list (list A))) W3 :
  heads_column t W w ->
  first_heads W = Some W3 ->
  exists w3, first_heads w = Some w3 /\ column t W3 w3.
Proof.
  intros H. revert W3.
  induction H as [|Wb wb W w Hb _ IH]; intros W3 HW.
  - injection HW as <-. exists []. split; [reflexivity | constructor].
  - simpl in HW. destruct Wb as [|h0 Wb]; [discriminate |].
    destruct (first_heads W) as [W3'|] eqn:E; [| discriminate].
    injection HW as <-.
    inversion Hb as [|? h0' ? wb' Hh _]; subst.
    destruct (IH W3' eq_refl) as (w3 & Hw3 & Hcol).
    exists (h0' :: w3). split; [simpl; rewrite Hw3; reflexivity |].
    constructor; assumption.
Qed.

(** The loop over the sources: the full pass, which has no cache, against
    the step, whose cache holds per source an empty history or the keys and
    values that the full pass computes. *)
Lemma attend_memory_step training T
  (A : list (TransformerLayerWrapper MultiHeadAttention * Tensor * Tensor)) :
  forall (Q : list (list vec)) n att0F oF newF attF,
    Forall (fun item => broadcast_mask (snd item)) A ->
    length A <= n ->
    Forall (fun row => length row = T) Q ->
    _SelfAttentionDecoderLayer.attend_memory (combine A (repeat None n))
      (Rows3 Q) [] att0F training = Ok (oF, newF, attF) ->
    exists Y,
      oF = Rows3 Y
      /\ Forall (fun row => length row = T) Y
      /\ length Y = length Q
      /\ forall t q mc att0S,
          column t Q q ->
          attention_column t att0F att0S ->
          Prefix2 cached_or_empty mc newF ->
          exists y attS,
            _SelfAttentionDecoderLayer.attend_memory (combine A (map Some mc))
              (Rows3 q) [] att0S training = Ok (Rows3 y, newF, attS)
            /\ column t Y y
            /\ attention_column t attF attS.
Proof.
  induction A as [|[[layer mem] mask] A IH];
    intros Q n att0F oF newF attF Hmasks Hn Hrect Hfull.
  - simpl in Hfull. injection Hfull as <- <- <-.
    exists Q. repeat split; auto.
    intros t q mc att0S Hcol Hatt0 _. exists q, att0S. repeat split; auto.
  - destruct n as [|n]; [simpl in Hn; lia |].
    assert (Hn' : length A <= n) by (apply le_S_n; exact Hn).
    inversion Hmasks as [|? ? (m2 & Hmask) Hmasks']; subst. simpl in Hmask. subst mask.
    cbn [repeat combine _SelfAttentionDecoderLayer.attend_memory] in Hfull.
    apply bind_Ok in Hfull as (resF & Hres & Hfull). apply collab_Ok in Hres.
    destruct mem as [| M | | | | | | |];
      try (cbn in Hres; discriminate).
    destruct (memory_attention_step layer training T Q M m2 resF Hrect Hres)
      as (Y1 & W1 & -> & Hrect1 & Hlen1 & Hstep).
    set (kv1 := (KV (map (map (key layer)) M), KV (map (map (value layer)) M))) in *.
    assert (Hrest : forall att1F,
               _SelfAttentionDecoderLayer.attend_memory (combine A (repeat None n))
                 (Rows3 Y1) ([] ++ [kv1]) att1F training = Ok (oF, newF, attF) ->
               exists new',
                 newF = kv1 :: new'
                 /\ _SelfAttentionDecoderLayer.attend_memory
                      (combine A (repeat None n)) (Rows3 Y1) [] att1F training
                    = Ok (oF, new', attF)).
    { intros att1F H. rewrite attend_memory_acc in H.
      destruct (_SelfAttentionDecoderLayer.attend_memory
                  (combine A (repeat None n)) (Rows3 Y1) [] att1F training)
        as [[[o' new'] a']|e]; [| discriminate].
      injection H as -> <- ->. exists new'. split; reflexivity. }
    assert (Hone : forall q att0S c1 y1 w1 mc' att1S new' y attS,
               call_attention layer (Rows3 q) (Some (Rows3 M))
                 (Some (Mask3 (map (fun r => [r]) m2))) (Some c1) training
               = Some (if mha_return_attention (wrapped layer)
                       then Tuple3 (Rows3 y1) kv1 (Weights4 w1)
                       else Tuple2 (Rows3 y1) kv1) ->
               (if mha_return_attention (wrapped layer)
                then exists w3, first_heads w1 = Some w3
                                /\ att1S = Some (Weights3 w3)
                else att1S = att0S) ->
               _SelfAttentionDecoderLayer.attend_memory (combine A (map Some mc'))
                 (Rows3 y1) [] att1S training = Ok (Rows3 y, new', attS) ->
               _SelfAttentionDecoderLayer.attend_memory
                 (combine ((layer, Rows3 M, Mask3 (map (fun r => [r]) m2)) :: A)
                    (map Some (c1 :: mc')))
                 (Rows3 q) [] att0S training = Ok (Rows3 y, kv1 :: new', attS)).
    { intros q att0S c1 y1 w1 mc' att1S new' y attS Hcall Hhead Hrun.
      cbn [map combine _SelfAttentionDecoderLayer.attend_memory].
      eapply bind_Ok_intro; [apply collab_Ok; exact Hcall |].
      destruct (mha_return_attention (wrapped layer)).
      - destruct Hhead as (w3 & Hw3 & ->).
        eapply bind_Ok_intro.
        { apply collab_Ok. change (@getitem_head0 _ ops) with head0.
          unfold head0. rewrite Hw3. reflexivity. }
        exact (attend_memory_acc_Ok _ _ _ _ _ _ _ _ Hrun).
      - subst att1S. exact (attend_memory_acc_Ok _ _ _ _ _ _ _ _ Hrun). }
    assert (Hc1 : forall c1, cached_or_empty c1 kv1 ->
               cached_memory (map (map (key layer)) M)
                 (map (map (value layer)) M) (Some c1)).
    { intros c1 [-> | (ck & cv & -> & Hck)]; simpl; auto. }
    destruct (mha_return_attention (wrapped layer)) eqn:Hret.
    + apply bind_Ok in Hfull as (a1 & Ha1 & Hfull). apply collab_Ok in Ha1.
      change (@getitem_head0 _ ops) with head0 in Ha1. unfold head0 in Ha1.
      destruct (first_heads W1) as [W3|] eqn:EW3; [| discriminate].
      injection Ha1 as <-.
      destruct (Hrest _ Hfull) as (new' & -> & Hrun).
      destruct (IH Y1 n (Some (Weights3 W3)) oF new' attF Hmasks' Hn' Hrect1 Hrun)
        as (Y & -> & HrectY & HlenY & HIH).
      exists Y. split; [reflexivity |]. split; [exact HrectY |].
      split; [congruence |].
      intros t q mc att0S Hcol Hatt0 Hmc.
      inversion Hmc as [|c1 ? mc' ? Hc Hmc']; subst.
      destruct (Hstep t q (Some c1) Hcol (Hc1 c1 Hc))
        as (y1 & w1 & Hcall & Hcol1 & Hheads).
      destruct (first_heads_column t W1 w1 W3 Hheads EW3) as (w3 & Hw3 & Hcol3).
      destruct (HIH t y1 mc' (Some (Weights3 w3)) Hcol1 Hcol3 Hmc')
        as (y & attS & HrunS & HcolY & HattS).
      exists y, attS. split; [| split; assumption].
      eapply Hone; eauto.
    + destruct (Hrest _ Hfull) as (new' & -> & Hrun).
      destruct (IH Y1 n att0F oF new' attF Hmasks' Hn' Hrect1 Hrun)
        as (Y & -> & HrectY & HlenY & HIH).
      exists Y. split; [reflexivity |]. split; [exact HrectY |].
      split; [congruence |].
      intros t q mc att0S Hcol Hatt0 Hmc.
      inversion Hmc as [|c1 ? mc' ? Hc Hmc']; subst.
      destruct (Hstep t q (Some c1) Hcol (Hc1 c1 Hc))
        as (y1 & w1 & Hcall & Hcol1 & Hheads).
      destruct (HIH t y1 mc' att0S Hcol1 Hatt0 Hmc')
        as (y & attS & HrunS & HcolY & HattS).
      exists y, attS. split; [| split; assumption].
      eapply Hone; eauto.
Qed.

Lemma Forall_length_map {A B : Type} (f : A -> B) (T : nat) (X : list (list A)) :
  Forall (fun row => length row = T) X ->
  Forall (fun row => length row = T) (map (map f) X).
Proof.
  intros H. apply Forall_forall. intros row Hrow. apply in_map_iff in Hrow.
  destruct Hrow as (r & <- & Hr). rewrite length_map.
  rewrite Forall_forall in H. auto.
Qed.

(** One layer: the full pass under the causal mask against the step on
    column [t], whose cache holds the first [t] keys and values of the full
    pass and, per source, an empty history or the keys and values of the
    full pass. *)
Lemma call_step layer training T (X : list (list vec))
  (memory memory_mask : option (list Tensor)) oF cF aF :
  Forall (fun row => length row = T) X ->
  match memory_mask with
  | Some masks => Forall broadcast_mask masks
  | None => True
  end ->
  _SelfAttentionDecoderLayer.call layer (Rows3 X)
    (Some (Mask3 (repeat (causal T) (length X)))) memory memory_mask None
    training = Ok (oF, cF, aF) ->
  exists Y K V mF,
    oF = Rows3 Y
    /\ Forall (fun row => length row = T) Y
    /\ length Y = length X
    /\ length K = length X
    /\ length V = length X
    /\ length mF <= length (_SelfAttentionDecoderLayer.attention layer)
    /\ cF = {| _SelfAttentionDecoderLayer.self_kv := Some (KV K, KV V);
               _SelfAttentionDecoderLayer.memory_kv := Some mF |}
    /\ forall t x cS mc,
        column t X x ->
        _SelfAttentionDecoderLayer.self_kv cS
        = Some (KV (map (firstn t) K), KV (map (firstn t) V)) ->
        _SelfAttentionDecoderLayer.memory_kv cS = Some mc ->
        Prefix2 cached_or_empty mc mF ->
        exists y aS,
          _SelfAttentionDecoderLayer.call layer (Rows3 x) None memory
            memory_mask (Some cS) training
          = Ok (Rows3 y,
                {| _SelfAttentionDecoderLayer.self_kv :=
                     Some (KV (map (firstn (S t)) K), KV (map (firstn (S t)) V));
                   _SelfAttentionDecoderLayer.memory_kv := Some mF |},
                aS)
          /\ column t Y y
          /\ attention_column t aF aS.
Proof.
  intros Hrect Hmasks Hfull.
  unfold _SelfAttentionDecoderLayer.call in Hfull.
  apply bind_Ok in Hfull as (res & Hres & Hfull). apply collab_Ok in Hres.
  apply bind_Ok in Hfull as ([o1 kv1] & Hunpack & Hfull).
  destruct res as [o1' kv1' | ? ? ?]; [| discriminate].
  injection Hunpack as -> ->.
  cbn [_SelfAttentionDecoderLayer.self_kv _SelfAttentionDecoderLayer.empty_dict]
    in Hres.
  destruct (self_attention_step _ training T X o1 kv1 Hrect Hres)
    as (Y1 & -> & -> & Hrect1 & Hlen1 & Hself).
  apply bind_Ok in Hfull as ([[o2 mF] a2] & Hmem & Hfull).
  apply bind_Ok in Hfull as (o3 & Hffn & Hfull). apply collab_Ok in Hffn.
  injection Hfull as <- <- <-.
  set (atts := _SelfAttentionDecoderLayer.attention layer) in *.
  assert (HmF : length mF <= length atts).
  { destruct memory as [mems|]; [| injection Hmem as _ <- _; simpl; lia].
    apply bind_Ok in Hmem as (zipped & Hzip & Hmem).
    destruct memory_mask as [masks|]; [| discriminate].
    cbn in Hzip. injection Hzip as <-.
    apply attend_memory_length in Hmem. rewrite Hmem. simpl.
    rewrite !length_combine. lia. }
  assert (Hloop :
    exists Y2,
      o2 = Rows3 Y2
      /\ Forall (fun row => length row = T) Y2
      /\ length Y2 = length Y1
      /\ forall t y1 cS mc,
          column t Y1 y1 ->
          _SelfAttentionDecoderLayer.memory_kv cS = Some mc ->
          Prefix2 cached_or_empty mc mF ->
          exists y2 aS,
            match memory with
            | Some memory0 =>
                zipped <-
                  zip4 (Some atts) (Some memory0) memory_mask
                    (Some match _SelfAttentionDecoderLayer.memory_kv cS with
                          | Some memory_cache => map Some memory_cache
                          | None => repeat None (length atts)
                          end) ;;
                _SelfAttentionDecoderLayer.attend_memory zipped (Rows3 y1) []
                  None training
            | None => Ok (Rows3 y1, [], None)
            end = Ok (Rows3 y2, mF, aS)
            /\ column t Y2 y2
            /\ attention_column t a2 aS).
  { destruct memory as [mems|].
    - apply bind_Ok in Hmem as (zipped & Hzip & Hmem).
      destruct memory_mask as [masks|]; [| discriminate].
      cbn in Hzip. injection Hzip as <-.
      set (A := combine (combine atts mems) masks) in *.
      assert (HA : Forall (fun item => broadcast_mask (snd item)) A).
      { apply Forall_forall. intros [[l m] k] Hin. apply in_combine_r in Hin.
        rewrite Forall_forall in Hmasks. apply Hmasks. exact Hin. }
      assert (Hn : length A <= length atts).
      { subst A. rewrite !length_combine. lia. }
      destruct (attend_memory_step training T A Y1 (length atts) None o2 mF a2
                  HA Hn Hrect1 Hmem) as (Y2 & -> & Hrect2 & Hlen2 & Hloop).
      exists Y2. split; [reflexivity |]. split; [exact Hrect2 |].
      split; [exact Hlen2 |].
      intros t y1 cS mc Hcol Hmc HP. rewrite Hmc. cbn [zip4 bind].
      fold A. apply (Hloop t y1 mc None Hcol I HP).
    - injection Hmem as <- <- <-. exists Y1. repeat split; auto.
      intros t y1 cS mc Hcol _ Hmc. exists y1, None. repeat split; auto. }
  destruct Hloop as (Y2 & -> & Hrect2 & Hlen2 & Hloop).
  change (@call_ffn _ ops) with
    (fun layer t training => pointwise (feed_forward layer training) t) in Hffn.
  cbn in Hffn. injection Hffn as <-.
  exists (map (map (feed_forward (_SelfAttentionDecoderLayer.ffn layer) training)) Y2),
    (map (map (key (_SelfAttentionDecoderLayer.self_attention layer))) X),
    (map (map (value (_SelfAttentionDecoderLayer.self_attention layer))) X), mF.
  split; [reflexivity |]. split; [apply Forall_length_map; exact Hrect2 |].
  split; [rewrite length_map; congruence |].
  split; [apply length_map |]. split; [apply length_map |].
  split; [exact HmF |]. split; [reflexivity |].
  intros t x cS mc Hcol HcS Hmc HP.
  destruct (Hself t x Hcol) as (y1 & Hcall1 & Hcol1).
  destruct (Hloop t y1 cS mc Hcol1 Hmc HP) as (y2 & aS & Hrun & Hcol2 & HaS).
  exists (map (map (feed_forward (_SelfAttentionDecoderLayer.ffn layer) training)) y2),
    aS.
  split; [| split; [apply column_map; exact Hcol2 | exact HaS]].
  unfold _SelfAttentionDecoderLayer.call. rewrite HcS.
  eapply bind_Ok_intro; [apply collab_Ok; exact Hcall1 |]. cbn [bind].
  eapply bind_Ok_intro; [exact Hrun |]. reflexivity.
Qed.

Lemma skipn_cons_nth_error {A : Type} (j : nat) (l : list A) a rest :
  skipn j l = a :: rest -> nth_error l j = Some a /\ skipn (S j) l = rest.
Proof.
  revert l. induction j as [|j IH]; intros l H.
  - simpl in H. subst l. split; reflexivity.
  - destruct l as [|b l]; [discriminate |]. simpl in H.
    destruct (IH l H) as [H1 H2]. split; assumption.
Qed.

Lemma Prefix2_refl {A : Type} (P : A -> A -> Prop) (l : list A) :
  (forall a, P a a) -> Prefix2 P l l.
Proof.
  intros H. induction l; constructor; auto.
Qed.

(** The stack of layers: the full pass against the step over the state of
    the preceding steps. *)
Lemma run_layers_step training T (memory memory_mask : option (list Tensor))
  layers :
  forall i (X : list (list vec)) nc0 att0 oF ncF attF,
    Forall (fun row => length row = T) X ->
    match memory_mask with
    | Some masks => Forall broadcast_mask masks
    | None => True
    end ->
    SelfAttentionDecoder.run_layers layers i (Rows3 X)
      (Some (Mask3 (repeat (causal T) (length X)))) memory memory_mask None
      training nc0 att0 = Ok (oF, ncF, attF) ->
    exists Y cachesF,
      oF = Rows3 Y
      /\ Forall (fun row => length row = T) Y
      /\ length Y = length X
      /\ ncF = nc0 ++ cachesF
      /\ Forall2 (fun layer cF =>
                    cache_of_batch (length X)
                      (length (_SelfAttentionDecoderLayer.attention layer)) cF)
           layers cachesF
      /\ (layers <> [] -> attF <> None)
      /\ forall t x j stateS nc0S att0S,
          column t X x ->
          Forall2 (cache_at t) cachesF (skipn j stateS) ->
          binding_column t att0 att0S ->
          exists y cachesS attS,
            SelfAttentionDecoder.run_layers layers j (Rows3 x) None memory
              memory_mask (Some stateS) training nc0S att0S
            = Ok (Rows3 y, nc0S ++ cachesS, attS)
            /\ column t Y y
            /\ Forall2 (cache_at (S t)) cachesF cachesS
            /\ binding_column t attF attS.
Proof.
  induction layers as [|layer layers IH];
    intros i X nc0 att0 oF ncF attF Hrect Hmasks Hfull.
  - simpl in Hfull. injection Hfull as <- <- <-.
    exists X, []. rewrite app_nil_r.
    split; [reflexivity |]. split; [exact Hrect |]. split; [reflexivity |].
    split; [reflexivity |]. split; [constructor |]. split; [congruence |].
    intros t x j stateS nc0S att0S Hcol _ Hatt.
    exists x, [], att0S. simpl. rewrite app_nil_r. repeat split; auto.
  - cbn [SelfAttentionDecoder.run_layers bind] in Hfull.
    apply bind_Ok in Hfull as ([[o1 c1] a1] & Hcall & Hfull).
    destruct (call_step layer training T X memory memory_mask o1 c1 a1 Hrect
                Hmasks Hcall)
      as (Y1 & K & V & mF & -> & Hrect1 & Hlen1 & HK & HV & HmF & -> & Hstep).
    rewrite <- Hlen1 in Hfull.
    destruct (IH (S i) Y1 _ _ oF ncF attF Hrect1 Hmasks Hfull)
      as (Y & cachesF & -> & HrectY & HlenY & -> & Hbatch & Hbound & HIH).
    eexists Y, (_ :: cachesF). split; [reflexivity |]. split; [exact HrectY |].
    split; [congruence |]. split; [rewrite <- app_assoc; reflexivity |].
    split.
    { constructor; [exists K, V, mF; auto |]. rewrite <- Hlen1. exact Hbatch. }
    split.
    { intros _. destruct layers as [|l ls]; [| apply Hbound; discriminate].
      simpl in Hfull. injection Hfull as _ _ <-. discriminate. }
    intros t x j stateS nc0S att0S Hcol Hstate _.
    inversion Hstate as [|cF cS ? rest Hc Hrest E1 E2]; subst.
    symmetry in E2. apply skipn_cons_nth_error in E2 as [Hnth Hskip].
    destruct Hc as (K' & V' & mF' & mc & E & HcS & Hmc & HP).
    injection E as <- <- <-.
    destruct (Hstep t x cS mc Hcol HcS Hmc HP) as (y1 & aS1 & HcallS & Hcol1 & Ha1).
    rewrite <- Hskip in Hrest.
    match type of HcallS with
    | _ = Ok (_, ?c, _) => remember c as cS' eqn:EcS'
    end.
    destruct (HIH t y1 (S j) stateS (nc0S ++ [cS']) (Some aS1) Hcol1 Hrest Ha1)
      as (y & cachesS & attS & HrunS & HcolY & HcachesS & HattS).
    exists y, (cS' :: cachesS), attS. split.
    { cbn [SelfAttentionDecoder.run_layers]. unfold getitem. rewrite Hnth.
      cbn [bind]. eapply bind_Ok_intro; [exact HcallS |]. cbn beta iota.
      rewrite <- app_assoc in HrunS. exact HrunS. }
    split; [exact HcolY |]. split; [| exact HattS].
    constructor; [| exact HcachesS].
    exists K, V, mF, mF. subst cS'. repeat split.
    apply Prefix2_refl. intros kv. left. reflexivity.
Qed.

(** ** The full pass against the steps *)

Lemma process_inputs_step self training T (X : list (list vec)) (inF : Tensor) :
  training <> Some true ->
  Forall (fun row => length row = T) X ->
  SelfAttentionDecoder.process_inputs self (Rows3 X) None training = Ok inF ->
  exists X',
    inF = Rows3 X'
    /\ Forall (fun row => length row = T) X'
    /\ length X' = length X
    /\ forall t x,
        column t X x ->
        exists x',
          SelfAttentionDecoder.process_inputs self (Rows3 x) (Some t) training
          = Ok (Rows3 x')
          /\ column t X' x'.
Proof.
  intros Htrain Hrect Hfull. unfold SelfAttentionDecoder.process_inputs in *.
  cbn [mul_sqrt ops pointwise collab bind] in *.
  assert (Hdrop : forall x : tensor,
             common_dropout x (SelfAttentionDecoder.dropout self) training
             = Some x).
  { intros x. cbn [common_dropout ops]. unfold dropout.
    destruct training as [[|]|]; [congruence | reflexivity | reflexivity]. }
  destruct (SelfAttentionDecoder.position_encoder self) as [pe|].
  - cbn [call_position_encoder ops position_encoder collab bind] in *.
    rewrite Hdrop in Hfull. cbn in Hfull. injection Hfull as <-.
    eexists. split; [reflexivity |]. split.
    { apply Forall_forall. intros row Hrow. apply in_map_iff in Hrow.
      destruct Hrow as (r & <- & Hr). rewrite length_mapi.
      apply in_map_iff in Hr. destruct Hr as (r0 & <- & Hr0).
      rewrite length_map. rewrite Forall_forall in Hrect. auto. }
    split; [rewrite !length_map; reflexivity |].
    intros t x Hcol. eexists. split.
    + rewrite Hdrop. reflexivity.
    + apply (column_position (encode_position pe)). apply column_map. exact Hcol.
  - cbn [bind] in *. rewrite Hdrop in Hfull. cbn in Hfull. injection Hfull as <-.
    eexists. split; [reflexivity |].
    split; [apply Forall_length_map; exact Hrect |].
    split; [apply length_map |].
    intros t x Hcol. eexists. split.
    + rewrite Hdrop. reflexivity.
    + apply column_map. exact Hcol.
Qed.

(** With every row of full length, the query mask of the full pass is the
    causal mask. *)
Lemma prepare_query_mask_causal T (X : list (list vec)) :
  Forall (fun row => length row = T) X ->
  SelfAttentionDecoder.prepare_query_mask (Rows3 X)
    (Some (Lengths (repeat T (length X))))
  = Ok (Some (Mask3 (repeat (causal T) (length X)))).
Proof.
  intros Hrect. unfold SelfAttentionDecoder.prepare_query_mask.
  cbn [tf_shape ops shape nth_error collab bind transformer_future_mask
       future_mask].
  destruct X as [|row X]; [reflexivity |].
  inversion Hrect as [|? ? Hrow _]; subst.
  unfold time_extent. cbn [hd]. rewrite map_repeat. reflexivity.
Qed.

Lemma mapM_Forall {A B : Type} (P : B -> Prop) (f : A -> result B)
  (l : list A) (bs : list B) :
  (forall a b, f a = Ok b -> P b) -> mapM f l = Ok bs -> Forall P bs.
Proof.
  intros Hf. revert bs. induction l as [|a l IH]; intros bs H; simpl in H.
  - injection H as <-. constructor.
  - apply bind_Ok in H as (b & Hb & H). apply bind_Ok in H as (bs' & Hbs & H).
    injection H as <-. constructor; [exact (Hf a b Hb) | exact (IH bs' Hbs)].
Qed.

(** The memory masks that [_run] builds are broadcast over the queries. *)
Lemma prepare_memory_mask_broadcast memory memory_sequence_length
  (mems masks : option (list Tensor)) :
  SelfAttentionDecoder.prepare_memory_mask memory memory_sequence_length
  = Ok (mems, masks) ->
  match masks with
  | Some masks => Forall broadcast_mask masks
  | None => True
  end.
Proof.
  unfold SelfAttentionDecoder.prepare_memory_mask.
  destruct memory_sequence_length as [lens|]; intros H.
  - apply bind_Ok in H as (zipped & _ & H).
    apply bind_Ok in H as (ms & Hms & H). injection H as _ <-.
    revert Hms. apply mapM_Forall. intros [mem len] m Hm.
    apply bind_Ok in Hm as (maxlen & _ & Hm).
    apply bind_Ok in Hm as (m2 & Hm2 & Hm).
    apply collab_Ok in Hm2. apply collab_Ok in Hm.
    cbn [tf_sequence_mask ops] in Hm2. unfold sequence_mask in Hm2.
    destruct len; try discriminate. injection Hm2 as <-.
    cbn in Hm. injection Hm as <-. eexists. reflexivity.
  - injection H as _ <-. exact I.
Qed.

(** [_run] over the full sequence against [_run] on the inputs of step [t]
    with the state of the preceding steps. *)
Lemma run_step self training T (X : list (list vec)) memory
  memory_sequence_length (oF : Tensor) stateF (aF : option Tensor) :
  training <> Some true ->
  Forall (fun row => length row = T) X ->
  SelfAttentionDecoder._run self (Rows3 X)
    (Some (Lengths (repeat T (length X)))) None memory memory_sequence_length
    None training = Ok (oF, stateF, aF) ->
  exists Y,
    oF = Rows3 Y
    /\ Forall2 (fun layer cF =>
                  cache_of_batch (length X)
                    (length (_SelfAttentionDecoderLayer.attention layer)) cF)
         (SelfAttentionDecoder.layers self) stateF
    /\ forall t x stateS,
        column t X x ->
        Forall2 (cache_at t) stateF stateS ->
        exists y stateS' aS,
          SelfAttentionDecoder._run self (Rows3 x) None (Some stateS) memory
            memory_sequence_length (Some t) training
          = Ok (Rows3 y, stateS', aS)
          /\ column t Y y
          /\ Forall2 (cache_at (S t)) stateF stateS'
          /\ attention_column t aF aS.
Proof.
  intros Htrain Hrect Hfull. unfold SelfAttentionDecoder._run in Hfull.
  apply bind_Ok in Hfull as (inF & Hin & Hfull).
  destruct (process_inputs_step self training T X inF Htrain Hrect Hin)
    as (X' & -> & Hrect' & Hlen' & Hproc).
  rewrite <- Hlen' in Hfull.
  rewrite (prepare_query_mask_causal T X' Hrect') in Hfull. cbn [bind] in Hfull.
  apply bind_Ok in Hfull as ([mems masks] & Hmask & Hfull).
  apply bind_Ok in Hfull as ([[o1 nc] att] & Hlayers & Hfull).
  apply bind_Ok in Hfull as (outputs & Hnorm & Hfull).
  destruct att as [att|]; [| discriminate]. injection Hfull as <- <- <-.
  pose proof (prepare_memory_mask_broadcast _ _ _ _ Hmask) as Hbroad.
  destruct (run_layers_step training T mems masks
              (SelfAttentionDecoder.layers self) 0 X' [] None o1 nc (Some att)
              Hrect' Hbroad Hlayers)
    as (Y1 & cachesF & -> & Hrect1 & Hlen1 & -> & Hbatch & _ & Hstep).
  apply collab_Ok in Hnorm. cbn in Hnorm. injection Hnorm as <-.
  eexists. split; [reflexivity |]. rewrite Hlen' in Hbatch.
  split; [exact Hbatch |].
  intros t x stateS Hcol Hstate.
  destruct (Hproc t x Hcol) as (x' & HprocS & Hcol').
  destruct (Hstep t x' 0 stateS [] None Hcol' Hstate I)
    as (y & cachesS & attS & HrunS & HcolY & HcachesS & HattS).
  destruct attS as [attS|]; [| contradiction].
  exists (map (map (normalize (SelfAttentionDecoder.layer_norm self))) y),
    cachesS, attS.
  split.
  - unfold SelfAttentionDecoder._run.
    eapply bind_Ok_intro; [exact HprocS |]. cbn [bind].
    unfold SelfAttentionDecoder.prepare_query_mask. cbn [bind].
    rewrite Hmask. cbn [bind].
    eapply bind_Ok_intro; [exact HrunS |]. reflexivity.
  - split; [apply column_map; exact HcolY |]. split; assumption.
Qed.

Lemma column_singletons {A : Type} (t : nat) (Y y : list (list A)) :
  column t Y y -> exists l, singletons y = Some l /\ nths t Y = Some l.
Proof.
  induction 1 as [|row srow Y y (a & Ha & ->) _ (l & Hs & Hn)].
  - exists []. split; reflexivity.
  - exists (a :: l). cbn [singletons nths]. rewrite Hs, Ha, Hn.
    split; reflexivity.
Qed.

Lemma column_of_nth {A : Type} (d : A) (T t : nat) (X : list (list A)) :
  Forall (fun row => length row = T) X ->
  t < T ->
  column t X (map (fun a => [a]) (map (fun row => nth t row d) X)).
Proof.
  intros Hrect Ht. induction Hrect as [|row X Hrow _ IH]; simpl; constructor.
  - exists (nth t row d). split; [| reflexivity].
    apply nth_error_nth'. rewrite Hrow. exact Ht.
  - exact IH.
Qed.

Lemma nths_map {A B : Type} (f : A -> B) (t : nat) (Y : list (list A)) l :
  nths t Y = Some l -> nths t (map (map f) Y) = Some (map f l).
Proof.
  revert l. induction Y as [|row Y IH]; intros l H; cbn [nths map] in *.
  - injection H as <-. reflexivity.
  - rewrite nth_error_map. destruct (nth_error row t) as [a|]; [| discriminate].
    cbn [obind option_map] in *.
    destruct (nths t Y) as [l'|]; [| discriminate].
    rewrite (IH l' eq_refl). injection H as <-. reflexivity.
Qed.

(** One [step] on column [t] of the inputs, with the state of the preceding
    steps, against the full pass. *)
Lemma step_agrees self training T (X : list (list vec)) memory
  memory_sequence_length (oF : Tensor) stateF (aF : option Tensor)
  (logits : Tensor) :
  training <> Some true ->
  Forall (fun row => length row = T) X ->
  SelfAttentionDecoder._run self (Rows3 X)
    (Some (Lengths (repeat T (length X)))) None memory memory_sequence_length
    None training = Ok (oF, stateF, aF) ->
  call_dense (SelfAttentionDecoder.output_layer self) oF = Some logits ->
  forall t stateS,
    t < T ->
    Forall2 (cache_at t) stateF stateS ->
    exists out stateS' att,
      SelfAttentionDecoder.step self
        (Rows2 (map (fun row => nth t row vec_zero) X)) t (Some stateS) memory
        memory_sequence_length training = Ok (out, stateS', att)
      /\ Forall2 (cache_at (S t)) stateF stateS'
      /\ agrees_at (SelfAttentionDecoder.output_layer self) t oF logits aF
           (out, att).
Proof.
  intros Htrain Hrect Hfull Hdense t stateS Ht Hstate.
  destruct (run_step self training T X memory memory_sequence_length oF stateF
              aF Htrain Hrect Hfull) as (Y & -> & _ & Hstep).
  destruct (Hstep t _ stateS (column_of_nth vec_zero T t X Hrect Ht) Hstate)
    as (y & stateS' & aS & HrunS & HcolY & Hstate' & HaS).
  destruct (column_singletons t Y y HcolY) as (l & Hsing & Hnths).
  cbn in Hdense. injection Hdense as <-.
  assert (Hout : exists l0,
             call_dense (SelfAttentionDecoder.output_layer self) (Rows2 l)
             = Some l0
             /\ at_time t
                  (Rows3 (map (map (project
                                      (SelfAttentionDecoder.output_layer self)))
                            Y)) = Some l0).
  { eexists. split; [reflexivity |]. cbn [at_time].
    rewrite (nths_map _ t Y l Hnths). reflexivity. }
  assert (Hat : at_time t (Rows3 Y) = Some (Rows2 l)).
  { cbn [at_time]. rewrite Hnths. reflexivity. }
  unfold SelfAttentionDecoder.step.
  cbn [tf_expand_dims ops expand_dims collab bind].
  destruct aF as [[?|?|?|?|?|?|?|WF|?]|], aS as [[?|?|?|?|?|?|?|WS|?]|];
    try contradiction.
  - destruct (column_singletons t WF WS HaS) as (lw & Hsw & Hnw).
    exists (Rows2 l), stateS', (Some (Weights2 lw)). split.
    + eapply bind_Ok_intro; [exact HrunS |]. cbn [bind].
      cbn [tf_squeeze ops squeeze]. rewrite Hsing, Hsw. reflexivity.
    + split; [exact Hstate' |]. split; [exact Hat |]. split; [exact Hout |].
      exists (Weights2 lw). cbn [at_time]. rewrite Hnw. split; reflexivity.
  - exists (Rows2 l), stateS', None. split.
    + eapply bind_Ok_intro; [exact HrunS |]. cbn [bind].
      cbn [tf_squeeze ops squeeze]. rewrite Hsing. reflexivity.
    + split; [exact Hstate' |]. split; [exact Hat |].
      split; [exact Hout | reflexivity].
Qed.

(** The caller's loop from step [t] on. *)
Lemma decode_agrees self training T (X : list (list vec)) memory
  memory_sequence_length (oF : Tensor) stateF (aF : option Tensor)
  (logits : Tensor) :
  training <> Some true ->
  Forall (fun row => length row = T) X ->
  SelfAttentionDecoder._run self (Rows3 X)
    (Some (Lengths (repeat T (length X)))) None memory memory_sequence_length
    None training = Ok (oF, stateF, aF) ->
  call_dense (SelfAttentionDecoder.output_layer self) oF = Some logits ->
  forall k t stateS,
    t + k = T ->
    Forall2 (cache_at t) stateF stateS ->
    exists results state,
      decode self
        (map (fun t => Rows2 (map (fun row => nth t row vec_zero) X)) (seq t k))
        t (Some stateS) memory memory_sequence_length training
      = Ok (results, Some state)
      /\ Forall2 (fun t r =>
                    agrees_at (SelfAttentionDecoder.output_layer self) t oF
                      logits aF r) (seq t k) results
      /\ Forall2 (cache_at T) stateF state.
Proof.
  intros Htrain Hrect Hfull Hdense.
  induction k as [|k IH]; intros t stateS Hk Hstate.
  - exists [], stateS. replace T with t by lia.
    split; [reflexivity |]. split; [constructor | exact Hstate].
  - destruct (step_agrees self training T X memory memory_sequence_length oF
                stateF aF logits Htrain Hrect Hfull Hdense t stateS
                ltac:(lia) Hstate)
      as (out & stateS' & att & Hstep & Hstate' & Hagree).
    destruct (IH (S t) stateS' ltac:(lia) Hstate')
      as (results & state & Hdec & Hres & Hlast).
    exists ((out, att) :: results), state. split.
    + cbn [seq map decode]. eapply bind_Ok_intro; [exact Hstep |]. cbn [bind].
      rewrite Hdec. reflexivity.
    + split; [| exact Hlast]. cbn [seq]. constructor; assumption.
Qed.

Lemma Prefix2_all {A B : Type} (P : A -> B -> Prop) (l : list A) (l' : list B) :
  Forall (fun a => forall b, P a b) l ->
  length l' <= length l ->
  Prefix2 P l l'.
Proof.
  intros H. revert l'. induction H as [|a l Ha _ IH]; intros [|b l'] Hlen;
    simpl in Hlen; try constructor; try lia; auto.
  apply IH. lia.
Qed.

Lemma map_firstn_0 {A : Type} (K : list (list A)) :
  map (firstn 0) K = repeat [] (length K).
Proof.
  induction K as [|r K IH]; cbn [map length repeat];
    [reflexivity | rewrite IH; reflexivity].
Qed.

(** The initial state stands in the relation of step 0 to the state of the
    full pass. *)
Lemma initial_state_cache_at (self : SelfAttentionDecoder.t) (B : nat) stateF :
  0 < SelfAttentionDecoder.num_heads self ->
  Forall (fun layer =>
            length (_SelfAttentionDecoderLayer.attention layer)
            <= SelfAttentionDecoder.num_sources self)
    (SelfAttentionDecoder.layers self) ->
  Forall2 (fun layer cF =>
             cache_of_batch B
               (length (_SelfAttentionDecoderLayer.attention layer)) cF)
    (SelfAttentionDecoder.layers self) stateF ->
  exists state0,
    SelfAttentionDecoder._get_initial_state (State := unit) self B tt None
    = Ok state0
    /\ Forall2 (cache_at 0) stateF state0.
Proof.
  intros Hheads Hsources Hbatch.
  unfold SelfAttentionDecoder._get_initial_state.
  assert (Hdiv : floordiv (SelfAttentionDecoder.num_units self)
                   (SelfAttentionDecoder.num_heads self)
                 = Ok (SelfAttentionDecoder.num_units self
                       / SelfAttentionDecoder.num_heads self)).
  { unfold floordiv.
    destruct (Nat.eqb_spec (SelfAttentionDecoder.num_heads self) 0);
      [lia | reflexivity]. }
  erewrite mapM_const; [| intros layer; rewrite Hdiv; simpl; reflexivity].
  eexists. split; [reflexivity |].
  induction Hbatch as [|layer cF layers stateF (K & V & mF & -> & HK & HV & HmF)
                         _ IH]; cbn [length repeat]; constructor.
  - exists K, V, mF. eexists. split; [reflexivity |].
    cbn [_SelfAttentionDecoderLayer.self_kv _SelfAttentionDecoderLayer.memory_kv
         tf_zeros ops zeros repeat].
    split; [rewrite !map_firstn_0, HK, HV; reflexivity |].
    split; [reflexivity |].
    apply Prefix2_all.
    + apply Forall_forall. intros kv Hkv kvF. apply in_map_iff in Hkv.
      destruct Hkv as (i & <- & _). right. eexists _, _.
      split; [reflexivity |]. destruct B; reflexivity.
    + rewrite length_map, length_seq.
      eapply Nat.le_trans; [exact HmF |]. inversion Hsources; assumption.
  - apply IH. inversion Hsources; assumption.
Qed.

Lemma layers_init_sources num_layers num_units num_heads ffn_inner_dim
  (dropout attention_dropout ffn_dropout : Float) (ffn_activation : Activation)
  (position_encoder_class : option PositionEncoder) num_sources
  (vars : nat -> _SelfAttentionDecoderLayer.variables) (output_layer : Dense) :
  Forall (fun layer =>
            length (_SelfAttentionDecoderLayer.attention layer) <= num_sources)
    (SelfAttentionDecoder.layers
       (SelfAttentionDecoder.__init__ num_layers num_units num_heads
          ffn_inner_dim dropout attention_dropout ffn_dropout ffn_activation
          position_encoder_class num_sources vars output_layer)).
Proof.
  apply Forall_forall. intros layer Hlayer. cbn in Hlayer.
  apply in_map_iff in Hlayer. destruct Hlayer as (i & <- & _).
  cbn. rewrite length_map, length_seq. apply Nat.le_refl.
Qed.

(** C1, as the code has it: in exact arithmetic and outside training, for a
    decoder built by
    [__init__] with at least one head, a batch of target sequences that all
    have the length [T] and any memory sources: when [forward] over the full
    sequences (with [sequence_length] equal to [T] in every row, which makes
    the query mask the causal mask) returns [logits], a state and an
    attention, then [_get_initial_state] returns, the [T] calls of [step]
    with the timesteps [0 .. T-1] on the columns of the inputs, threading the
    state from the initial one, all return, and at every timestep [t] the
    result of the step agrees with position [t] of the full pass: the output
    of the step is [outputs\[:, t\]] for the [outputs] that [forward] gets
    from [_run] (so that the output layer, which [forward] applies and [step]
    does not, takes it to [logits\[:, t\]]), and the attention of the step
    is [attention\[:, t\]] (or both are [None]). *)
Theorem step_decoding_agrees_with_forward
  (num_layers num_units num_heads ffn_inner_dim : nat)
  (dropout attention_dropout ffn_dropout : Float) (ffn_activation : Activation)
  (position_encoder_class : option PositionEncoder) (num_sources : nat)
  (vars : nat -> _SelfAttentionDecoderLayer.variables) (output_layer : Dense)
  (T : nat) (X : list (list vec))
  (memory memory_sequence_length : option (tensor_or_seq Tensor))
  (training : option bool)
  (logits : Tensor) (stateF : list _SelfAttentionDecoderLayer.cache_dict)
  (attention : option Tensor) :
  let self :=
    SelfAttentionDecoder.__init__ num_layers num_units num_heads ffn_inner_dim
      dropout attention_dropout ffn_dropout ffn_activation
      position_encoder_class num_sources vars output_layer in
  0 < num_heads ->
  training <> Some true ->
  Forall (fun row => length row = T) X ->
  SelfAttentionDecoder.forward (State := unit) (InputFn := unit) self (Rows3 X)
    (Some (Lengths (repeat T (length X)))) None memory memory_sequence_length
    None None training = Ok (logits, stateF, attention) ->
  exists outputs state0 results state,
    SelfAttentionDecoder._run self (Rows3 X)
      (Some (Lengths (repeat T (length X)))) None memory memory_sequence_length
      None training = Ok (outputs, stateF, attention)
    /\ call_dense output_layer outputs = Some logits
    /\ SelfAttentionDecoder._get_initial_state (State := unit) self (length X)
         tt None = Ok state0
    /\ decode self (columns T X) 0 (Some state0) memory memory_sequence_length
         training = Ok (results, Some state)
    /\ Forall2 (fun t result =>
                  agrees_at output_layer t outputs logits attention result)
         (seq 0 T) results.
Proof.
  intros self Hheads Htrain Hrect Hforward.
  unfold SelfAttentionDecoder.forward in Hforward.
  apply bind_Ok in Hforward as ([[oF sF] aF] & Hrun & Hforward).
  apply bind_Ok in Hforward as (l & Hdense & Hforward).
  apply collab_Ok in Hdense. injection Hforward as -> -> ->.
  destruct (run_step self training T X memory memory_sequence_length oF stateF
              attention Htrain Hrect Hrun) as (Y & _ & Hbatch & _).
  destruct (initial_state_cache_at self (length X) stateF Hheads
              (layers_init_sources _ _ _ _ _ _ _ _ _ _ _ _) Hbatch)
    as (state0 & Hinit & Hstate0).
  destruct (decode_agrees self training T X memory memory_sequence_length oF
              stateF attention logits Htrain Hrect Hrun Hdense T 0 state0
              eq_refl Hstate0) as (results & state & Hdec & Hres & _).
  exists oF, state0, results, state.
  split; [exact Hrun |]. split; [exact Hdense |].
  split; [exact Hinit |]. split; [exact Hdec | exact Hres].
Qed.

End Equivalence.

Section EquivalenceExample.
Import Values NatValues.

Lemma step_decoding_agrees_with_forward_witness :
  let self :=
    SelfAttentionDecoder.__init__ 2 1 1 4 0 0 0 tt (Some tt) 1 layer_variables
      tt in
  exists logits stateF attention,
    SelfAttentionDecoder.forward (State := unit) (InputFn := unit) self
      (Rows3 inputs) (Some (Lengths (repeat 3 (length inputs)))) None memory
      memory_sequence_length None None None = Ok (logits, stateF, attention)
    /\ exists outputs state0 results state,
        SelfAttentionDecoder._run self (Rows3 inputs)
          (Some (Lengths (repeat 3 (length inputs)))) None memory
          memory_sequence_length None None = Ok (outputs, stateF, attention)
        /\ call_dense tt outputs = Some logits
        /\ SelfAttentionDecoder._get_initial_state (State := unit) self
             (length inputs) tt None = Ok state0
        /\ decode self (columns 3 inputs) 0 (Some state0) memory
             memory_sequence_length None = Ok (results, Some state)
        /\ Forall2 (fun t result =>
                      agrees_at tt t outputs logits attention result)
             (seq 0 3) results.
Proof.
  intros self. eexists _, _, _. split; [vm_compute; reflexivity |].
  eapply (step_decoding_agrees_with_forward 2 1 1 4 0 0 0 tt (Some tt) 1
           layer_variables tt 3 inputs memory memory_sequence_length None);
    [lia | discriminate | repeat constructor | vm_compute; reflexivity].
Defined.

(** C1 as the spec states it fails: [forward] returns the logits, which are
    the outputs put through the output layer, and [step] returns the outputs
    themselves.  On the example, at no timestep is the output of the step the
    position of what [forward] returns. *)
Lemma step_output_is_not_forward_output :
  let self :=
    SelfAttentionDecoder.__init__ 2 1 1 4 0 0 0 tt (Some tt) 1 layer_variables
      tt in
  exists logits stateF attention state0 results state,
    SelfAttentionDecoder.forward (State := unit) (InputFn := unit) self
      (Rows3 inputs) (Some (Lengths (repeat 3 (length inputs)))) None memory
      memory_sequence_length None None None = Ok (logits, stateF, attention)
    /\ SelfAttentionDecoder._get_initial_state (State := unit) self
         (length inputs) tt None = Ok state0
    /\ decode self (columns 3 inputs) 0 (Some state0) memory
         memory_sequence_length None = Ok (results, Some state)
    /\ Forall2 (fun t result => at_time t logits <> Some (fst result))
         (seq 0 3) results.
Proof.
  intros self. eexists _, _, _, _, _, _.
  split; [vm_compute; reflexivity |]. split; [vm_compute; reflexivity |].
  split; [vm_compute; reflexivity |].
  repeat constructor; vm_compute; intros H; congruence.
Qed.

End EquivalenceExample.

(** * Further properties of the code *)

(** ** The state that a call returns *)

Section ReturnedState.
Context {TT : TensorTypes} {TO : TensorOps}.

Import SelfAttentionDecoder.

Lemma call_cache_keys layer inputs mask memory memory_mask cache training o c a :
  _SelfAttentionDecoderLayer.call layer inputs mask memory memory_mask cache
    training = Ok (o, c, a) ->
  has_both_keys c.
Proof.
  unfold _SelfAttentionDecoderLayer.call. intros H.
  apply bind_Ok in H as (res & _ & H).
  apply bind_Ok in H as ([o1 kv] & _ & H).
  apply bind_Ok in H as ([[o2 mkv] att] & _ & H).
  apply bind_Ok in H as (o3 & _ & H).
  injection H as _ <- _. split; eexists; reflexivity.
Qed.

Lemma run_layers_new_cache layers :
  forall i inputs mask memory memory_mask cache training nc att o ncF a,
    run_layers layers i inputs mask memory memory_mask cache training nc att
    = Ok (o, ncF, a) ->
    exists caches,
      ncF = nc ++ caches
      /\ length caches = length layers
      /\ Forall has_both_keys caches.
Proof.
  induction layers as [|layer layers IH];
    intros i inputs mask memory memory_mask cache training nc att o ncF a H.
  - simpl in H. injection H as _ <- _. exists []. rewrite app_nil_r.
    split; [reflexivity |]. split; [reflexivity | constructor].
  - cbn [run_layers] in H. apply bind_Ok in H as (cin & _ & H).
    apply bind_Ok in H as ([[o1 c1] a1] & Hcall & H).
    apply IH in H as (caches & -> & Hlen & Hkeys).
    exists (c1 :: caches). rewrite <- app_assoc.
    split; [reflexivity |]. split; [simpl; rewrite Hlen; reflexivity |].
    constructor; [eapply call_cache_keys; exact Hcall | exact Hkeys].
Qed.

Lemma run_new_cache self inputs sequence_length cache memory
  memory_sequence_length step training o st a :
  _run self inputs sequence_length cache memory memory_sequence_length step
    training = Ok (o, st, a) ->
  length st = length (layers self) /\ Forall has_both_keys st.
Proof.
  unfold _run. intros H.
  apply bind_Ok in H as (x & _ & H).
  apply bind_Ok in H as (mask & _ & H).
  apply bind_Ok in H as ([mems masks] & _ & H).
  apply bind_Ok in H as ([[o1 nc] att] & Hlayers & H).
  apply bind_Ok in H as (o2 & _ & H).
  destruct att as [att|]; [| discriminate]. injection H as _ <- _.
  apply run_layers_new_cache in Hlayers as (caches & -> & Hlen & Hkeys).
  split; assumption.
Qed.

(** What [forward] returns is what [_run] returns without a cache, with the
    output layer applied to the outputs. *)
Lemma forward_run (State InputFn : Type) self inputs sequence_length
  (initial_state : option State) memory memory_sequence_length
  (input_fn : option InputFn) sampling_probability training logits st a :
  forward self inputs sequence_length initial_state memory
    memory_sequence_length input_fn sampling_probability training
  = Ok (logits, st, a) ->
  sampling_probability = None
  /\ exists o,
      _run self inputs sequence_length None memory memory_sequence_length None
        training = Ok (o, st, a)
      /\ call_dense (output_layer self) o = Some logits.
Proof.
  unfold forward. destruct sampling_probability as [p|]; [discriminate |].
  intros H. split; [reflexivity |].
  apply bind_Ok in H as ([[o s] a'] & Hrun & H).
  apply bind_Ok in H as (l & Hl & H). apply collab_Ok in Hl.
  injection H as <- <- <-. exists o. split; assumption.
Qed.

(** X1: The state that [forward] or [step] returns has exactly one entry per
    layer, and every entry holds both keys, ["self_kv"] and ["memory_kv"],
    whatever state came in. *)
Theorem returned_state_entries (State InputFn : Type) self inputs
  sequence_length (initial_state : option State) memory memory_sequence_length
  (input_fn : option InputFn) sampling_probability training
  step_inputs timestep state results new_state attention :
  forward self inputs sequence_length initial_state memory
    memory_sequence_length input_fn sampling_probability training
  = Ok (results, new_state, attention)
  \/ step self step_inputs timestep state memory memory_sequence_length training
     = Ok (results, new_state, attention) ->
  length new_state = length (layers self) /\ Forall has_both_keys new_state.
Proof.
  intros [H | H].
  - apply forward_run in H as (_ & o & H & _).
    eapply run_new_cache. exact H.
  - apply step_iff in H as (x & o & a & _ & H & _).
    eapply run_new_cache. exact H.
Qed.

End ReturnedState.

Section ReturnedStateExample.
Import Shapes.

Lemma returned_state_entries_witness :
  exists results new_state attention,
    SelfAttentionDecoder.step (small_decoder 1) (float_tensor [3; 8]) 0 None
      (Some (Bare (float_tensor [3; 5; 8]))) (Some (Bare (float_tensor [3])))
      None = Ok (results, new_state, attention)
    /\ length new_state = 2
    /\ Forall has_both_keys new_state.
Proof.
  eexists _, _, _. split; [vm_compute; reflexivity |].
  eapply (returned_state_entries unit unit (small_decoder 1)
           (float_tensor [3; 4; 8]) None None
           (Some (Bare (float_tensor [3; 5; 8])))
           (Some (Bare (float_tensor [3]))) None None None
           (float_tensor [3; 8]) 0 None).
  right. vm_compute. reflexivity.
Defined.

End ReturnedStateExample.

(** ** A decoder without layers *)

Section WithoutLayers.
Context {TT : TensorTypes} {TO : TensorOps}.

Import SelfAttentionDecoder.

Lemma run_without_layers self inputs sequence_length cache memory
  memory_sequence_length step training :
  layers self = [] ->
  ~ succeeds (_run self inputs sequence_length cache memory
                memory_sequence_length step training).
Proof.
  intros Hlayers [[[o st] a] H]. unfold _run in H. rewrite Hlayers in H.
  apply bind_Ok in H as (x & _ & H).
  apply bind_Ok in H as (mask & _ & H).
  apply bind_Ok in H as ([mems masks] & _ & H).
  cbn [run_layers bind] in H.
  apply bind_Ok in H as (o2 & _ & H). discriminate.
Qed.

(** X2: A decoder built with no layers never returns from [forward] or [step]:
    the loop over the layers never binds the local [attention], and once the
    inputs, the masks and the layer normalisation went through, [_run]
    raises the UnboundLocalError of its [return]. *)
Theorem decoder_without_layers (State InputFn : Type) self inputs
  sequence_length (initial_state : option State) cache memory
  memory_sequence_length (input_fn : option InputFn) sampling_probability
  step timestep training :
  layers self = [] ->
  ~ succeeds (forward self inputs sequence_length initial_state memory
                memory_sequence_length input_fn sampling_probability training)
  /\ ~ succeeds (SelfAttentionDecoder.step self inputs timestep cache memory
                   memory_sequence_length training)
  /\ forall x mask mm o,
      process_inputs self inputs step training = Ok x ->
      prepare_query_mask x sequence_length = Ok mask ->
      prepare_memory_mask memory memory_sequence_length = Ok mm ->
      call_layer_norm (layer_norm self) x = Some o ->
      _run self inputs sequence_length cache memory memory_sequence_length
        step training = Raise unbound_attention.
Proof.
  intros Hlayers. split; [| split].
  - intros [[[l st] a] H]. apply forward_run in H as (_ & o & H & _).
    eapply run_without_layers; [exact Hlayers | eexists; exact H].
  - intros [[[o st] a] H]. apply step_iff in H as (x & o' & a' & _ & H & _).
    eapply run_without_layers; [exact Hlayers | eexists; exact H].
  - intros x mask [mems masks] o Hx Hmask Hmm Ho. unfold _run.
    rewrite Hx. cbn [bind]. rewrite Hmask. cbn [bind]. rewrite Hmm.
    cbn [bind]. rewrite Hlayers. cbn [run_layers bind]. rewrite Ho.
    reflexivity.
Qed.

End WithoutLayers.

Section WithoutLayersExample.
Import Shapes.

Lemma decoder_without_layers_witness :
  SelfAttentionDecoder.layers (decoder 0 8 2 1) = []
  /\ SelfAttentionDecoder._run (decoder 0 8 2 1) (float_tensor [3; 4; 8])
       (Some (float_tensor [3])) None (Some (Bare (float_tensor [3; 5; 8])))
       (Some (Bare (float_tensor [3]))) None None
     = Raise unbound_attention.
Proof.
  split; [reflexivity |].
  eapply (decoder_without_layers unit unit (decoder 0 8 2 1)
            (float_tensor [3; 4; 8]) (Some (float_tensor [3])) None None
            (Some (Bare (float_tensor [3; 5; 8])))
            (Some (Bare (float_tensor [3]))) None None None 0 None eq_refl);
    vm_compute; reflexivity.
Defined.

End WithoutLayersExample.

(** ** The state against the layers *)

Section StateLength.
Context {TT : TensorTypes} {TO : TensorOps}.

Import SelfAttentionDecoder.

Lemma run_layers_cache_length layers :
  forall i inputs mask memory memory_mask cache training nc att r,
    layers <> [] ->
    run_layers layers i inputs mask memory memory_mask (Some cache) training nc
      att = Ok r ->
    i + length layers <= length cache.
Proof.
  induction layers as [|layer layers IH];
    intros i inputs mask memory memory_mask cache training nc att r Hne H;
    [congruence |].
  cbn [run_layers] in H. apply bind_Ok in H as (cin & Hcin & H).
  apply bind_Ok in Hcin as (c & Hc & _). unfold getitem in Hc.
  destruct (nth_error cache i) as [c'|] eqn:Hnth; [| discriminate].
  assert (Hi : i < length cache)
    by (apply nth_error_Some; rewrite Hnth; discriminate).
  apply bind_Ok in H as ([[o1 c1] a1] & _ & H).
  destruct layers as [|layer' layers'].
  - simpl. lia.
  - apply IH in H; [| discriminate]. simpl in *. lia.
Qed.

(** X3: [step] indexes the state by the position of the layer: with a state of
    fewer entries than layers it never returns, and with an empty state and
    at least one layer [_run] raises the IndexError of [cache\[0\]] once the
    inputs and the masks went through. *)
Theorem state_shorter_than_layers self inputs sequence_length timestep state
  memory memory_sequence_length step training :
  length state < length (layers self) ->
  ~ succeeds (SelfAttentionDecoder.step self inputs timestep (Some state)
                memory memory_sequence_length training)
  /\ (state = [] ->
      forall x mask mm,
        process_inputs self inputs step training = Ok x ->
        prepare_query_mask x sequence_length = Ok mask ->
        prepare_memory_mask memory memory_sequence_length = Ok mm ->
        _run self inputs sequence_length (Some state) memory
          memory_sequence_length step training = Raise index_error).
Proof.
  intros Hlen. split.
  - intros [[[o st] a] H]. apply step_iff in H as (x & o' & a' & _ & H & _).
    unfold _run in H.
    apply bind_Ok in H as (x' & _ & H).
    apply bind_Ok in H as (mask & _ & H).
    apply bind_Ok in H as ([mems masks] & _ & H).
    apply bind_Ok in H as (r & H & _).
    apply run_layers_cache_length in H; [simpl in H; lia |].
    intros E. rewrite E in Hlen. simpl in Hlen. lia.
  - intros -> x mask [mems masks] Hx Hmask Hmm. unfold _run.
    rewrite Hx. cbn [bind]. rewrite Hmask. cbn [bind]. rewrite Hmm.
    cbn [bind]. destruct (layers self) as [|layer rest];
      [simpl in Hlen; lia | reflexivity].
Qed.

Lemma run_layers_cache_app layers :
  forall i inputs mask memory memory_mask cache extra training nc att,
    i + length layers <= length cache ->
    run_layers layers i inputs mask memory memory_mask (Some (cache ++ extra))
      training nc att
    = run_layers layers i inputs mask memory memory_mask (Some cache) training
        nc att.
Proof.
  induction layers as [|layer layers IH];
    intros i inputs mask memory memory_mask cache extra training nc att Hlen;
    [reflexivity |].
  cbn [run_layers]. simpl in Hlen. unfold getitem.
  rewrite nth_error_app1 by lia.
  destruct (nth_error cache i) as [c|]; [| reflexivity]. cbn [bind].
  destruct (_SelfAttentionDecoderLayer.call layer inputs mask memory memory_mask
              (Some c) training) as [[[o1 c1] a1]|e]; [| reflexivity].
  cbn [bind]. apply IH. lia.
Qed.

(** X4: [step] reads one entry of the state per layer and no more: entries
    beyond the number of layers are ignored, for the outputs, the returned
    state and the errors alike. *)
Theorem step_ignores_extra_state self inputs timestep state extra memory
  memory_sequence_length training :
  length (layers self) <= length state ->
  SelfAttentionDecoder.step self inputs timestep (Some (state ++ extra)) memory
    memory_sequence_length training
  = SelfAttentionDecoder.step self inputs timestep (Some state) memory
      memory_sequence_length training.
Proof.
  intros Hlen. unfold SelfAttentionDecoder.step.
  destruct (collab (tf_expand_dims inputs 1)) as [x|e]; [| reflexivity].
  cbn [bind]. unfold _run.
  destruct (process_inputs self x (Some timestep) training) as [x'|e];
    [| reflexivity].
  cbn [bind].
  destruct (prepare_memory_mask memory memory_sequence_length)
    as [[mems masks]|e]; [| reflexivity].
  cbn [bind prepare_query_mask].
  rewrite run_layers_cache_app by exact Hlen. reflexivity.
Qed.

End StateLength.

Section StateLengthExample.
Import Shapes.

Lemma state_shorter_than_layers_witness :
  SelfAttentionDecoder._run (small_decoder 1) (float_tensor [3; 1; 8]) None
    (Some []) (Some (Bare (float_tensor [3; 5; 8])))
    (Some (Bare (float_tensor [3]))) (Some 0) None
  = Raise index_error.
Proof.
  eapply (state_shorter_than_layers (small_decoder 1) (float_tensor [3; 1; 8])
            None 0 [] (Some (Bare (float_tensor [3; 5; 8])))
            (Some (Bare (float_tensor [3]))) (Some 0) None);
    [simpl; lia | reflexivity | vm_compute; reflexivity ..].
Defined.

Lemma step_ignores_extra_state_witness :
  exists state0,
    SelfAttentionDecoder._get_initial_state (State := unit) (small_decoder 1) 3
      float32 None = Ok state0
    /\ SelfAttentionDecoder.step (small_decoder 1) (float_tensor [3; 8]) 0
         (Some (state0 ++ state0)) (Some (Bare (float_tensor [3; 5; 8])))
         (Some (Bare (float_tensor [3]))) None
       = SelfAttentionDecoder.step (small_decoder 1) (float_tensor [3; 8]) 0
           (Some state0) (Some (Bare (float_tensor [3; 5; 8])))
           (Some (Bare (float_tensor [3]))) None.
Proof.
  eexists. split; [vm_compute; reflexivity |].
  apply step_ignores_extra_state. simpl. lia.
Defined.

End StateLengthExample.

(** ** Length vectors without a memory *)

Section LengthsWithoutMemory.
Context {TT : TensorTypes} {TO : TensorOps}.

Import SelfAttentionDecoder.

Lemma run_lengths_without_memory self inputs sequence_length cache
  memory_sequence_length step training :
  ~ succeeds (_run self inputs sequence_length cache None
                (Some memory_sequence_length) step training).
Proof.
  intros [[[o st] a] H]. unfold _run in H.
  apply bind_Ok in H as (x & _ & H).
  apply bind_Ok in H as (mask & _ & H).
  apply bind_Ok in H as (mm & H & _).
  unfold prepare_memory_mask in H. cbn [zip2 bind] in H. discriminate.
Qed.

(** X5: A call that gives [memory_sequence_length] and no [memory] never
    returns, from [forward] or from [step]: [_run] zips the length vectors
    with [None], which raises the TypeError of [zip] once the inputs and the
    query mask went through. *)
Theorem lengths_without_memory_raise (State InputFn : Type) self inputs
  sequence_length (initial_state : option State) cache memory_sequence_length
  (input_fn : option InputFn) sampling_probability step timestep training :
  ~ succeeds (forward self inputs sequence_length initial_state None
                (Some memory_sequence_length) input_fn sampling_probability
                training)
  /\ ~ succeeds (SelfAttentionDecoder.step self inputs timestep cache None
                   (Some memory_sequence_length) training)
  /\ forall x mask,
      process_inputs self inputs step training = Ok x ->
      prepare_query_mask x sequence_length = Ok mask ->
      _run self inputs sequence_length cache None (Some memory_sequence_length)
        step training = Raise not_iterable.
Proof.
  split; [| split].
  - intros [[[l st] a] H]. apply forward_run in H as (_ & o & H & _).
    eapply run_lengths_without_memory. eexists. exact H.
  - intros [[[o st] a] H]. apply step_iff in H as (x & o' & a' & _ & H & _).
    eapply run_lengths_without_memory. eexists. exact H.
  - intros x mask Hx Hmask. unfold _run.
    rewrite Hx. cbn [bind]. rewrite Hmask. reflexivity.
Qed.

End LengthsWithoutMemory.

(** ** The division in the initial state *)

Section InitialStateDivision.
Context {TT : TensorTypes} {TO : TensorOps}.

Import SelfAttentionDecoder.

(** X6: [_get_initial_state] divides [num_units] by [num_heads] inside the loop
    over the layers: it raises ZeroDivisionError exactly for a decoder with
    no heads and at least one layer, and returns for every other decoder (an
    empty state for a decoder without layers, whatever [num_heads]). *)
Theorem get_initial_state_division (State : Type) self batch_size dtype
  (initial_state : option State) :
  (_get_initial_state self batch_size dtype initial_state
   = Raise ZeroDivisionError
   <-> num_heads self = 0 /\ layers self <> [])
  /\ (succeeds (_get_initial_state self batch_size dtype initial_state)
      <-> ~ (num_heads self = 0 /\ layers self <> [])).
Proof.
  unfold _get_initial_state, floordiv.
  destruct (Nat.eqb_spec (num_heads self) 0) as [Hz | Hnz].
  - destruct (layers self) as [|layer rest]; cbn [mapM bind].
    + split; split.
      * discriminate.
      * intros [_ H]. congruence.
      * intros _ [_ H]. congruence.
      * intros _. eexists. reflexivity.
    + split; split.
      * intros _. split; [exact Hz | discriminate].
      * reflexivity.
      * intros [st H]. discriminate.
      * intros H. exfalso. apply H. split; [exact Hz | discriminate].
  - erewrite mapM_const; [| intros layer; reflexivity].
    split; split.
    + discriminate.
    + intros [H _]. contradiction.
    + intros _ [H _]. contradiction.
    + intros _. eexists. reflexivity.
Qed.

End InitialStateDivision.

(** ** Calls without a memory, and states without cached memories *)

Section WithoutMemory.
Context {TT : TensorTypes} {TO : TensorOps}.

Import SelfAttentionDecoder.

Lemma call_without_memory layer inputs mask memory_mask cache training o c a :
  _SelfAttentionDecoderLayer.call layer inputs mask None memory_mask cache
    training = Ok (o, c, a) ->
  _SelfAttentionDecoderLayer.memory_kv c = Some [] /\ a = None.
Proof.
  unfold _SelfAttentionDecoderLayer.call. intros H.
  apply bind_Ok in H as (res & _ & H).
  apply bind_Ok in H as ([o1 kv] & _ & H).
  cbn [bind] in H.
  apply bind_Ok in H as (o3 & _ & H).
  injection H as _ <- <-. split; reflexivity.
Qed.

Lemma run_layers_without_memory layers :
  forall i inputs mask memory_mask cache training nc att o ncF a,
    run_layers layers i inputs mask None memory_mask cache training nc att
    = Ok (o, ncF, a) ->
    exists caches,
      ncF = nc ++ caches
      /\ Forall (fun c => _SelfAttentionDecoderLayer.memory_kv c = Some [])
           caches
      /\ (a = att \/ a = Some None).
Proof.
  induction layers as [|layer layers IH];
    intros i inputs mask memory_mask cache training nc att o ncF a H.
  - simpl in H. injection H as _ <- <-. exists []. rewrite app_nil_r.
    split; [reflexivity |]. split; [constructor | left; reflexivity].
  - cbn [run_layers] in H. apply bind_Ok in H as (cin & _ & H).
    apply bind_Ok in H as ([[o1 c1] a1] & Hcall & H).
    apply call_without_memory in Hcall as [Hc1 ->].
    apply IH in H as (caches & -> & Hall & Ha).
    exists (c1 :: caches). rewrite <- app_assoc.
    split; [reflexivity |]. split; [constructor; assumption |].
    right. destruct Ha as [-> | ->]; reflexivity.
Qed.

Lemma run_without_memory self inputs sequence_length cache
  memory_sequence_length step training o st a :
  _run self inputs sequence_length cache None memory_sequence_length step
    training = Ok (o, st, a) ->
  a = None
  /\ Forall (fun c => _SelfAttentionDecoderLayer.memory_kv c = Some []) st.
Proof.
  unfold _run. intros H.
  apply bind_Ok in H as (x & _ & H).
  apply bind_Ok in H as (mask & _ & H).
  apply bind_Ok in H as ([mems masks] & Hmm & H).
  assert (mems = None) as ->.
  { unfold prepare_memory_mask in Hmm.
    destruct memory_sequence_length as [lens|]; [discriminate |].
    injection Hmm as <- _. reflexivity. }
  apply bind_Ok in H as ([[o1 nc] att] & Hlayers & H).
  apply bind_Ok in H as (o2 & _ & H).
  destruct att as [att|]; [| discriminate]. injection H as _ <- <-.
  apply run_layers_without_memory in Hlayers as (caches & -> & Hall & Ha).
  split; [| exact Hall].
  destruct Ha as [Ha | Ha]; [discriminate | injection Ha as ->; reflexivity].
Qed.

(** X7: A call without [memory] returns no attention, and in the state it
    returns every layer's ["memory_kv"] is the empty list, whatever the
    incoming state held there. *)
Theorem without_memory_state_and_attention (State InputFn : Type) self inputs
  sequence_length (initial_state : option State) memory_sequence_length
  (input_fn : option InputFn) sampling_probability training
  step_inputs timestep state results new_state attention :
  forward self inputs sequence_length initial_state None
    memory_sequence_length input_fn sampling_probability training
  = Ok (results, new_state, attention)
  \/ SelfAttentionDecoder.step self step_inputs timestep state None
       memory_sequence_length training
     = Ok (results, new_state, attention) ->
  attention = None
  /\ Forall (fun c => _SelfAttentionDecoderLayer.memory_kv c = Some [])
       new_state.
Proof.
  intros [H | H].
  - apply forward_run in H as (_ & o & H & _).
    eapply run_without_memory. exact H.
  - apply step_iff in H as (x & o & a & _ & H & _ & Ha).
    apply run_without_memory in H as [-> Hall]. split; assumption.
Qed.

Lemma combine_nil_r {A B : Type} (l : list A) : combine l (@nil B) = [].
Proof. destruct l; reflexivity. Qed.

Lemma call_empty_memory_cache layer inputs mask memory masks memory_mask' c
  training :
  _SelfAttentionDecoderLayer.memory_kv c = Some [] ->
  _SelfAttentionDecoderLayer.call layer inputs mask (Some memory) (Some masks)
    (Some c) training
  = _SelfAttentionDecoderLayer.call layer inputs mask None memory_mask'
      (Some c) training.
Proof.
  intros Hc. unfold _SelfAttentionDecoderLayer.call. rewrite Hc.
  cbn [map zip4]. rewrite combine_nil_r. reflexivity.
Qed.

Lemma run_layers_empty_memory_cache layers :
  forall i inputs mask memory masks memory_mask' cache training nc att,
    Forall (fun c => _SelfAttentionDecoderLayer.memory_kv c = Some []) cache ->
    run_layers layers i inputs mask (Some memory) (Some masks) (Some cache)
      training nc att
    = run_layers layers i inputs mask None memory_mask' (Some cache) training
        nc att.
Proof.
  induction layers as [|layer layers IH];
    intros i inputs mask memory masks memory_mask' cache training nc att Hall;
    [reflexivity |].
  cbn [run_layers]. unfold getitem.
  destruct (nth_error cache i) as [c|] eqn:Hnth; [| reflexivity].
  cbn [bind].
  rewrite (call_empty_memory_cache layer inputs mask memory masks memory_mask'
             c training).
  - destruct (_SelfAttentionDecoderLayer.call layer inputs mask None
                memory_mask' (Some c) training) as [[[o1 c1] a1]|e];
      [| reflexivity].
    cbn [bind]. apply IH. exact Hall.
  - rewrite Forall_forall in Hall. apply Hall.
    eapply nth_error_In. exact Hnth.
Qed.

(** X8: A state in which every ["memory_kv"] is the empty list (as every call
    without memory returns it) makes [step] ignore the memory: [zip] stops
    at the empty list of cached memories, and a call with memories and
    length vectors whose masks can be built returns what the call without
    them returns. *)
Theorem step_ignores_memory_with_empty_cache self inputs timestep state memory
  memory_sequence_length training :
  Forall (fun c => _SelfAttentionDecoderLayer.memory_kv c = Some []) state ->
  succeeds (prepare_memory_mask memory (Some memory_sequence_length)) ->
  SelfAttentionDecoder.step self inputs timestep (Some state) memory
    (Some memory_sequence_length) training
  = SelfAttentionDecoder.step self inputs timestep (Some state) None None
      training.
Proof.
  intros Hall [[mems masks] Hmm]. unfold SelfAttentionDecoder.step.
  destruct (collab (tf_expand_dims inputs 1)) as [x|e]; [| reflexivity].
  cbn [bind]. unfold _run.
  destruct (process_inputs self x (Some timestep) training) as [x'|e];
    [| reflexivity].
  cbn [bind prepare_query_mask]. rewrite Hmm.
  unfold prepare_memory_mask in Hmm |- *.
  apply bind_Ok in Hmm as (zipped & Hzip & Hmm).
  apply bind_Ok in Hmm as (ms & _ & Hmm). injection Hmm as <- <-.
  destruct memory as [memory|]; [| discriminate]. cbn [bind].
  rewrite (run_layers_empty_memory_cache (layers self) 0 x' None
             (as_tuple memory) ms None state training [] None Hall).
  reflexivity.
Qed.

End WithoutMemory.

Section WithoutMemoryExample.
Import Shapes.

Lemma without_memory_state_and_attention_witness :
  exists results new_state attention,
    SelfAttentionDecoder.step (small_decoder 1) (float_tensor [3; 8]) 0 None
      None None None = Ok (results, new_state, attention)
    /\ attention = None
    /\ Forall (fun c => _SelfAttentionDecoderLayer.memory_kv c = Some [])
         new_state.
Proof.
  eexists _, _, _. split; [vm_compute; reflexivity |].
  eapply (without_memory_state_and_attention unit unit (small_decoder 1)
            (float_tensor [3; 4; 8]) None None None None None None
            (float_tensor [3; 8]) 0 None).
  right. vm_compute. reflexivity.
Defined.

Lemma step_ignores_memory_with_empty_cache_witness :
  exists results state1 attention,
    SelfAttentionDecoder.step (small_decoder 1) (float_tensor [3; 8]) 0 None
      None None None = Ok (results, state1, attention)
    /\ SelfAttentionDecoder.step (small_decoder 1) (float_tensor [3; 8]) 1
         (Some state1) (Some (Bare (float_tensor [3; 5; 8])))
         (Some (Bare (float_tensor [3]))) None
       = SelfAttentionDecoder.step (small_decoder 1) (float_tensor [3; 8]) 1
           (Some state1) None None None.
Proof.
  eexists _, _, _. split; [vm_compute; reflexivity |].
  apply step_ignores_memory_with_empty_cache.
  - repeat constructor.
  - eexists. vm_compute. reflexivity.
Defined.

End WithoutMemoryExample.

(** ** How many memories a layer attends to *)

Section AttendedMemories.
Context {TT : TensorTypes} {TO : TensorOps}.

Lemma attend_memory_count zipped :
  forall outputs memory_kv att training o new a,
    _SelfAttentionDecoderLayer.attend_memory zipped outputs memory_kv att
      training = Ok (o, new, a) ->
    length new = length memory_kv + length zipped.
Proof.
  induction zipped as [|[[[layer mem] mem_mask] mem_cache] zipped IH];
    intros outputs memory_kv att training o new a H.
  - simpl in H. injection H as _ <- _. simpl. lia.
  - cbn [_SelfAttentionDecoderLayer.attend_memory] in H.
    apply bind_Ok in H as (res & _ & H).
    destruct res as [o1 kv | o1 kv w].
    + apply IH in H. rewrite H, length_app. simpl. lia.
    + apply bind_Ok in H as (a1 & _ & H).
      apply IH in H. rewrite H, length_app. simpl. lia.
Qed.

(** X9: A layer that is given memories and memory masks attends to as many of
    them as the shortest of its four lists allows, and caches exactly that
    many keys/values pairs: the memory attention sublayers, the memories,
    the masks and the cached memories of the incoming cache (one per
    sublayer when there is no cache). *)
Theorem call_attended_memories layer inputs mask memory memory_mask cache
  training outputs new_cache attention :
  _SelfAttentionDecoderLayer.call layer inputs mask (Some memory)
    (Some memory_mask) cache training = Ok (outputs, new_cache, attention) ->
  exists memory_kv,
    _SelfAttentionDecoderLayer.memory_kv new_cache = Some memory_kv
    /\ length memory_kv
       = Nat.min
           (Nat.min (length (_SelfAttentionDecoderLayer.attention layer))
              (length memory))
           (Nat.min (length memory_mask) (memory_cache_length layer cache)).
Proof.
  unfold _SelfAttentionDecoderLayer.call. intros H.
  apply bind_Ok in H as (res & _ & H).
  apply bind_Ok in H as ([o1 kv] & _ & H).
  apply bind_Ok in H as ([[o2 mkv] att] & Hmem & H).
  apply bind_Ok in H as (o3 & _ & H). injection H as _ <- _.
  exists mkv. split; [reflexivity |].
  apply bind_Ok in Hmem as (zipped & Hzip & Hmem).
  cbn [zip4] in Hzip. injection Hzip as <-.
  apply attend_memory_count in Hmem. rewrite Hmem.
  cbn [length Nat.add]. rewrite !length_combine.
  assert (Hcache :
            length
              (match
                 _SelfAttentionDecoderLayer.memory_kv
                   (match cache with
                    | Some c => c
                    | None => _SelfAttentionDecoderLayer.empty_dict
                    end)
               with
               | Some memory_cache => map Some memory_cache
               | None =>
                   repeat None
                     (length (_SelfAttentionDecoderLayer.attention layer))
               end)
            = memory_cache_length layer cache).
  { unfold memory_cache_length. destruct cache as [c|]; cbn.
    - destruct (_SelfAttentionDecoderLayer.memory_kv c);
        [apply length_map | apply repeat_length].
    - apply repeat_length. }
  rewrite Hcache. lia.
Qed.

End AttendedMemories.

Section AttendedMemoriesExample.
Import Shapes.

Lemma call_attended_memories_witness :
  let layer :=
    _SelfAttentionDecoderLayer.__init__ (TT := types) 8 2 2048 3 tt tt tt tt
      no_variables in
  exists outputs new_cache attention,
    _SelfAttentionDecoderLayer.call layer (float_tensor [3; 4; 8]) None
      (Some [float_tensor [3; 5; 8]; float_tensor [3; 6; 8]])
      (Some [float_tensor [3; 1; 5]; float_tensor [3; 1; 6]]) None None
    = Ok (outputs, new_cache, attention)
    /\ exists memory_kv,
        _SelfAttentionDecoderLayer.memory_kv new_cache = Some memory_kv
        /\ length memory_kv = 2.
Proof.
  intros layer. eexists _, _, _. split; [vm_compute; reflexivity |].
  eapply (call_attended_memories layer (float_tensor [3; 4; 8]) None
            [float_tensor [3; 5; 8]; float_tensor [3; 6; 8]]
            [float_tensor [3; 1; 5]; float_tensor [3; 1; 6]] None None).
  vm_compute. reflexivity.
Defined.

End AttendedMemoriesExample.

(** ** What the constructor builds *)

Section Construction.
Context {TT : TensorTypes} {TO : TensorOps}.

(** X10: [__init__] builds [num_layers] layers with [num_sources] memory
    attention sublayers each; every one of these has the heads and units of
    the decoder and returns its attention weights exactly when the decoder
    reports [support_alignment_history]. *)
Theorem init_memory_attention_sublayers
  (num_layers num_units num_heads ffn_inner_dim : nat)
  (dropout attention_dropout ffn_dropout : Float) (ffn_activation : Activation)
  (position_encoder_class : option PositionEncoder) (num_sources : nat)
  (vars : nat -> _SelfAttentionDecoderLayer.variables) (output_layer : Dense) :
  let self :=
    SelfAttentionDecoder.__init__ num_layers num_units num_heads ffn_inner_dim
      dropout attention_dropout ffn_dropout ffn_activation
      position_encoder_class num_sources vars output_layer in
  length (SelfAttentionDecoder.layers self) = num_layers
  /\ Forall (fun layer =>
               length (_SelfAttentionDecoderLayer.attention layer) = num_sources
               /\ Forall (fun sublayer =>
                            mha_return_attention (wrapped sublayer)
                            = SelfAttentionDecoder.support_alignment_history self
                            /\ mha_num_heads (wrapped sublayer) = num_heads
                            /\ mha_num_units (wrapped sublayer) = num_units)
                    (_SelfAttentionDecoderLayer.attention layer))
       (SelfAttentionDecoder.layers self).
Proof.
  intros self. split.
  - cbn. rewrite length_map, length_seq. reflexivity.
  - apply Forall_forall. intros layer Hlayer. cbn in Hlayer.
    apply in_map_iff in Hlayer. destruct Hlayer as (i & <- & _). split.
    + cbn. rewrite length_map, length_seq. reflexivity.
    + apply Forall_forall. intros sublayer Hsub. cbn in Hsub.
      apply in_map_iff in Hsub. destruct Hsub as (j & <- & _).
      cbn. repeat split.
Qed.

End Construction.

(** ** The exceptions of the decoder's own statements *)

Section OwnExceptions.
Context {TT : TensorTypes} {TO : TensorOps}.
Variable allowed : exn -> Prop.

Import SelfAttentionDecoder.

Lemma raises_only_bind {A B : Type} (m : result A) (k : A -> result B) :
  raises_only allowed m ->
  (forall a, raises_only allowed (k a)) ->
  raises_only allowed (bind m k).
Proof.
  intros Hm Hk. destruct m as [a|e]; [apply Hk | exact Hm].
Qed.

Lemma raises_only_collab {A : Type} (r : option A) :
  allowed CollaboratorError -> raises_only allowed (collab r).
Proof.
  intros H. destruct r; [exact I | exact H].
Qed.

Lemma raises_only_mapM {A B : Type} (f : A -> result B) (l : list A) :
  (forall a, raises_only allowed (f a)) -> raises_only allowed (mapM f l).
Proof.
  intros Hf. induction l as [|a l IH]; [exact I |].
  cbn [mapM]. apply raises_only_bind; [apply Hf | intros b].
  apply raises_only_bind; [exact IH | intros bs; exact I].
Qed.

Hypothesis allows_collaborators : allowed CollaboratorError.
Hypothesis allows_zip : allowed not_iterable.
Hypothesis allows_unpack : allowed unpack_error.
Hypothesis allows_unbound : allowed unbound_attention.

Lemma raises_only_attend_memory zipped :
  forall outputs memory_kv attention training,
    raises_only allowed
      (_SelfAttentionDecoderLayer.attend_memory zipped outputs memory_kv
         attention training).
Proof.
  induction zipped as [|[[[layer mem] mem_mask] mem_cache] zipped IH];
    intros outputs memory_kv attention training; [exact I |].
  cbn [_SelfAttentionDecoderLayer.attend_memory].
  apply raises_only_bind;
    [apply raises_only_collab; exact allows_collaborators |].
  intros [o kv | o kv w]; [apply IH |].
  apply raises_only_bind;
    [apply raises_only_collab; exact allows_collaborators | intros a; apply IH].
Qed.

Lemma raises_only_call layer inputs mask memory memory_mask cache training :
  raises_only allowed
    (_SelfAttentionDecoderLayer.call layer inputs mask memory memory_mask cache
       training).
Proof.
  unfold _SelfAttentionDecoderLayer.call.
  apply raises_only_bind;
    [apply raises_only_collab; exact allows_collaborators | intros res].
  apply raises_only_bind.
  { destruct res; [exact I | exact allows_unpack]. }
  intros [o kv]. apply raises_only_bind.
  { destruct memory as [memory|]; [| exact I].
    apply raises_only_bind; [| intros zipped; apply raises_only_attend_memory].
    destruct memory_mask as [memory_mask|]; [exact I | exact allows_zip]. }
  intros [[o2 mkv] att].
  apply raises_only_bind;
    [apply raises_only_collab; exact allows_collaborators | intros o3; exact I].
Qed.

Lemma raises_only_run_layers layers :
  forall i inputs mask memory memory_mask cache training nc att,
    (cache <> None -> allowed index_error) ->
    raises_only allowed
      (run_layers layers i inputs mask memory memory_mask cache training nc
         att).
Proof.
  induction layers as [|layer layers IH];
    intros i inputs mask memory memory_mask cache training nc att Hindex;
    [exact I |].
  cbn [run_layers]. apply raises_only_bind.
  { destruct cache as [cache|]; [| exact I].
    apply raises_only_bind; [| intros c; exact I].
    unfold getitem. destruct (nth_error cache i); [exact I |].
    apply Hindex. discriminate. }
  intros cin. apply raises_only_bind; [apply raises_only_call |].
  intros [[o1 c1] a1]. apply IH. exact Hindex.
Qed.

Lemma raises_only_run self inputs sequence_length cache memory
  memory_sequence_length step training :
  (cache <> None -> allowed index_error) ->
  raises_only allowed
    (_run self inputs sequence_length cache memory memory_sequence_length step
       training).
Proof.
  intros Hindex. unfold _run. apply raises_only_bind.
  { unfold process_inputs.
    apply raises_only_bind;
      [apply raises_only_collab; exact allows_collaborators | intros x].
    apply raises_only_bind;
      [| intros x'; apply raises_only_collab; exact allows_collaborators].
    destruct (position_encoder self); [| exact I].
    apply raises_only_collab; exact allows_collaborators. }
  intros x. apply raises_only_bind.
  { unfold prepare_query_mask. destruct sequence_length; [| exact I].
    apply raises_only_bind;
      [apply raises_only_collab; exact allows_collaborators | intros n].
    apply raises_only_bind;
      [apply raises_only_collab; exact allows_collaborators | intros m; exact I]. }
  intros mask. apply raises_only_bind.
  { unfold prepare_memory_mask.
    destruct memory_sequence_length as [lens|]; [| exact I].
    apply raises_only_bind.
    { destruct memory; [exact I | exact allows_zip]. }
    intros zipped. apply raises_only_bind; [| intros ms; exact I].
    apply raises_only_mapM. intros [mem len].
    apply raises_only_bind;
      [apply raises_only_collab; exact allows_collaborators | intros n].
    apply raises_only_bind;
      [apply raises_only_collab; exact allows_collaborators | intros m].
    apply raises_only_collab; exact allows_collaborators. }
  intros [mems masks]. apply raises_only_bind;
    [apply raises_only_run_layers; exact Hindex |].
  intros [[o nc] att]. apply raises_only_bind;
    [apply raises_only_collab; exact allows_collaborators | intros o'].
  destruct att; [exact I | exact allows_unbound].
Qed.

End OwnExceptions.

Section OwnExceptionsOfTheCalls.
Context {TT : TensorTypes} {TO : TensorOps}.

Import SelfAttentionDecoder.

(** X11: Apart from a failure inside the tensor library or a sublayer,
    [_run] without a cache, which is the core of [forward], raises nothing
    but the ValueError of unpacking, the TypeError of [zip] on [None] and the
    UnboundLocalError of [attention], so never the IndexError of
    [cache\[i\]]; [step] raises nothing but these and that IndexError, so
    never the error of the guard of [forward].  When [forward] raises, it is
    the error of its guard, or the error that [_run] raised, or [_run]
    returned and the call of the output layer failed. *)
Theorem own_exceptions (State InputFn : Type) self inputs sequence_length
  (initial_state : option State) memory memory_sequence_length
  (input_fn : option InputFn) sampling_probability step training
  step_inputs timestep state :
  raises_only run_errors
    (_run self inputs sequence_length None memory memory_sequence_length step
       training)
  /\ _run self inputs sequence_length None memory memory_sequence_length step
       training <> Raise index_error
  /\ raises_only step_errors
       (SelfAttentionDecoder.step self step_inputs timestep state memory
          memory_sequence_length training)
  /\ SelfAttentionDecoder.step self step_inputs timestep state memory
       memory_sequence_length training
     <> Raise sampling_error
  /\ raises_only
       (fun e =>
          e = sampling_error
          \/ _run self inputs sequence_length None memory
               memory_sequence_length None training = Raise e
          \/ exists o st a,
              _run self inputs sequence_length None memory
                memory_sequence_length None training = Ok (o, st, a)
              /\ call_dense (output_layer self) o = None)
       (forward self inputs sequence_length initial_state memory
          memory_sequence_length input_fn sampling_probability training).
Proof.
  assert (Hrun :
            raises_only run_errors
              (_run self inputs sequence_length None memory
                 memory_sequence_length step training)).
  { apply raises_only_run; unfold run_errors; auto 6. congruence. }
  assert (Hstep :
            raises_only step_errors
              (SelfAttentionDecoder.step self step_inputs timestep state memory
                 memory_sequence_length training)).
  { unfold SelfAttentionDecoder.step.
    assert (Hc : step_errors CollaboratorError)
      by (unfold step_errors; auto 6).
    apply raises_only_bind; [apply raises_only_collab; exact Hc | intros x].
    apply raises_only_bind.
    { apply raises_only_run; unfold step_errors; auto 6. }
    intros [[o st] a].
    apply raises_only_bind; [apply raises_only_collab; exact Hc | intros o'].
    apply raises_only_bind; [| intros a'; exact I].
    destruct a as [a|]; [| exact I].
    apply raises_only_bind; [apply raises_only_collab; exact Hc |].
    intros a'; exact I. }
  split; [exact Hrun |]. split.
  { intros E. rewrite E in Hrun.
    destruct Hrun as [H | [H | [H | H]]]; discriminate. }
  split; [exact Hstep |]. split.
  { intros E. rewrite E in Hstep.
    destruct Hstep as [H | [H | [H | [H | H]]]]; discriminate. }
  unfold forward. destruct sampling_probability as [p|].
  - left. reflexivity.
  - destruct (_run self inputs sequence_length None memory
                memory_sequence_length None training)
      as [[[o st] a]|e] eqn:E; cbn [bind].
    + destruct (call_dense (output_layer self) o) eqn:Ed; cbn; [exact I |].
      right. right. exists o, st, a. split; [reflexivity | exact Ed].
    + right. left. reflexivity.
Qed.

End OwnExceptionsOfTheCalls.

(** ** The full pass does not look ahead *)

Section Causality.
Import Values.
Context {C : Carrier} {N : Numerics}.

Lemma nth_of_firstn {A : Type} (d : A) (n k : nat) (r r' : list A) :
  firstn n r = firstn n r' -> k < n -> nth k r d = nth k r' d.
Proof.
  revert k r r'. induction n as [|n IH]; intros k r r' H Hk; [lia |].
  destruct r as [|a r], r' as [|a' r']; try discriminate; [reflexivity |].
  simpl in H. injection H as <- H.
  destruct k as [|k]; [reflexivity |]. simpl. apply IH; [exact H | lia].
Qed.

Lemma column_of_prefix (n k : nat) (X X' : list (list vec)) :
  Forall2 (fun row row' => firstn n row = firstn n row') X X' ->
  k < n ->
  map (fun row => nth k row vec_zero) X
  = map (fun row => nth k row vec_zero) X'.
Proof.
  intros H Hk. induction H as [|row row' X X' Hrow _ IH]; [reflexivity |].
  simpl. rewrite IH, (nth_of_firstn vec_zero n k row row' Hrow Hk).
  reflexivity.
Qed.

(** The states of the steps over two batches that agree on a prefix stand
    in the relation of the step to the states of both full passes. *)
Lemma common_state self training T n (X X' : list (list vec)) memory
  memory_sequence_length (oF oF' : Tensor) stateF stateF'
  (aF aF' : option Tensor) (logits logits' : Tensor) state0 :
  training <> Some true ->
  Forall (fun row => length row = T) X ->
  Forall (fun row => length row = T) X' ->
  Forall2 (fun row row' => firstn n row = firstn n row') X X' ->
  n <= T ->
  SelfAttentionDecoder._run self (Rows3 X)
    (Some (Lengths (repeat T (length X)))) None memory memory_sequence_length
    None training = Ok (oF, stateF, aF) ->
  SelfAttentionDecoder._run self (Rows3 X')
    (Some (Lengths (repeat T (length X')))) None memory memory_sequence_length
    None training = Ok (oF', stateF', aF') ->
  call_dense (SelfAttentionDecoder.output_layer self) oF = Some logits ->
  call_dense (SelfAttentionDecoder.output_layer self) oF' = Some logits' ->
  Forall2 (cache_at 0) stateF state0 ->
  Forall2 (cache_at 0) stateF' state0 ->
  forall t,
    t <= n ->
    exists state,
      Forall2 (cache_at t) stateF state /\ Forall2 (cache_at t) stateF' state.
Proof.
  intros Htrain Hrect Hrect' Hprefix Hn Hrun Hrun' Hdense Hdense' H0 H0'.
  induction t as [|t IH]; intros Ht.
  - exists state0. split; assumption.
  - destruct IH as (state & Hs & Hs'); [lia |].
    destruct (step_agrees self training T X memory memory_sequence_length oF
                stateF aF logits Htrain Hrect Hrun Hdense t state ltac:(lia) Hs)
      as (out & s1 & att & Hstep & Hs1 & _).
    destruct (step_agrees self training T X' memory memory_sequence_length oF'
                stateF' aF' logits' Htrain Hrect' Hrun' Hdense' t state
                ltac:(lia) Hs')
      as (out' & s1' & att' & Hstep' & Hs1' & _).
    rewrite <- (column_of_prefix n t X X' Hprefix ltac:(lia)) in Hstep'.
    rewrite Hstep in Hstep'. injection Hstep' as _ <- _.
    exists s1. split; assumption.
Qed.

(** X12: In exact arithmetic and outside training, for a decoder built by
    [__init__] with at least one head: the logits and the attention of
    [forward] at position [t] depend on the inputs up to position [t] only.
    Two batches of sequences of the length [T] that agree on the positions
    [0 .. t], passed with the same memories and with [sequence_length] equal
    to [T] in every row, give the same logits and the same attention at
    [t]. *)
Theorem forward_does_not_look_ahead
  (num_layers num_units num_heads ffn_inner_dim : nat)
  (dropout attention_dropout ffn_dropout : Float) (ffn_activation : Activation)
  (position_encoder_class : option PositionEncoder) (num_sources : nat)
  (vars : nat -> _SelfAttentionDecoderLayer.variables) (output_layer : Dense)
  (T t : nat) (X X' : list (list vec))
  (memory memory_sequence_length : option (tensor_or_seq Tensor))
  (training : option bool)
  (logits logits' : Tensor)
  (stateF stateF' : list _SelfAttentionDecoderLayer.cache_dict)
  (attention attention' : option Tensor) :
  let self :=
    SelfAttentionDecoder.__init__ num_layers num_units num_heads ffn_inner_dim
      dropout attention_dropout ffn_dropout ffn_activation
      position_encoder_class num_sources vars output_layer in
  0 < num_heads ->
  training <> Some true ->
  t < T ->
  Forall (fun row => length row = T) X ->
  Forall (fun row => length row = T) X' ->
  Forall2 (fun row row' => firstn (S t) row = firstn (S t) row') X X' ->
  SelfAttentionDecoder.forward (State := unit) (InputFn := unit) self (Rows3 X)
    (Some (Lengths (repeat T (length X)))) None memory memory_sequence_length
    None None training = Ok (logits, stateF, attention) ->
  SelfAttentionDecoder.forward (State := unit) (InputFn := unit) self (Rows3 X')
    (Some (Lengths (repeat T (length X')))) None memory memory_sequence_length
    None None training = Ok (logits', stateF', attention') ->
  (exists l, at_time t logits = Some l /\ at_time t logits' = Some l)
  /\ match attention, attention' with
     | Some a, Some a' =>
         exists w, at_time t a = Some w /\ at_time t a' = Some w
     | None, None => True
     | _, _ => False
     end.
Proof.
  intros self Hheads Htrain Ht Hrect Hrect' Hprefix Hforward Hforward'.
  unfold SelfAttentionDecoder.forward in Hforward, Hforward'.
  apply bind_Ok in Hforward as ([[oF sF] aF] & Hrun & Hforward).
  apply bind_Ok in Hforward as (l & Hdense & Hforward).
  apply collab_Ok in Hdense. injection Hforward as -> -> ->.
  apply bind_Ok in Hforward' as ([[oF' sF'] aF'] & Hrun' & Hforward').
  apply bind_Ok in Hforward' as (l' & Hdense' & Hforward').
  apply collab_Ok in Hdense'. injection Hforward' as -> -> ->.
  destruct (run_step self training T X memory memory_sequence_length oF stateF
              attention Htrain Hrect Hrun) as (Y & _ & Hbatch & _).
  destruct (run_step self training T X' memory memory_sequence_length oF'
              stateF' attention' Htrain Hrect' Hrun') as (Y' & _ & Hbatch' & _).
  destruct (initial_state_cache_at self (length X) stateF Hheads
              (layers_init_sources _ _ _ _ _ _ _ _ _ _ _ _) Hbatch)
    as (state0 & Hinit & Hstate0).
  destruct (initial_state_cache_at self (length X') stateF' Hheads
              (layers_init_sources _ _ _ _ _ _ _ _ _ _ _ _) Hbatch')
    as (state0' & Hinit' & Hstate0').
  rewrite <- (Forall2_length Hprefix) in Hinit'.
  rewrite Hinit in Hinit'. injection Hinit' as <-.
  destruct (common_state self training T (S t) X X' memory
              memory_sequence_length oF oF' stateF stateF' attention attention'
              logits logits' state0 Htrain Hrect Hrect' Hprefix ltac:(lia)
              Hrun Hrun' Hdense Hdense' Hstate0 Hstate0' t ltac:(lia))
    as (state & Hs & Hs').
  destruct (step_agrees self training T X memory memory_sequence_length oF
              stateF attention logits Htrain Hrect Hrun Hdense t state Ht Hs)
    as (out & s1 & att & Hstep & _ & _ & (lt & Hlt & Hat) & Hatt).
  destruct (step_agrees self training T X' memory memory_sequence_length oF'
              stateF' attention' logits' Htrain Hrect' Hrun' Hdense' t state Ht
              Hs')
    as (out' & s1' & att' & Hstep' & _ & _ & (lt' & Hlt' & Hat') & Hatt').
  rewrite <- (column_of_prefix (S t) t X X' Hprefix ltac:(lia)) in Hstep'.
  rewrite Hstep in Hstep'. injection Hstep' as <- _ <-.
  cbn [fst snd] in *. split.
  - exists lt. split; [exact Hat |]. rewrite Hlt in Hlt'.
    injection Hlt' as <-. exact Hat'.
  - destruct attention as [a|], attention' as [a'|].
    + destruct Hatt as (w & Hw & Hsnd), Hatt' as (w' & Hw' & Hsnd').
      rewrite Hsnd in Hsnd'. injection Hsnd' as <-.
      exists w. split; assumption.
    + destruct Hatt as (w & _ & Hsnd). congruence.
    + destruct Hatt' as (w & _ & Hsnd). congruence.
    + exact I.
Qed.

End Causality.

Section CausalityExample.
Import Values NatValues.

Lemma forward_does_not_look_ahead_witness :
  let self :=
    SelfAttentionDecoder.__init__ 2 1 1 4 0 0 0 tt (Some tt) 1 layer_variables
      tt in
  match
    SelfAttentionDecoder.forward (State := unit) (InputFn := unit) self
      (Rows3 inputs) (Some (Lengths (repeat 3 (length inputs)))) None memory
      memory_sequence_length None None None,
    SelfAttentionDecoder.forward (State := unit) (InputFn := unit) self
      (Rows3 [[1; 2; 9]; [4; 5; 0]])
      (Some (Lengths (repeat 3 (length [[1; 2; 9]; [4; 5; 0]])))) None memory
      memory_sequence_length None None None
  with
  | Ok (logits, _, attention), Ok (logits', _, attention') =>
      (exists l, at_time 1 logits = Some l /\ at_time 1 logits' = Some l)
      /\ match attention, attention' with
         | Some a, Some a' =>
             exists w, at_time 1 a = Some w /\ at_time 1 a' = Some w
         | None, None => True
         | _, _ => False
         end
  | _, _ => False
  end.
Proof.
  intros self.
  lazymatch goal with
  | |- match ?f with _ => _ end =>
      destruct f as [[[logits stateF] attention]|e] eqn:E;
        [| vm_compute in E; discriminate]
  end.
  lazymatch goal with
  | |- match ?f with _ => _ end =>
      destruct f as [[[logits' stateF'] attention']|e] eqn:E';
        [| vm_compute in E'; discriminate]
  end.
  apply (forward_does_not_look_ahead 2 1 1 4 0 0 0 tt (Some tt) 1
           layer_variables tt 3 1 inputs [[1; 2; 9]; [4; 5; 0]] memory
           memory_sequence_length None logits logits' stateF stateF' attention
           attention');
    [lia | discriminate | lia | repeat constructor | repeat constructor
     | repeat constructor | exact E | exact E'].
Defined.

End CausalityExample.

(** ** Stepping on from the state of a full pass *)

Section ForwardThenStep.
Import Shapes.

(** X13: On the shapes of the tensors: [forward] over inputs \[B, T, _\] returns
    logits \[B, T, vocabulary\] and a state that [step] accepts as the state
    of [T] cached timesteps: the step at timestep [T] on that state returns
    outputs \[B, num_units\] and a state of [T + 1] cached timesteps, with
    the keys and values of the same memories. *)
Theorem forward_state_primes_step
  (num_layers num_units num_heads ffn_inner_dim : nat)
  (dropout attention_dropout ffn_dropout : Float) (ffn_activation : Activation)
  (position_encoder_class : option PositionEncoder) (num_sources : nat)
  (vars : nat -> _SelfAttentionDecoderLayer.variables) (output_layer : Dense)
  (B T U U' : nat) (inputs next : Tensor) (sequence_length : option Tensor)
  (memory memory_sequence_length : option (tensor_or_seq Tensor))
  (training : option bool) (Ss : list nat) :
  0 < num_layers ->
  0 < num_heads ->
  shape inputs = [B; T; U] ->
  match sequence_length with
  | Some l => shape l = [B]
  | None => True
  end ->
  shape next = [B; U'] ->
  memory_args_fit num_sources B Ss memory memory_sequence_length ->
  let self :=
    SelfAttentionDecoder.__init__ num_layers num_units num_heads ffn_inner_dim
      dropout attention_dropout ffn_dropout ffn_activation
      position_encoder_class num_sources vars output_layer in
  exists logits state attention outputs state' attention',
    SelfAttentionDecoder.forward (State := unit) (InputFn := unit) self inputs
      sequence_length None memory memory_sequence_length None None training
    = Ok (logits, state, attention)
    /\ shape logits = [B; T; output_layer]
    /\ Forall (cache_has_shapes [B; num_heads; T; num_units / num_heads]
                 (memory_shapes B num_heads num_units Ss)) state
    /\ SelfAttentionDecoder.step self next T (Some state) memory
         memory_sequence_length training = Ok (outputs, state', attention')
    /\ shape outputs = [B; num_units]
    /\ Forall (cache_has_shapes [B; num_heads; T + 1; num_units / num_heads]
                 (memory_shapes B num_heads num_units Ss)) state'.
Proof.
  intros Hnum Hheads Hin Hsl Hnext Hmem self.
  assert (Hlayers : Forall (layer_of num_heads num_units num_sources)
                      (SelfAttentionDecoder.layers self))
    by apply layers_init_of.
  assert (Hl : length (SelfAttentionDecoder.layers self) = num_layers)
    by apply layers_init_length.
  assert (Hne : SelfAttentionDecoder.layers self <> []).
  { intros E. rewrite E in Hl. simpl in Hl. lia. }
  destruct (run_shape B num_heads num_units num_sources Hheads self inputs
              sequence_length None memory memory_sequence_length None training
              T U 0 Ss Hlayers Hne Hin
              ltac:(destruct sequence_length; [split; [exact Hsl | reflexivity]
                                              | exact I])
              eq_refl Hmem)
    as (o & state & att & Hrun & Ho & Hlen & Hstate & _).
  assert (Hfit : state_fits B num_heads num_units
                   (length (SelfAttentionDecoder.layers self)) T Ss (Some state)).
  { split; [rewrite Hlen; apply Nat.le_refl |].
    eapply Forall_impl; [| exact Hstate]. intros c Hc.
    apply cache_has_shapes_fits. exact Hc. }
  destruct (step_shape B num_heads num_units num_sources Hheads self next T
              (Some state) memory memory_sequence_length training U' T Ss
              Hlayers Hne Hnext Hfit Hmem)
    as (out & state' & att' & Hstep & Hout & _ & Hstate' & _).
  exists {| shape := [B; T; output_layer]; dt := dt o |}, state, att, out,
    state', att'.
  split.
  { unfold SelfAttentionDecoder.forward.
    eapply bind_Ok_intro; [exact Hrun |]. cbn beta iota.
    cbn [call_dense ops SelfAttentionDecoder.output_layer self
         SelfAttentionDecoder.__init__].
    unfold dense. rewrite Ho. reflexivity. }
  split; [reflexivity |]. split; [exact Hstate |].
  split; [exact Hstep |]. split; [exact Hout | exact Hstate'].
Qed.

Lemma forward_state_primes_step_witness :
  exists logits state attention outputs state' attention',
    SelfAttentionDecoder.forward (State := unit) (InputFn := unit)
      (small_decoder 1) (float_tensor [3; 4; 8]) (Some (float_tensor [3])) None
      (Some (Bare (float_tensor [3; 5; 8]))) (Some (Bare (float_tensor [3])))
      None None None = Ok (logits, state, attention)
    /\ shape logits = [3; 4; 100]
    /\ Forall (cache_has_shapes [3; 2; 4; 8 / 2] (memory_shapes 3 2 8 [5])) state
    /\ SelfAttentionDecoder.step (small_decoder 1) (float_tensor [3; 8]) 4
         (Some state) (Some (Bare (float_tensor [3; 5; 8])))
         (Some (Bare (float_tensor [3]))) None
       = Ok (outputs, state', attention')
    /\ shape outputs = [3; 8]
    /\ Forall (cache_has_shapes [3; 2; 4 + 1; 8 / 2] (memory_shapes 3 2 8 [5]))
         state'.
Proof.
  apply (forward_state_primes_step 2 8 2 2048 tt tt tt tt (Some tt) 1
           (fun _ => no_variables) 100 3 4 8 8 (float_tensor [3; 4; 8])
           (float_tensor [3; 8]) (Some (float_tensor [3]))
           (Some (Bare (float_tensor [3; 5; 8])))
           (Some (Bare (float_tensor [3]))) None [5]).
  - lia.
  - lia.
  - reflexivity.
  - reflexivity.
  - reflexivity.
  - exists [5]. repeat split.
    + repeat constructor. exists 8. reflexivity.
    + repeat constructor.
Defined.

End ForwardThenStep.

(** ** What the timestep is used for *)

Section Timestep.
Context {TT : TensorTypes} {TO : TensorOps}.

Import SelfAttentionDecoder.

(** X14: [step] uses [timestep] for the position encoding and for nothing
    else: a decoder built without a position encoder returns the same
    outputs, state and attention (or raises the same error) at every
    timestep, the state being the same. *)
Theorem timestep_only_encodes_position self inputs timestep timestep' state
  memory memory_sequence_length training :
  position_encoder self = None ->
  SelfAttentionDecoder.step self inputs timestep state memory
    memory_sequence_length training
  = SelfAttentionDecoder.step self inputs timestep' state memory
      memory_sequence_length training.
Proof.
  intros Hpe. unfold SelfAttentionDecoder.step.
  destruct (collab (tf_expand_dims inputs 1)) as [x|e]; [| reflexivity].
  cbn [bind]. unfold _run, process_inputs. rewrite Hpe. reflexivity.
Qed.

End Timestep.

Section TimestepExample.
Import Shapes.

Lemma timestep_only_encodes_position_witness :
  let self :=
    SelfAttentionDecoder.__init__ (TT := types) 2 8 2 2048 tt tt tt tt None 1
      (fun _ => no_variables) 100 in
  SelfAttentionDecoder.step self (float_tensor [3; 8]) 0 None
    (Some (Bare (float_tensor [3; 5; 8]))) (Some (Bare (float_tensor [3]))) None
  = SelfAttentionDecoder.step self (float_tensor [3; 8]) 7 None
      (Some (Bare (float_tensor [3; 5; 8]))) (Some (Bare (float_tensor [3])))
      None.
Proof.
  intros self. apply timestep_only_encodes_position. reflexivity.
Defined.

End TimestepExample.
